(** * bardo-web: the views of [world/views.py]

    A shallow embedding of the request handlers of the synchronisation
    backend: the property store, the permission engine built on it and the
    action log with its cursor-based sync.  Tables are lists of rows in
    primary-key (insertion) order, a queryset is a filtered list, and a
    handler is a function from the database and the request to the JSON
    envelope and the database it leaves behind. *)

From Stdlib Require Import ZArith List String Bool Lia Sorted Permutation.
From Stdlib Require Import DecimalString.
Import ListNotations.

Open Scope string_scope.
Open Scope Z_scope.

(** ** Exceptions

    The exceptions the handlers can meet.  Every handler ends in the same
    three [except] clauses: [Http404], [JSONDecodeError], [Exception]. *)

Inductive exn : Type :=
| Http404 (msg : string)
| JSONDecodeError (msg : string)
| KeyError (key : string)
| MultipleObjectsReturned (model : string)
| IntegrityError
| DoesNotExist (model : string)
| AttributeError (attribute : string)
| ValueError.

Definition result (A : Type) : Type := (exn + A)%type.

Definition ok {A} (x : A) : result A := inr x.
Definition raise {A} (e : exn) : result A := inl e.

Definition rbind {A B} (m : result A) (k : A -> result B) : result B :=
  match m with
  | inl e => inl e
  | inr x => k x
  end.

Declare Scope result_scope.
Delimit Scope result_scope with result.
Notation "x <- m ;; k" := (rbind m (fun x => k))
  (at level 61, m at next level, right associativity) : result_scope.

(** Code that writes to the database runs in a state monad over [S]
    layered on [result].  An exception does not undo the writes made
    before it: the state reached is returned next to the exception. *)

Definition M (S A : Type) : Type := S -> result A * S.

Definition mret {S A} (x : A) : M S A := fun s => (ok x, s).
Definition mraise {S A} (e : exn) : M S A := fun s => (raise e, s).

Definition mbind {S A B} (m : M S A) (k : A -> M S B) : M S B :=
  fun s =>
    match m s with
    | (inl e, s') => (inl e, s')
    | (inr x, s') => k x s'
    end.

(** A read of the state that may raise, and a write. *)
Definition query {S A} (f : S -> result A) : M S A := fun s => (f s, s).
Definition update {S} (f : S -> S) : M S unit := fun s => (ok tt, f s).

Declare Scope M_scope.
Delimit Scope M_scope with M.
Notation "x <- m ;; k" := (mbind m (fun x => k))
  (at level 61, m at next level, right associativity) : M_scope.
Notation "m ;; k" := (mbind m (fun _ => k))
  (at level 61, right associativity) : M_scope.

(** ** Data model *)

(** Modelled from the spec: [world.models] and the auth user model are not
    part of the sources.  A row keeps the columns the views read or write;
    a foreign key holds the primary key of the row it points to, and a
    nullable foreign key is an [option].  A campaign property, which the
    views read together with its user ([x.user.username]), carries the
    user row its key points to.  Timestamps are instants counted in
    microseconds, the ISO-8601 text of a response being their rendering. *)

Record User : Type := mkUser {
  user_pk : Z;
  username : string
}.

Record Campaign : Type := mkCampaign {
  campaign_pk : Z;
  campaign_id : string;
  campaign_name : string;
  campaign_updated : Z
}.

Record Map : Type := mkMap {
  map_pk : Z;
  map_campaign : Z;
  map_id : string;
  map_name : string;
  map_data : string;
  map_saved : Z
}.

Record CampaignProperty : Type := mkCampaignProperty {
  cp_campaign : Z;
  cp_user : option User;
  cp_name : string;
  cp_value : string
}.

Record MapProperty : Type := mkMapProperty {
  mp_map : Z;
  mp_user : option Z;
  mp_name : string;
  mp_value : string
}.

(** [action_data] is the JSON text [json.dumps] wrote on insert; a response
    decodes it again with [json.loads], so the text stands for the document
    on both sides. *)
Record Action : Type := mkAction {
  action_campaign : Z;
  action_map : option Z;
  action_user : Z;
  action_data : string;
  action_created : Z
}.

(** The database: one list per table, in primary-key order, and the clock
    of the store that stamps [created] on insert. *)

Record DB : Type := mkDB {
  users : list User;
  campaigns : list Campaign;
  maps : list Map;
  campaign_properties : list CampaignProperty;
  map_properties : list MapProperty;
  actions : list Action;
  clock : Z
}.

Definition set_map_properties (db : DB) (rows : list MapProperty) : DB :=
  mkDB (users db) (campaigns db) (maps db) (campaign_properties db)
       rows (actions db) (clock db).

Definition set_actions (db : DB) (rows : list Action) : DB :=
  mkDB (users db) (campaigns db) (maps db) (campaign_properties db)
       (map_properties db) rows (clock db).

Definition set_clock (db : DB) (t : Z) : DB :=
  mkDB (users db) (campaigns db) (maps db) (campaign_properties db)
       (map_properties db) (actions db) t.

(** The foreign key constraint on a user column: a row can be inserted
    with no user, or with the id of a user of the store. *)
Definition user_exists (db_users : list User) (fk : option Z) : bool :=
  match fk with
  | None => true
  | Some uid => existsb (fun u => user_pk u =? uid) db_users
  end.

(** ** Python values *)

Definition option_Z_eqb (a b : option Z) : bool :=
  match a, b with
  | None, None => true
  | Some x, Some y => x =? y
  | _, _ => false
  end.

(** [x in xs] on strings and on player ids. *)
Definition str_in (x : string) (xs : list string) : bool :=
  existsb (String.eqb x) xs.

Definition player_in (x : option Z) (xs : list (option Z)) : bool :=
  existsb (option_Z_eqb x) xs.

(** Truth value of a JSON player id: [null] and [0] are false. *)
Definition truthy_player (p : option Z) : bool :=
  match p with
  | None => false
  | Some n => negb (n =? 0)
  end.

(** [str(n)] for a length. *)
Definition str_of_len (n : nat) : string :=
  NilZero.string_of_uint (Nat.to_uint n).

(** A request body: empty, text that [json.loads] rejects, or a document
    decoded into the shape the handler goes on to read. *)
Inductive Body (A : Type) : Type :=
| EmptyBody
| InvalidJson (err : string)
| Json (doc : A).
Arguments EmptyBody {A}.
Arguments InvalidJson {A} err.
Arguments Json {A} doc.

Definition empty_body_error : string :=
  "Expecting value: line 1 column 1 (char 0)".

(** [json.loads(request.body.decode('utf-8'))]. *)
Definition json_loads {A} (b : Body A) : result A :=
  match b with
  | EmptyBody => raise (JSONDecodeError empty_body_error)
  | InvalidJson err => raise (JSONDecodeError err)
  | Json doc => ok doc
  end.

(** ** Querysets *)

(** [QuerySet.get]: the single row of the queryset. *)
Definition get {A} (model : string) (rows : list A) : result A :=
  match rows with
  | [] => raise (DoesNotExist model)
  | [x] => ok x
  | _ :: _ :: _ => raise (MultipleObjectsReturned model)
  end.

(** [get_object_or_404]: [DoesNotExist] becomes [Http404], any other
    exception of [get] passes through. *)
Definition get_object_or_404 {A} (model : string) (rows : list A) : result A :=
  match get model rows with
  | inl (DoesNotExist _) =>
      raise (Http404 ("No " ++ model ++ " matches the given query."))
  | r => r
  end.

(** [QuerySet.last] on a queryset in primary-key order. *)
Fixpoint qs_last {A} (rows : list A) : option A :=
  match rows with
  | [] => None
  | [x] => Some x
  | _ :: rest => qs_last rest
  end.

(** [Campaign.objects.filter(campaign_id=cid)]. *)
Definition campaigns_by_id (db : DB) (cid : string) : list Campaign :=
  filter (fun c => String.eqb (campaign_id c) cid) (campaigns db).

(** [Map.objects.filter(campaign__campaign_id=cid, map_id=mid)]: the
    join goes through the campaign the map points to. *)
Definition maps_by_ids (db : DB) (cid mid : string) : list Map :=
  filter (fun m =>
            existsb (fun c => (campaign_pk c =? map_campaign m)
                              && String.eqb (campaign_id c) cid)
                    (campaigns db)
            && String.eqb (map_id m) mid)
         (maps db).

(** [Map.objects.filter(campaign=campaign, map_id=mid)]. *)
Definition maps_of_campaign (db : DB) (c : Campaign) (mid : string)
  : list Map :=
  filter (fun m => (map_campaign m =? campaign_pk c)
                   && String.eqb (map_id m) mid)
         (maps db).

(** [order_by('name')] on maps: a stable insertion sort, names compared
    byte by byte. *)
Fixpoint insert_by_name (m : Map) (sorted : list Map) : list Map :=
  match sorted with
  | [] => [m]
  | x :: rest =>
      if String.ltb (map_name m) (map_name x) then m :: x :: rest
      else x :: insert_by_name m rest
  end.

Definition order_by_name (rows : list Map) : list Map :=
  fold_left (fun acc m => insert_by_name m acc) rows [].

(** ** The JSON envelope *)

Record JsonResponse (P : Type) : Type := mkResponse {
  status : Z;
  message : string;
  content : option P
}.
Arguments mkResponse {P} status message content.
Arguments status {P} _.
Arguments message {P} _.
Arguments content {P} _.

(** [{'name': x.name, 'value': x.value}] *)
Record NameValue : Type := mkNameValue {
  nv_name : string;
  nv_value : string
}.

Record MapRef : Type := mkMapRef {
  ref_name : string;
  ref_id : string
}.

Record Player : Type := mkPlayer {
  player_name : string;
  player_id : Z;
  player_master : bool
}.

Record CampaignDetail : Type := mkCampaignDetail {
  detail_date : Z;
  detail_properties : list NameValue;
  detail_maps : list MapRef;
  detail_players : list Player
}.

Record PropertyList : Type := mkPropertyList {
  list_date : Z;
  list_properties : list NameValue
}.

Record SyncResult : Type := mkSyncResult {
  sync_date : Z;
  sync_actions : list string
}.

(** Attribute access on a user that may be [None]. *)
Definition attr_username (u : option User) : result string :=
  match u with
  | Some x => ok (username x)
  | None => raise (AttributeError "username")
  end.

Definition attr_id (u : option User) : result Z :=
  match u with
  | Some x => ok (user_pk x)
  | None => raise (AttributeError "id")
  end.

(** A list comprehension whose element expression may raise. *)
Fixpoint traverse {A B} (f : A -> result B) (xs : list A) : result (list B) :=
  match xs with
  | [] => ok []
  | x :: rest =>
      (y <- f x ;;
       ys <- traverse f rest ;;
       ok (y :: ys))%result
  end.

(** ** Property store: campaign properties *)

Definition cp_of_user (u : User) (p : CampaignProperty) : bool :=
  match cp_user p with
  | Some x => user_pk x =? user_pk u
  | None => false
  end.

Definition cp_is_default (p : CampaignProperty) : bool :=
  match cp_user p with
  | Some _ => false
  | None => true
  end.

Definition cp_name_value (p : CampaignProperty) : NameValue :=
  mkNameValue (cp_name p) (cp_value p).

(** [CampaignProperty.objects.filter(campaign=c, user=u)] *)
Definition cp_user_rows (db : DB) (c : Campaign) (u : User)
  : list CampaignProperty :=
  filter (fun p => (cp_campaign p =? campaign_pk c) && cp_of_user u p)
         (campaign_properties db).

(** [CampaignProperty.objects.filter(campaign=c, user__isnull=True)] *)
Definition cp_default_rows (db : DB) (c : Campaign) : list CampaignProperty :=
  filter (fun p => (cp_campaign p =? campaign_pk c) && cp_is_default p)
         (campaign_properties db).

(** [CampaignProperty.objects.filter(campaign=c, name=n)] *)
Definition cp_named_rows (db : DB) (c : Campaign) (n : string)
  : list CampaignProperty :=
  filter (fun p => (cp_campaign p =? campaign_pk c)
                   && String.eqb (cp_name p) n)
         (campaign_properties db).

(** [CampaignProperty.objects.filter(campaign=c, user=u, name=n)] *)
Definition cp_user_named_rows (db : DB) (c : Campaign) (u : User) (n : string)
  : list CampaignProperty :=
  filter (fun p => (cp_campaign p =? campaign_pk c) && cp_of_user u p
                   && String.eqb (cp_name p) n)
         (campaign_properties db).

(** [CampaignProperty.objects.filter(campaign=c, user=None, name=n)] *)
Definition cp_default_named_rows (db : DB) (c : Campaign) (n : string)
  : list CampaignProperty :=
  filter (fun p => (cp_campaign p =? campaign_pk c) && cp_is_default p
                   && String.eqb (cp_name p) n)
         (campaign_properties db).

(** What [json.loads] makes of the text of a map document, as far as the
    views look into it. *)
Inductive MapDocument : Type :=
| NotJson (err : string)
| NoName
| Named (name : string).

Section Views.

(** [utils.exceptions.get_stacktrace_str] is not part of the sources: the
    diagnostic text of an exception is left open. *)
Variable get_stacktrace_str : exn -> string.

(** The [except] clauses shared by all views; [suffix] is what the view
    appends to the text of an [Http404]. *)
Definition respond {P} (suffix : string) (r : result (string * P))
  : JsonResponse P :=
  match r with
  | inr (msg, p) => mkResponse 200 msg (Some p)
  | inl (Http404 e) => mkResponse 404 (e ++ suffix) None
  | inl (JSONDecodeError e) => mkResponse 400 ("JSONDecodeError: " ++ e) None
  | inl e => mkResponse 500 (get_stacktrace_str e) None
  end.

Definition load_campaign_try (db : DB) (user : User) (cid : string)
  : result (string * CampaignDetail) :=
  (campaign <- get_object_or_404 "Campaign" (campaigns_by_id db cid) ;;
   let user_properties := cp_user_rows db campaign user in
   let properties := map cp_name_value user_properties in
   let property_names := map cp_name user_properties in
   let default_properties := cp_default_rows db campaign in
   let properties :=
     (properties ++
      map cp_name_value
          (filter (fun p => negb (str_in (cp_name p) property_names))
                  default_properties))%list in
   let players := map cp_user (cp_named_rows db campaign "IS_PLAYER") in
   master <- get_object_or_404 "CampaignProperty"
                               (cp_named_rows db campaign "IS_MASTER") ;;
   master_name <- attr_username (cp_user master) ;;
   let map_refs :=
     map (fun x => mkMapRef (map_name x) (map_id x))
         (order_by_name
            (filter (fun m => map_campaign m =? campaign_pk campaign)
                    (maps db))) in
   player_entries <-
     traverse (fun x =>
                 n <- attr_username x ;;
                 i <- attr_id x ;;
                 n' <- attr_username x ;;
                 ok (mkPlayer n i (String.eqb n' master_name)))
              players ;;
   ok ("Campaign loaded (name=" ++ campaign_name campaign ++ ", id="
         ++ campaign_id campaign ++ ")",
       mkCampaignDetail (campaign_updated campaign) properties map_refs
                        player_entries))%result.

Definition load_campaign (db : DB) (user : User) (cid : string)
  : JsonResponse CampaignDetail :=
  respond "" (load_campaign_try db user cid).

Definition load_campaign_property_try
  (db : DB) (user : User) (cid property_name : string)
  : result (string * list NameValue) :=
  (campaign <- get_object_or_404 "Campaign" (campaigns_by_id db cid) ;;
   let props := cp_user_named_rows db campaign user property_name in
   prop <- match props with
           | p0 :: _ => ok p0
           | [] => get_object_or_404
                     "CampaignProperty"
                     (cp_default_named_rows db campaign property_name)
           end ;;
   ok ("Campaign Property loaded (campaign_name=" ++ campaign_name campaign
         ++ ", name=" ++ property_name ++ ")",
       [cp_name_value prop]))%result.

Definition load_campaign_property
  (db : DB) (user : User) (cid property_name : string)
  : JsonResponse (list NameValue) :=
  respond (" (campaign=" ++ cid ++ ", property=" ++ property_name)
          (load_campaign_property_try db user cid property_name).

(** ** Property store: map properties *)

Definition mp_name_value (p : MapProperty) : NameValue :=
  mkNameValue (mp_name p) (mp_value p).

Definition mp_is_default (p : MapProperty) : bool :=
  match mp_user p with
  | Some _ => false
  | None => true
  end.

(** [Q(map=tile_map, user_id=uid) | Q(map=tile_map, user__isnull=True)] *)
Definition mp_user_or_default (tile_map : Map) (uid : Z) (p : MapProperty)
  : bool :=
  ((mp_map p =? map_pk tile_map) && option_Z_eqb (mp_user p) (Some uid))
  || ((mp_map p =? map_pk tile_map) && mp_is_default p).

Definition load_map_properties_for_user_try
  (db : DB) (cid mid : string) (user_id : Z)
  : result (string * PropertyList) :=
  (tile_map <- get_object_or_404 "Map" (maps_by_ids db cid mid) ;;
   let user_properties :=
     filter (mp_user_or_default tile_map user_id) (map_properties db) in
   let properties := map mp_name_value user_properties in
   ok ("Map Properties loaded (len=" ++ str_of_len (List.length properties)
         ++ ")",
       mkPropertyList (map_saved tile_map) properties))%result.

Definition load_map_properties_for_user
  (db : DB) (user : User) (cid mid : string) (user_id : Z)
  : JsonResponse PropertyList :=
  respond (" (campaign=" ++ cid ++ ", map=" ++ mid)
          (load_map_properties_for_user_try db cid mid user_id).

(** The caller's own bulk read runs the same query with
    [user=request.user]. *)
Definition load_map_properties (db : DB) (user : User) (cid mid : string)
  : JsonResponse PropertyList :=
  respond (" (campaign=" ++ cid ++ ", map=" ++ mid)
          (load_map_properties_for_user_try db cid mid (user_pk user)).

(** ** Permission engine *)

Definition PERMISSIONS : list string :=
  [ "SHARED_NAME"; "SHARED_POSITION"; "SHARED_VISION"; "SHARED_CONTROL";
    "SHARED_HEALTH"; "SHARED_STAMINA"; "SHARED_MANA" ].

(** The dictionary literal indexed by [perm] in [map_permissions]. *)
Definition property_names : list (string * string) :=
  [ ("name", "SHARED_NAME");
    ("position", "SHARED_POSITION");
    ("vision", "SHARED_VISION");
    ("control", "SHARED_CONTROL");
    ("health", "SHARED_HEALTH");
    ("stamina", "SHARED_STAMINA");
    ("mana", "SHARED_MANA") ].

(** [d[k]] *)
Fixpoint dict_get (d : list (string * string)) (k : string) : result string :=
  match d with
  | [] => raise (KeyError k)
  | (k', v) :: rest => if String.eqb k' k then ok v else dict_get rest k
  end.

(** One element of the [permissions] array of the request. *)
Record Permission : Type := mkPermission {
  entity : string;
  player : option Z;
  permission : string
}.

(** The scope a player id selects: [user_id=player] when the id is true,
    [user__isnull=True] otherwise. *)
Definition mp_in_scope (player : option Z) (p : MapProperty) : bool :=
  if truthy_player player then option_Z_eqb (mp_user p) player
  else mp_is_default p.

(** [filter(map=tile_map, <scope>, name__in=PERMISSIONS, value=entity)] *)
Definition scope_permissions
  (tile_map : Map) (player : option Z) (entity : string) (p : MapProperty)
  : bool :=
  (mp_map p =? map_pk tile_map) && mp_in_scope player p
  && str_in (mp_name p) PERMISSIONS && String.eqb (mp_value p) entity.

(** [QuerySet.delete]: the rows selected leave the table. *)
Definition qs_delete {A} (selected : A -> bool) (rows : list A) : list A :=
  filter (fun r => negb (selected r)) rows.

(** [filter(map=tile_map, <scope>, name=property_name, value=entity)], the
    lookup of [get_or_create]. *)
Definition scope_permission
  (tile_map : Map) (player : option Z) (property_name entity : string)
  (p : MapProperty) : bool :=
  (mp_map p =? map_pk tile_map) && mp_in_scope player p
  && String.eqb (mp_name p) property_name && String.eqb (mp_value p) entity.

(** [QuerySet.get_or_create(...)[0].save()]: the row found, or [fresh]
    inserted at the end of the table when the store accepts it
    ([insertable]: its foreign keys point to rows that exist).  Saving the
    row as it was read leaves the table as it is. *)
Definition get_or_create {A} (model : string) (lookup : A -> bool) (fresh : A)
  (insertable : bool) : M (list A) A :=
  fun rows =>
    match filter lookup rows with
    | [] =>
        if insertable then (ok fresh, (rows ++ [fresh])%list)
        else (raise IntegrityError, rows)
    | [x] => (ok x, rows)
    | _ :: _ :: _ => (raise (MultipleObjectsReturned model), rows)
    end.

(** The clearing step of [map_permissions] (the body of
    [if player not in player_reset]). *)
Definition reset_player
  (tile_map : Map) (player : option Z) (entity : string)
  : M (list MapProperty) unit :=
  update (qs_delete (scope_permissions tile_map player entity)).

(** The row [get_or_create] inserts: the lookup arguments without the
    [user__isnull] one, so the default scope gets a row without user. *)
Definition fresh_permission
  (tile_map : Map) (player : option Z) (property_name entity : string)
  : MapProperty :=
  mkMapProperty (map_pk tile_map)
                (if truthy_player player then player else None)
                property_name entity.

(** The body of the [for permission in permissions] loop, threading the
    local [player_reset]. *)
Fixpoint assign_permissions
  (db_users : list User) (tile_map : Map) (permissions : list Permission)
  (player_reset : list (option Z)) : M (list MapProperty) unit :=
  match permissions with
  | [] => mret tt
  | p :: rest =>
      (property_name <-
         query (fun _ => dict_get property_names (permission p)) ;;
       player_reset' <-
         (if negb (player_in (player p) player_reset) then
            reset_player tile_map (player p) (entity p) ;;
            mret (player_reset ++ [player p])%list
          else mret player_reset) ;;
       _ <- (let fresh := fresh_permission tile_map (player p) property_name
                                           (entity p) in
             get_or_create "MapProperty"
               (scope_permission tile_map (player p) property_name (entity p))
               fresh (user_exists db_users (mp_user fresh))) ;;
       assign_permissions db_users tile_map rest player_reset')%M
  end.

(** A computation on the [MapProperty] table, which reads the user table
    for its foreign keys, run inside the database. *)
Definition on_map_properties {A} (m : list User -> M (list MapProperty) A)
  : M DB A :=
  fun db =>
    let (r, rows) := m (users db) (map_properties db) in
    (r, set_map_properties db rows).

Definition map_permissions_try
  (cid mid : string) (body : Body (list Permission)) : M DB (string * unit) :=
  (tile_map <- query (fun db =>
                        get_object_or_404 "Map" (maps_by_ids db cid mid)) ;;
   permissions <- query (fun _ => json_loads body) ;;
   _ <- on_map_properties
          (fun db_users =>
             assign_permissions db_users tile_map permissions []) ;;
   mret ("Map Permissions updates (len="
           ++ str_of_len (List.length permissions) ++ ")", tt))%M.

Definition map_permissions
  (db : DB) (user : User) (cid mid : string) (body : Body (list Permission))
  : JsonResponse unit * DB :=
  let (r, db') := map_permissions_try cid mid body db in
  (respond (" (campaign=" ++ cid ++ ", map=" ++ mid ++ ")") r, db').

(** ** Action log and sync *)

(** The wall clock of the store: each reading is the previous one moved
    on by [tick]. *)
Variable tick : Z -> Z.

Definition now : M DB Z :=
  fun db =>
    let t := tick (clock db) in
    (ok t, set_clock db t).

(** One element of the [actions] array of the request: the value under
    its [map] key, if any, and the text [json.dumps] gives for it. *)
Record PostedAction : Type := mkPostedAction {
  posted_map : option string;
  posted_data : string
}.

(** [Action.objects.create(campaign=..., map=..., user=..., data=...)]:
    [created] is stamped by the store on insert. *)
Definition create_action
  (campaign : Campaign) (tile_map : option Map) (user : User) (data : string)
  : M DB unit :=
  (created <- now ;;
   update (fun db =>
             set_actions db
               (actions db ++
                [mkAction (campaign_pk campaign) (option_map map_pk tile_map)
                          (user_pk user) data created])%list))%M.

(** The body of the [for action in actions_post] loop.
    [action.get('map')] is false for a missing key, [null] and the empty
    string. *)
Definition append_action
  (campaign : Campaign) (user : User) (action : PostedAction) : M DB unit :=
  match posted_map action with
  | Some mid =>
      if negb (String.eqb mid "") then
        (tile_map <- query (fun db =>
                              get_object_or_404
                                "Map" (maps_of_campaign db campaign mid)) ;;
         create_action campaign (Some tile_map) user (posted_data action))%M
      else create_action campaign None user (posted_data action)
  | None => create_action campaign None user (posted_data action)
  end.

Fixpoint append_actions
  (campaign : Campaign) (user : User) (actions_post : list PostedAction)
  : M DB unit :=
  match actions_post with
  | [] => mret tt
  | action :: rest =>
      (append_action campaign user action ;;
       append_actions campaign user rest)%M
  end.

(** [datetime.fromisoformat]: the cursor of the URL is an instant, or
    text that does not parse. *)
Definition fromisoformat (datetime_iso : option Z) : result Z :=
  match datetime_iso with
  | Some t => ok t
  | None => raise ValueError
  end.

(** [Action.objects.filter(campaign=campaign, created__gt=since)] *)
Definition actions_since (campaign : Campaign) (since : Z) (rows : list Action)
  : list Action :=
  filter (fun a => (action_campaign a =? campaign_pk campaign)
                   && (since <? action_created a))
         rows.

(** [actions.exclude(user=user)] *)
Definition exclude_user (user : User) (rows : list Action) : list Action :=
  filter (fun a => negb (action_user a =? user_pk user)) rows.

(** The cursor sent back: [actions.last().created if actions else
    datetime_iso]. *)
Definition new_cursor (since : Z) (rows : list Action) : Z :=
  match qs_last rows with
  | Some a => action_created a
  | None => since
  end.

(** [json.loads(data)['actions'] if data else []] *)
Definition decode_actions (body : Body (list PostedAction))
  : result (list PostedAction) :=
  match body with
  | EmptyBody => ok []
  | _ => json_loads body
  end.

Definition update_actions_try
  (user : User) (cid : string) (datetime_iso : option Z)
  (body : Body (list PostedAction)) : M DB (string * SyncResult) :=
  (campaign <- query (fun db =>
                        get_object_or_404 "Campaign"
                                          (campaigns_by_id db cid)) ;;
   actions_post <- query (fun _ => decode_actions body) ;;
   append_actions campaign user actions_post ;;
   since <- query (fun _ => fromisoformat datetime_iso) ;;
   rows <- query (fun db => ok (actions_since campaign since (actions db))) ;;
   let date := new_cursor since rows in
   let rows := exclude_user user rows in
   mret ("Actions loaded (len=" ++ str_of_len (List.length actions_post)
           ++ "). Actions downloaded (len=" ++ str_of_len (List.length rows)
           ++ ")",
         mkSyncResult date (map action_data rows)))%M.

Definition update_actions
  (db : DB) (user : User) (cid : string) (datetime_iso : option Z)
  (body : Body (list PostedAction)) : JsonResponse SyncResult * DB :=
  let (r, db') := update_actions_try user cid datetime_iso body db in
  (respond "" r, db').

(** ** Property store: writes *)

(** [prop.<column> = ...; prop.save()] on the row a lookup singled out: the
    UPDATE of that row, every other row left as it is. *)
Definition qs_update {A} (selected : A -> bool) (assign : A -> A)
  (rows : list A) : list A :=
  map (fun r => if selected r then assign r else r) rows.

(** [get_or_create(...)[0]], assignments to the row, [save()]. *)
Definition save_row {A} (model : string) (lookup : A -> bool) (fresh : A)
  (insertable : bool) (assign : A -> A) : M (list A) A :=
  (prop <- get_or_create model lookup fresh insertable ;;
   _ <- update (qs_update lookup assign) ;;
   mret (assign prop))%M.

(** A computation on the [CampaignProperty] table, run inside the
    database. *)
Definition on_campaign_properties {A} (m : M (list CampaignProperty) A)
  : M DB A :=
  fun db =>
    let (r, rows) := m (campaign_properties db) in
    (r, mkDB (users db) (campaigns db) (maps db) rows (map_properties db)
             (actions db) (clock db)).

(** The lookups [campaign=c, user=u, name=n] and
    [campaign=c, user=None, name=n]. *)
Definition cp_user_key (c : Campaign) (u : User) (n : string)
  (p : CampaignProperty) : bool :=
  (cp_campaign p =? campaign_pk c) && cp_of_user u p
  && String.eqb (cp_name p) n.

Definition cp_default_key (c : Campaign) (n : string) (p : CampaignProperty)
  : bool :=
  (cp_campaign p =? campaign_pk c) && cp_is_default p
  && String.eqb (cp_name p) n.

(** [prop.name = property_name; prop.value = body] *)
Definition cp_assign (n v : string) (p : CampaignProperty)
  : CampaignProperty :=
  mkCampaignProperty (cp_campaign p) (cp_user p) n v.

(** The row [get_or_create] inserts has an empty value until the
    assignment that follows in the same request; [request.user] is a row
    of the user table, so the insert is accepted. *)
Definition save_campaign_property_try
  (user : User) (cid property_name body : string) : M DB (string * unit) :=
  (campaign <- query (fun db =>
                        get_object_or_404 "Campaign"
                                          (campaigns_by_id db cid)) ;;
   prop <- on_campaign_properties
             (save_row "CampaignProperty"
                (cp_user_key campaign user property_name)
                (mkCampaignProperty (campaign_pk campaign) (Some user)
                                    property_name "")
                true (cp_assign property_name body)) ;;
   mret ("Campaign Property saved (campaign_name=" ++ campaign_name campaign
           ++ ", name=" ++ property_name ++ ", value=" ++ cp_value prop
           ++ ")", tt))%M.

Definition save_campaign_property
  (db : DB) (user : User) (cid property_name body : string)
  : JsonResponse unit * DB :=
  let (r, db') := save_campaign_property_try user cid property_name body db in
  (respond (" (campaign=" ++ cid ++ ")") r, db').

Definition default_campaign_property_try
  (cid property_name body : string) : M DB (string * unit) :=
  (campaign <- query (fun db =>
                        get_object_or_404 "Campaign"
                                          (campaigns_by_id db cid)) ;;
   prop <- on_campaign_properties
             (save_row "CampaignProperty"
                (cp_default_key campaign property_name)
                (mkCampaignProperty (campaign_pk campaign) None
                                    property_name "")
                true (cp_assign property_name body)) ;;
   mret ("Campaign Property default (campaign_name="
           ++ campaign_name campaign ++ ", name=" ++ property_name
           ++ ", value=" ++ cp_value prop ++ ")", tt))%M.

Definition default_campaign_property
  (db : DB) (user : User) (cid property_name body : string)
  : JsonResponse unit * DB :=
  let (r, db') := default_campaign_property_try cid property_name body db in
  (respond (" (campaign=" ++ cid ++ ")") r, db').

(** [prop.delete()] removes the one row the lookup gave. *)
Definition delete_campaign_property_try
  (user : User) (cid property_name : string) : M DB (string * unit) :=
  (campaign <- query (fun db =>
                        get_object_or_404 "Campaign"
                                          (campaigns_by_id db cid)) ;;
   _ <- query (fun db =>
                 get_object_or_404
                   "CampaignProperty"
                   (filter (cp_user_key campaign user property_name)
                           (campaign_properties db))) ;;
   _ <- on_campaign_properties
          (update (qs_delete (cp_user_key campaign user property_name))) ;;
   mret ("Campaign Property deleted (campaign_name="
           ++ campaign_name campaign ++ ")", tt))%M.

Definition delete_campaign_property
  (db : DB) (user : User) (cid property_name : string)
  : JsonResponse unit * DB :=
  let (r, db') := delete_campaign_property_try user cid property_name db in
  (respond (" (campaign=" ++ cid ++ ", name=" ++ property_name ++ ")") r,
   db').

(** The lookups [map=m, user=u, name=n] and [map=m, user=None, name=n]. *)
Definition mp_user_key (m : Map) (u : User) (n : string) (p : MapProperty)
  : bool :=
  (mp_map p =? map_pk m) && option_Z_eqb (mp_user p) (Some (user_pk u))
  && String.eqb (mp_name p) n.

Definition mp_default_key (m : Map) (n : string) (p : MapProperty) : bool :=
  (mp_map p =? map_pk m) && mp_is_default p && String.eqb (mp_name p) n.

(** [prop.value = body] *)
Definition mp_assign (v : string) (p : MapProperty) : MapProperty :=
  mkMapProperty (mp_map p) (mp_user p) (mp_name p) v.

Definition save_map_property_try
  (user : User) (cid mid property_name body : string)
  : M DB (string * unit) :=
  (tile_map <- query (fun db =>
                        get_object_or_404 "Map" (maps_by_ids db cid mid)) ;;
   prop <- on_map_properties
             (fun _ =>
                save_row "MapProperty"
                  (mp_user_key tile_map user property_name)
                  (mkMapProperty (map_pk tile_map) (Some (user_pk user))
                                 property_name "")
                  true (mp_assign body)) ;;
   mret ("Map Property saved (map_name=" ++ map_name tile_map ++ ", name="
           ++ property_name ++ ", value=" ++ mp_value prop ++ ")", tt))%M.

Definition save_map_property
  (db : DB) (user : User) (cid mid property_name body : string)
  : JsonResponse unit * DB :=
  let (r, db') :=
    save_map_property_try user cid mid property_name body db in
  (respond (" (campaign=" ++ cid ++ ", map=" ++ mid ++ ")") r, db').

Definition default_map_property_try
  (cid mid property_name body : string) : M DB (string * unit) :=
  (tile_map <- query (fun db =>
                        get_object_or_404 "Map" (maps_by_ids db cid mid)) ;;
   prop <- on_map_properties
             (fun _ =>
                save_row "MapProperty"
                  (mp_default_key tile_map property_name)
                  (mkMapProperty (map_pk tile_map) None property_name "")
                  true (mp_assign body)) ;;
   mret ("Map Property default (map_name=" ++ map_name tile_map ++ ", name="
           ++ property_name ++ ", value=" ++ mp_value prop ++ ")", tt))%M.

Definition default_map_property
  (db : DB) (user : User) (cid mid property_name body : string)
  : JsonResponse unit * DB :=
  let (r, db') := default_map_property_try cid mid property_name body db in
  (respond (" (campaign=" ++ cid ++ ", map=" ++ mid ++ ")") r, db').

Definition delete_map_property_try
  (user : User) (cid mid property_name : string) : M DB (string * unit) :=
  (tile_map <- query (fun db =>
                        get_object_or_404 "Map" (maps_by_ids db cid mid)) ;;
   _ <- query (fun db =>
                 get_object_or_404
                   "MapProperty"
                   (filter (mp_user_key tile_map user property_name)
                           (map_properties db))) ;;
   _ <- on_map_properties
          (fun _ =>
             update (qs_delete (mp_user_key tile_map user property_name))) ;;
   mret ("Map Property deleted (map_name=" ++ map_name tile_map ++ ", name="
           ++ property_name ++ ")", tt))%M.

Definition delete_map_property
  (db : DB) (user : User) (cid mid property_name : string)
  : JsonResponse unit * DB :=
  let (r, db') := delete_map_property_try user cid mid property_name db in
  (respond (" (campaign=" ++ cid ++ ", map=" ++ mid ++ ", name="
              ++ property_name) r,
   db').

(** ** Permission engine: resets *)

(** The text Python gives for a list of entity ids inside an f-string. *)
Variable repr_entities : list string -> string.

(** [filter(map=tile_map, name__in=PERMISSIONS, value__in=entities)] *)
Definition entity_permissions
  (tile_map : Map) (entities : list string) (p : MapProperty) : bool :=
  (mp_map p =? map_pk tile_map) && str_in (mp_name p) PERMISSIONS
  && str_in (mp_value p) entities.

Definition reset_permissions_try
  (cid mid : string) (body : Body (list string)) : M DB (string * unit) :=
  (tile_map <- query (fun db =>
                        get_object_or_404 "Map" (maps_by_ids db cid mid)) ;;
   entities <- query (fun _ => json_loads body) ;;
   _ <- on_map_properties
          (fun _ =>
             update (qs_delete (entity_permissions tile_map entities))) ;;
   mret ("Map Permissions reset for entities (id__in="
           ++ repr_entities entities ++ ")", tt))%M.

Definition reset_permissions
  (db : DB) (user : User) (cid mid : string) (body : Body (list string))
  : JsonResponse unit * DB :=
  let (r, db') := reset_permissions_try cid mid body db in
  (respond (" (campaign=" ++ cid ++ ", map=" ++ mid ++ ")") r, db').

(** The body of [default_permissions]: [players] is a list of user ids,
    or [null]. *)
Record DefaultRequest : Type := mkDefaultRequest {
  default_entities : list string;
  default_players : option (list Z)
}.

(** [if players]: [null] and the empty list are false. *)
Definition truthy_players (players : option (list Z)) : bool :=
  match players with
  | Some (_ :: _) => true
  | _ => false
  end.

(** [user_id__in=players] *)
Definition mp_of_players (players : option (list Z)) (p : MapProperty)
  : bool :=
  match mp_user p, players with
  | Some uid, Some ids => existsb (Z.eqb uid) ids
  | _, _ => false
  end.

Definition default_permissions_try
  (cid mid : string) (body : Body DefaultRequest) : M DB (string * unit) :=
  (tile_map <- query (fun db =>
                        get_object_or_404 "Map" (maps_by_ids db cid mid)) ;;
   data <- query (fun _ => json_loads body) ;;
   let entities := default_entities data in
   let players := default_players data in
   _ <- on_map_properties
          (fun _ =>
             if truthy_players players then
               update (qs_delete
                         (fun p => mp_of_players players p
                                   && entity_permissions tile_map entities p))
             else
               update (qs_delete
                         (fun p => mp_is_default p
                                   && entity_permissions tile_map entities
                                                         p))) ;;
   mret ("Map Permissions default for entities (id__in="
           ++ repr_entities entities ++ ")", tt))%M.

Definition default_permissions
  (db : DB) (user : User) (cid mid : string) (body : Body DefaultRequest)
  : JsonResponse unit * DB :=
  let (r, db') := default_permissions_try cid mid body db in
  (respond (" (campaign=" ++ cid ++ ", map=" ++ mid ++ ")") r, db').

(** ** Action log: map pull and reset *)

(** [tile_map.action_set.all().filter(created__gt=tile_map.saved)] *)
Definition map_actions_since (tile_map : Map) (rows : list Action)
  : list Action :=
  filter (fun a => option_Z_eqb (action_map a) (Some (map_pk tile_map))
                   && (map_saved tile_map <? action_created a))
         rows.

Definition map_actions_try (db : DB) (cid mid : string)
  : result (string * SyncResult) :=
  (tile_map <- get_object_or_404 "Map" (maps_by_ids db cid mid) ;;
   let rows := map_actions_since tile_map (actions db) in
   let date := new_cursor (map_saved tile_map) rows in
   ok ("Actions loaded (len=" ++ str_of_len (List.length rows) ++ ")",
       mkSyncResult date (map action_data rows)))%result.

Definition map_actions (db : DB) (user : User) (cid mid : string)
  : JsonResponse SyncResult :=
  respond "" (map_actions_try db cid mid).

(** [for action in list(campaign.action_set.all()): action.delete()] *)
Definition reset_actions_try (cid : string) : M DB (string * unit) :=
  (campaign <- query (fun db =>
                        get_object_or_404 "Campaign"
                                          (campaigns_by_id db cid)) ;;
   rows <- query (fun db =>
                    ok (filter (fun a => action_campaign a
                                         =? campaign_pk campaign)
                               (actions db))) ;;
   _ <- update (fun db =>
                  set_actions db
                    (qs_delete (fun a => action_campaign a
                                         =? campaign_pk campaign)
                               (actions db))) ;;
   mret ("Actions deleted (len=" ++ str_of_len (List.length rows) ++ ")",
         tt))%M.

Definition reset_actions (db : DB) (user : User) (cid : string)
  : JsonResponse unit * DB :=
  let (r, db') := reset_actions_try cid db in
  (respond "" r, db').

(** ** Campaign list *)

(** [order_by(<a text column>)]: a stable insertion sort on [key], the
    texts compared byte by byte. *)
Fixpoint insert_by {A} (key : A -> string) (x : A) (sorted : list A)
  : list A :=
  match sorted with
  | [] => [x]
  | y :: rest =>
      if String.ltb (key x) (key y) then x :: y :: rest
      else y :: insert_by key x rest
  end.

Definition order_by {A} (key : A -> string) (rows : list A) : list A :=
  fold_left (fun acc x => insert_by key x acc) rows [].

Definition load_world (db : DB) (user : User)
  : JsonResponse (list MapRef) :=
  respond ""
    (ok ("World loaded",
         map (fun x => mkMapRef (campaign_name x) (campaign_id x))
             (order_by campaign_name (campaigns db)))).

(** ** Map snapshots *)

(** [json.loads] applied to the text of a map document, as far as the
    views look into the result: no JSON, a document without a [name], or
    a document with one.  The decoder is not part of the sources. *)
Variable decode_map : string -> MapDocument.

(** What a [Map] row holds, when [get_or_create] inserts it, in the columns
    the lookup does not give: the defaults of the model, which is not part
    of the sources. *)
Variable blank_map : Map.

(** The key the store gives a new map: one past the largest in use. *)
Definition next_map_pk (rows : list Map) : Z :=
  1 + fold_right Z.max 0 (map map_pk rows).

Definition on_maps {A} (m : M (list Map) A) : M DB A :=
  fun db =>
    let (r, rows) := m (maps db) in
    (r, mkDB (users db) (campaigns db) rows (campaign_properties db)
             (map_properties db) (actions db) (clock db)).

(** The lookup [campaign=c, map_id=mid]. *)
Definition map_key (c : Campaign) (mid : string) (m : Map) : bool :=
  (map_campaign m =? campaign_pk c) && String.eqb (map_id m) mid.

(** [tile_map.name = ...; tile_map.data = ...; tile_map.saved = ...] *)
Definition map_assign (n d : string) (t : Z) (m : Map) : Map :=
  mkMap (map_pk m) (map_campaign m) (map_id m) n d t.

Definition save_map_try (cid mid json_data : string) : M DB (string * Z) :=
  (campaign <- query (fun db =>
                        get_object_or_404 "Campaign"
                                          (campaigns_by_id db cid)) ;;
   _ <- on_maps
          (fun rows =>
             get_or_create "Map" (map_key campaign mid)
               (mkMap (next_map_pk rows) (campaign_pk campaign) mid
                      (map_name blank_map) (map_data blank_map)
                      (map_saved blank_map))
               true rows) ;;
   name <- query (fun _ =>
                    match decode_map json_data with
                    | NotJson err => raise (JSONDecodeError err)
                    | NoName => raise (KeyError "name")
                    | Named n => ok n
                    end) ;;
   saved <- now ;;
   _ <- on_maps
          (update (qs_update (map_key campaign mid)
                             (map_assign name json_data saved))) ;;
   mret ("Map saved (name=" ++ name ++ ", id=" ++ mid ++ ")", saved))%M.

Definition save_map (db : DB) (user : User) (cid mid json_data : string)
  : JsonResponse Z * DB :=
  let (r, db') := save_map_try cid mid json_data db in
  (respond "" r, db').

Record MapSnapshot : Type := mkMapSnapshot {
  snapshot_date : Z;
  snapshot_map : string
}.

Definition load_map_try (db : DB) (cid mid : string)
  : result (string * MapSnapshot) :=
  (tile_map <- get_object_or_404 "Map" (maps_by_ids db cid mid) ;;
   document <- match decode_map (map_data tile_map) with
               | NotJson err => raise (JSONDecodeError err)
               | _ => ok (map_data tile_map)
               end ;;
   ok ("Map loaded (name=" ++ map_name tile_map ++ ", id=" ++ mid ++ ")",
       mkMapSnapshot (map_saved tile_map) document))%result.

Definition load_map (db : DB) (user : User) (cid mid : string)
  : JsonResponse MapSnapshot :=
  respond (" (campaign=" ++ cid ++ ", map=" ++ mid ++ ")")
          (load_map_try db cid mid).

End Views.

(** ** Vocabulary of the statements *)

(** The pairs a bulk read returns under one name. *)
Definition pairs_named (n : string) (ps : list NameValue) : list NameValue :=
  filter (fun nv => String.eqb (nv_name nv) n) ps.

(** The recognised permission kinds: the keys of the dictionary. *)
Definition permission_kinds : list string := map fst property_names.

(** All permission rows of one kind for one entity on a map, whoever owns
    them. *)
Definition permission_rows
  (tile_map : Map) (property_name entity : string) (rows : list MapProperty)
  : list MapProperty :=
  filter (fun p => (mp_map p =? map_pk tile_map)
                   && String.eqb (mp_name p) property_name
                   && String.eqb (mp_value p) entity)
         rows.

Definition owned_by (owner : option Z) (rows : list MapProperty)
  : list MapProperty :=
  filter (fun p => option_Z_eqb (mp_user p) owner) rows.

Definition not_owned_by (owner : option Z) (rows : list MapProperty)
  : list MapProperty :=
  filter (fun p => negb (option_Z_eqb (mp_user p) owner)) rows.

(** [db'] is [db] with the rows [appended] added to the action log, all
    of them in [campaign] and authored by [user]; no other table differs. *)
Definition log_extended
  (campaign : Campaign) (user : User) (db db' : DB) (appended : list Action)
  : Prop :=
  users db' = users db
  /\ campaigns db' = campaigns db
  /\ maps db' = maps db
  /\ campaign_properties db' = campaign_properties db
  /\ map_properties db' = map_properties db
  /\ actions db' = (actions db ++ appended)%list
  /\ Forall (fun a => action_campaign a = campaign_pk campaign
                      /\ action_user a = user_pk user)
            appended.

Definition earlier (a b : Action) : Prop :=
  action_created a <= action_created b.

(** The invariant of the data model on the log: creation stamps do not
    decrease in insertion order, and none is ahead of the clock. *)
Definition stamps_ordered (db : DB) : Prop :=
  StronglySorted earlier (actions db)
  /\ Forall (fun a => action_created a <= clock db) (actions db).

(** A posted action whose append goes through: no map reference, or a
    reference to exactly one map of the campaign. *)
Definition resolves (db : DB) (campaign : Campaign) (action : PostedAction)
  : bool :=
  match posted_map action with
  | Some mid =>
      String.eqb mid ""
      || (List.length (maps_of_campaign db campaign mid) =? 1)%nat
  | None => true
  end.

(** [db] with another [CampaignProperty] table, another [MapProperty]
    table, another [Map] table. *)
Definition with_campaign_properties (db : DB) (rows : list CampaignProperty)
  : DB :=
  mkDB (users db) (campaigns db) (maps db) rows (map_properties db)
       (actions db) (clock db).

Definition with_maps (db : DB) (rows : list Map) : DB :=
  mkDB (users db) (campaigns db) rows (campaign_properties db)
       (map_properties db) (actions db) (clock db).

(** Two texts in the order [order_by] leaves them: the second is not
    before the first. *)
Definition name_le (a b : string) : Prop := String.ltb b a = false.

(** The owners [default_permissions] resets: the players listed, or the
    default scope when none is listed. *)
Definition in_reset_scope (players : option (list Z)) (p : MapProperty)
  : Prop :=
  match players with
  | Some (id :: ids) =>
      exists uid, mp_user p = Some uid /\ In uid (id :: ids)
  | _ => mp_user p = None
  end.

(** ** Sample data *)

(** A stand-in for the diagnostic text of an exception. *)
Definition plain_trace (e : exn) : string :=
  "Traceback (most recent call last)".

Definition alice : User := mkUser 1 "alice".
Definition bob : User := mkUser 2 "bob".

Definition moria : Campaign := mkCampaign 1 "moria" "Mines of Moria" 1000.
Definition hall : Map := mkMap 10 1 "hall" "Great Hall" "{}" 2000.

(** A campaign with a default [theme] and nothing else. *)
Definition db_theme : DB :=
  mkDB [alice; bob] [moria] [hall]
       [mkCampaignProperty 1 None "theme" "forest"] [] [] 3000.

(** A map on which [theme] has a default row and a row of alice. *)
Definition db_shadow : DB :=
  mkDB [alice; bob] [moria] [hall] []
       [mkMapProperty 10 None "theme" "forest";
        mkMapProperty 10 (Some 1) "theme" "desert"]
       [] 3000.

(** A map on which alice controls entity [E]. *)
Definition db_control : DB :=
  mkDB [alice; bob] [moria] [hall] []
       [mkMapProperty 10 (Some 1) "SHARED_CONTROL" "E"] [] 3000.

(** A map on which bob sees through entity [E]. *)
Definition db_vision : DB :=
  mkDB [alice; bob] [moria] [hall] []
       [mkMapProperty 10 (Some 2) "SHARED_VISION" "E"] [] 3000.

(** A campaign whose log holds one action [Q] of bob, stamped 50. *)
Definition db_log : DB :=
  mkDB [alice; bob] [moria] [hall] [] [] [mkAction 1 None 2 "Q" 50] 100.

Definition control_to_bob : Body (list Permission) :=
  Json [mkPermission "E" (Some 2) "control"].

Definition speed_to_bob : Body (list Permission) :=
  Json [mkPermission "E" (Some 2) "speed"].

Definition vision_to_default : Body (list Permission) :=
  Json [mkPermission "goblin1" None "vision"].

Definition post_P : Body (list PostedAction) :=
  Json [mkPostedAction None "P"].

(** A batch whose second entry names a map the campaign does not have. *)
Definition post_lost_map : list PostedAction :=
  [mkPostedAction None "P1"; mkPostedAction (Some "cellar") "P2";
   mkPostedAction None "P3"].

(** A campaign with a master, two players, two maps and properties of
    both scopes. *)
Definition armory : Map := mkMap 11 1 "armory" "Armory" "{}" 2500.

Definition db_party : DB :=
  mkDB [alice; bob] [moria] [hall; armory]
       [mkCampaignProperty 1 (Some alice) "IS_MASTER" "";
        mkCampaignProperty 1 (Some alice) "IS_PLAYER" "";
        mkCampaignProperty 1 (Some bob) "IS_PLAYER" "";
        mkCampaignProperty 1 None "theme" "forest";
        mkCampaignProperty 1 (Some alice) "theme" "desert";
        mkCampaignProperty 1 None "music" "drums"]
       [mkMapProperty 10 None "fog" "on";
        mkMapProperty 10 (Some 1) "zoom" "2";
        mkMapProperty 10 (Some 2) "SHARED_VISION" "E";
        mkMapProperty 10 None "SHARED_NAME" "E";
        mkMapProperty 10 (Some 2) "SHARED_VISION" "F"]
       [mkAction 1 (Some 10) 2 "Q" 50; mkAction 1 (Some 10) 1 "R" 2100]
       3000.

(** Stand-ins for the text of a list of entities, for the decoder of map
    documents and for the defaults of a new map. *)
Definition plain_repr (entities : list string) : string :=
  "[" ++ String.concat ", " entities ++ "]".

Definition sample_decode (text : string) : MapDocument :=
  if String.eqb text "" then NotJson empty_body_error
  else if String.eqb text "{}" then NoName
  else Named "Great Hall".

Definition sample_blank : Map := mkMap 0 0 "" "" "" 0.

Definition two_entities_to_bob : list Permission :=
  [mkPermission "E" (Some 2) "control"; mkPermission "F" (Some 2) "control"].

(** * Properties *)

(** ** Querysets and envelopes *)

Lemma get_object_or_404_single {A} (model : string) (x : A) :
  get_object_or_404 model [x] = ok x.
Proof. reflexivity. Qed.

Lemma get_object_or_404_empty {A} (model : string) :
  @get_object_or_404 A model [] =
  raise (Http404 ("No " ++ model ++ " matches the given query.")).
Proof. reflexivity. Qed.

(** [get_object_or_404] gives a row exactly when the queryset holds one
    row, and then gives that row. *)
Lemma get_object_or_404_ok {A} (model : string) (rows : list A) (x : A) :
  get_object_or_404 model rows = ok x <-> rows = [x].
Proof.
  split.
  - destruct rows as [|y [|z rest]]; cbn; intros H; try discriminate.
    inversion H; reflexivity.
  - intros ->; reflexivity.
Qed.

Lemma get_object_or_404_many {A} (model : string) (x y : A) (rest : list A) :
  get_object_or_404 model (x :: y :: rest) =
  raise (MultipleObjectsReturned model).
Proof. reflexivity. Qed.

Lemma cp_user_named_rows_spec db c u n p :
  In p (cp_user_named_rows db c u n) <->
  In p (campaign_properties db) /\ cp_campaign p = campaign_pk c
  /\ (exists x, cp_user p = Some x /\ user_pk x = user_pk u)
  /\ cp_name p = n.
Proof.
  unfold cp_user_named_rows, cp_of_user.
  rewrite filter_In, !andb_true_iff, Z.eqb_eq, String.eqb_eq.
  destruct (cp_user p) as [x|].
  - rewrite Z.eqb_eq. split.
    + intros (Hin & (Hc & Hu) & Hn); eauto 6.
    + intros (Hin & Hc & (y & Hy & Hu) & Hn).
      inversion Hy; subst; auto.
  - split.
    + intros (_ & (_ & Hu) & _); discriminate.
    + intros (_ & _ & (y & Hy & _) & _); discriminate.
Qed.

Lemma cp_default_named_rows_spec db c n p :
  In p (cp_default_named_rows db c n) <->
  In p (campaign_properties db) /\ cp_campaign p = campaign_pk c
  /\ cp_user p = None /\ cp_name p = n.
Proof.
  unfold cp_default_named_rows, cp_is_default.
  rewrite filter_In, !andb_true_iff, Z.eqb_eq, String.eqb_eq.
  destruct (cp_user p); intuition congruence.
Qed.

Lemma cp_named_rows_spec db c n p :
  In p (cp_named_rows db c n) <->
  In p (campaign_properties db) /\ cp_campaign p = campaign_pk c
  /\ cp_name p = n.
Proof.
  unfold cp_named_rows.
  rewrite filter_In, andb_true_iff, Z.eqb_eq, String.eqb_eq. tauto.
Qed.

Section PropertyStore.

Variable get_stacktrace_str : exn -> string.

(** C7.  Single-property resolve on a campaign that exists: the value of
    the caller's own row when there is one; otherwise the value of the
    default row; otherwise NOT_FOUND (404).  Two default rows of one name,
    which the data model rules out, are the only other case. *)
Theorem load_campaign_property_resolve db user cid property_name campaign :
  campaigns_by_id db cid = [campaign] ->
  let r := load_campaign_property get_stacktrace_str db user cid
                                  property_name in
  match cp_user_named_rows db campaign user property_name,
        cp_default_named_rows db campaign property_name with
  | p :: _, _ =>
      status r = 200
      /\ content r = Some [mkNameValue property_name (cp_value p)]
  | [], [d] =>
      status r = 200
      /\ content r = Some [mkNameValue property_name (cp_value d)]
  | [], [] => status r = 404 /\ content r = None
  | [], _ :: _ :: _ => status r = 500 /\ content r = None
  end.
Proof.
  intros Hc r; subst r.
  unfold load_campaign_property, load_campaign_property_try.
  rewrite Hc, get_object_or_404_single; cbn [rbind ok].
  destruct (cp_user_named_rows db campaign user property_name)
    as [|p ps] eqn:Hu.
  - destruct (cp_default_named_rows db campaign property_name)
      as [|d [|d' ds]] eqn:Hd; cbn; auto.
    assert (Hin : In d (cp_default_named_rows db campaign property_name))
      by (rewrite Hd; left; reflexivity).
    apply cp_default_named_rows_spec in Hin as (_ & _ & _ & Hn).
    unfold cp_name_value; rewrite Hn; auto.
  - assert (Hin : In p (cp_user_named_rows db campaign user property_name))
      by (rewrite Hu; left; reflexivity).
    apply cp_user_named_rows_spec in Hin as (_ & _ & _ & Hn).
    cbn. unfold cp_name_value; rewrite Hn; auto.
Qed.

(** C10.  A campaign without an [IS_MASTER] property cannot be loaded: the
    detail read answers 404 although the campaign is there, and whenever
    it answers 200 the campaign has exactly one [IS_MASTER] row. *)
Theorem load_campaign_needs_master db user cid campaign :
  campaigns_by_id db cid = [campaign] ->
  (cp_named_rows db campaign "IS_MASTER" = [] ->
   load_campaign get_stacktrace_str db user cid =
   mkResponse 404 "No CampaignProperty matches the given query." None)
  /\ (status (load_campaign get_stacktrace_str db user cid) = 200 ->
      exists master, cp_named_rows db campaign "IS_MASTER" = [master]).
Proof.
  intros Hc.
  unfold load_campaign, load_campaign_try.
  rewrite Hc, get_object_or_404_single; cbn [rbind ok].
  split.
  - intros ->. reflexivity.
  - destruct (cp_named_rows db campaign "IS_MASTER") as [|m [|m' ms]].
    + cbn; discriminate.
    + intros _; eauto.
    + cbn; discriminate.
Qed.

End PropertyStore.

Section MapProperties.

Variable get_stacktrace_str : exn -> string.

Lemma mp_user_or_default_spec tile_map uid p :
  mp_user_or_default tile_map uid p = true <->
  mp_map p = map_pk tile_map /\ (mp_user p = Some uid \/ mp_user p = None).
Proof.
  unfold mp_user_or_default, mp_is_default, option_Z_eqb.
  rewrite orb_true_iff, !andb_true_iff, Z.eqb_eq.
  destruct (mp_user p) as [x|].
  - rewrite Z.eqb_eq. split.
    + intros [[Hm Hu]|[_ Hu]]; [subst; auto | discriminate].
    + intros [Hm [Hu|Hu]]; [inversion Hu; auto | discriminate].
  - intuition discriminate.
Qed.

Lemma pairs_named_map n rows :
  pairs_named n (map mp_name_value rows) =
  map mp_name_value (filter (fun p => String.eqb (mp_name p) n) rows).
Proof.
  unfold pairs_named.
  induction rows as [|p rows IH]; simpl; [reflexivity|].
  destruct (String.eqb (mp_name p) n); simpl; rewrite IH; reflexivity.
Qed.

(** C4, as the code has it.  On a map that exists, the bulk read for user
    [uid] answers with one pair per row of the map that belongs to [uid]
    or to the default scope, in table order and without shadowing: a
    default row and a row of [uid] under the same name both appear.  The
    caller's own bulk read is the same read at the caller's id. *)
Theorem load_map_properties_union db user cid mid tile_map uid :
  maps_by_ids db cid mid = [tile_map] ->
  let r := load_map_properties_for_user get_stacktrace_str db user cid mid
                                        uid in
  let rows := filter (mp_user_or_default tile_map uid) (map_properties db) in
  status r = 200
  /\ content r =
     Some (mkPropertyList (map_saved tile_map) (map mp_name_value rows))
  /\ (forall p, In p rows <->
                In p (map_properties db) /\ mp_map p = map_pk tile_map
                /\ (mp_user p = Some uid \/ mp_user p = None))
  /\ (forall d u,
        In d (map_properties db) -> mp_map d = map_pk tile_map ->
        mp_user d = None ->
        In u (map_properties db) -> mp_map u = map_pk tile_map ->
        mp_user u = Some uid -> mp_name u = mp_name d ->
        In (mkNameValue (mp_name d) (mp_value u)) (map mp_name_value rows)
        /\ In (mkNameValue (mp_name d) (mp_value d))
              (map mp_name_value rows))
  /\ load_map_properties get_stacktrace_str db user cid mid =
     load_map_properties_for_user get_stacktrace_str db user cid mid
                                  (user_pk user).
Proof.
  intros Hm r rows; subst r.
  assert (Hrows : forall p, In p rows <->
                            In p (map_properties db)
                            /\ mp_map p = map_pk tile_map
                            /\ (mp_user p = Some uid \/ mp_user p = None)).
  { intros p; unfold rows.
    rewrite filter_In, mp_user_or_default_spec; tauto. }
  unfold load_map_properties, load_map_properties_for_user,
    load_map_properties_for_user_try.
  rewrite Hm, get_object_or_404_single; cbn [rbind ok respond status content].
  split; [reflexivity|]. split; [reflexivity|].
  split; [exact Hrows|]. split; [|reflexivity].
  intros d u Hd Hdm Hdu Hu Hum Huu Hn.
  - split.
    + rewrite <- Hn.
      change (In (mp_name_value u) (map mp_name_value rows)).
      apply in_map, Hrows; auto.
    + change (In (mp_name_value d) (map mp_name_value rows)).
      apply in_map, Hrows; auto.
Qed.

End MapProperties.

(** ** Permission engine *)

Lemma option_Z_eqb_eq a b : option_Z_eqb a b = true <-> a = b.
Proof.
  destruct a as [x|], b as [y|]; cbn; rewrite ?Z.eqb_eq;
    split; intros H; try discriminate; try reflexivity; congruence.
Qed.

Lemma option_Z_eqb_refl a : option_Z_eqb a a = true.
Proof. apply option_Z_eqb_eq; reflexivity. Qed.

Lemma dict_get_error d k e : dict_get d k = inl e -> e = KeyError k.
Proof.
  induction d as [|[k' v] d IH]; cbn.
  - intros H; inversion H; reflexivity.
  - destruct (String.eqb k' k); [discriminate | exact IH].
Qed.

Lemma dict_get_absent d k :
  ~ In k (map fst d) -> dict_get d k = raise (KeyError k).
Proof.
  induction d as [|[k' v] d IH]; cbn; [reflexivity|].
  intros Hn. destruct (String.eqb k' k) eqn:E.
  - apply String.eqb_eq in E. tauto.
  - apply IH; tauto.
Qed.

Lemma dict_get_present d k v : dict_get d k = ok v -> In (k, v) d.
Proof.
  induction d as [|[k' v'] d IH]; cbn; [discriminate|].
  destruct (String.eqb k' k) eqn:E.
  - apply String.eqb_eq in E. intros H; inversion H; subst; auto.
  - auto.
Qed.

(** Every name the dictionary gives is one of [PERMISSIONS]. *)
Lemma property_name_is_permission k v :
  dict_get property_names k = ok v -> str_in v PERMISSIONS = true.
Proof.
  intros H. apply dict_get_present in H.
  cbn in H.
  repeat (destruct H as [H|H]; [inversion H; reflexivity|]).
  contradiction.
Qed.

Lemma filter_none {A} (f : A -> bool) (l : list A) :
  (forall x, In x l -> f x = false) -> filter f l = [].
Proof.
  induction l as [|a l IH]; cbn; [reflexivity|].
  intros H. rewrite (H a) by auto. apply IH; auto.
Qed.

Lemma filter_absorb {A} (f g : A -> bool) (l : list A) :
  (forall x, In x l -> f x = true -> g x = true) ->
  filter f (filter g l) = filter f l.
Proof.
  induction l as [|a l IH]; cbn; [reflexivity|].
  intros H. destruct (g a) eqn:G; cbn.
  - destruct (f a); rewrite IH; auto.
  - destruct (f a) eqn:F.
    + rewrite (H a) in G by auto. discriminate.
    + apply IH; auto.
Qed.

Lemma qs_delete_In {A} (selected : A -> bool) rows r :
  In r (qs_delete selected rows) <-> In r rows /\ selected r = false.
Proof.
  unfold qs_delete. rewrite filter_In, negb_true_iff. tauto.
Qed.

Lemma scope_permission_permissions tile_map player property_name entity r :
  str_in property_name PERMISSIONS = true ->
  scope_permission tile_map player property_name entity r = true ->
  scope_permissions tile_map player entity r = true.
Proof.
  unfold scope_permission, scope_permissions.
  rewrite !andb_true_iff, String.eqb_eq.
  intros Hp (((Hm & Hs) & Hn) & Hv). rewrite Hn. auto.
Qed.

(** After the clearing step the lookup of [get_or_create] finds nothing. *)
Lemma lookup_after_reset tile_map player property_name entity rows :
  str_in property_name PERMISSIONS = true ->
  filter (scope_permission tile_map player property_name entity)
         (qs_delete (scope_permissions tile_map player entity) rows) = [].
Proof.
  intros Hp. apply filter_none. intros r Hr.
  apply qs_delete_In in Hr as [_ Hr].
  destruct (scope_permission tile_map player property_name entity r) eqn:E;
    [|reflexivity].
  rewrite (scope_permission_permissions _ _ _ _ _ Hp E) in Hr. discriminate.
Qed.

(** One turn of the loop for a target not yet in [player_reset]: its
    permission rows for the entity are cleared, the new row is inserted
    and the target is recorded. *)
Lemma assign_permissions_first_touch
  db_users tile_map p rest player_reset rows property_name :
  dict_get property_names (permission p) = ok property_name ->
  player_in (player p) player_reset = false ->
  user_exists db_users
    (mp_user (fresh_permission tile_map (player p) property_name (entity p)))
  = true ->
  assign_permissions db_users tile_map (p :: rest) player_reset rows =
  assign_permissions db_users tile_map rest (player_reset ++ [player p])%list
    (qs_delete (scope_permissions tile_map (player p) (entity p)) rows
     ++ [fresh_permission tile_map (player p) property_name (entity p)])%list.
Proof.
  intros Hk Hp Hfk.
  pose proof (property_name_is_permission _ _ Hk) as Hin.
  cbn [assign_permissions].
  unfold mbind at 1. unfold query at 1. rewrite Hk.
  unfold mbind at 1. rewrite Hp. cbn [negb].
  unfold mbind at 1. unfold reset_player, update, mret.
  unfold mbind at 1. unfold get_or_create.
  unfold ok. cbv beta iota zeta.
  rewrite (lookup_after_reset _ _ _ _ _ Hin), Hfk. reflexivity.
Qed.

Lemma str_in_In x xs : str_in x xs = true <-> In x xs.
Proof.
  unfold str_in. rewrite existsb_exists. split.
  - intros (y & Hy & E). apply String.eqb_eq in E. subst; exact Hy.
  - intros H. exists x. split; [exact H | apply String.eqb_refl].
Qed.

Lemma dict_get_known d k :
  In k (map fst d) -> exists v, dict_get d k = ok v.
Proof.
  induction d as [|[k' v'] d IH]; cbn; [contradiction|].
  intros [H|H].
  - subst. rewrite String.eqb_refl. eauto.
  - destruct (String.eqb k' k); eauto.
Qed.

(** The scope a player id selects, spelt out. *)
Lemma mp_in_scope_spec player r :
  mp_in_scope player r = true <->
  (truthy_player player = true /\ mp_user r = player)
  \/ (truthy_player player = false /\ mp_user r = None).
Proof.
  unfold mp_in_scope, mp_is_default.
  destruct (truthy_player player).
  - rewrite option_Z_eqb_eq. intuition discriminate.
  - destruct (mp_user r); intuition discriminate.
Qed.

(** A batch with an entry of an unrecognised kind never completes: the
    loop raises, either the [KeyError] of an unrecognised kind or, before
    reaching it, an exception of the store: [MultipleObjectsReturned] from
    a lookup that met duplicate rows, [IntegrityError] from an insert for
    a player id that is not a user. *)
Lemma assign_permissions_unknown db_users tile_map permissions :
  forall player_reset rows,
    (exists p, In p permissions /\ ~ In (permission p) permission_kinds) ->
    exists e,
      fst (assign_permissions db_users tile_map permissions player_reset rows)
      = inl e
      /\ ((exists p, In p permissions
                     /\ ~ In (permission p) permission_kinds
                     /\ e = KeyError (permission p))
          \/ (exists model, e = MultipleObjectsReturned model)
          \/ e = IntegrityError).
Proof.
  induction permissions as [|p rest IH]; intros player_reset rows (q & Hq & Hk).
  - contradiction.
  - cbn [assign_permissions].
    unfold mbind at 1. unfold query at 1.
    destruct (dict_get property_names (permission p)) as [e|name] eqn:Hd.
    + exists e. split; [reflexivity|]. left. exists p.
      split; [left; reflexivity|]. split.
      * intros Hin. apply dict_get_known in Hin as [v Hv].
        rewrite Hv in Hd. discriminate.
      * apply dict_get_error in Hd. exact Hd.
    + assert (Hrest : exists p0, In p0 rest
                                 /\ ~ In (permission p0) permission_kinds).
      { destruct Hq as [<-|Hq]; [|eauto].
        rewrite (dict_get_absent _ _ Hk) in Hd. discriminate. }
      unfold mbind at 1.
      set (step := if negb (player_in (player p) player_reset)
                   then _ else _).
      destruct (step rows) as [[e|player_reset'] rows1] eqn:Hs.
      * exfalso. subst step.
        destruct (negb (player_in (player p) player_reset));
          cbv in Hs; discriminate.
      * unfold mbind at 1. unfold get_or_create. cbv zeta.
        destruct (filter _ rows1) as [|x [|y l]].
        -- destruct (user_exists db_users _).
           ++ destruct (IH player_reset' (rows1 ++ [fresh_permission tile_map
                          (player p) name (entity p)])%list Hrest)
                as (e & He & Hcase).
              exists e. split; [exact He|].
              destruct Hcase as [(p0 & Hp0 & Hp0k & ->)|Hm];
                [left|right; exact Hm].
              exists p0. split; [right; exact Hp0|]. auto.
           ++ eexists. split; [reflexivity|]. right. right. reflexivity.
        -- destruct (IH player_reset' rows1 Hrest) as (e & He & Hcase).
           exists e. split; [exact He|].
           destruct Hcase as [(p0 & Hp0 & Hp0k & ->)|Hm];
             [left|right; exact Hm].
           exists p0. split; [right; exact Hp0|]. auto.
        -- eexists. split; [reflexivity|]. right. left. eexists. reflexivity.
Qed.

Section PermissionEngine.

Variable get_stacktrace_str : exn -> string.

(** On a map that exists and a body that decodes, [map_permissions] is
    the loop run on the [MapProperty] table; what the loop wrote stays
    written whether it ends or raises. *)
Lemma map_permissions_run db user cid mid tile_map permissions :
  maps_by_ids db cid mid = [tile_map] ->
  map_permissions get_stacktrace_str db user cid mid (Json permissions) =
  (respond get_stacktrace_str (" (campaign=" ++ cid ++ ", map=" ++ mid ++ ")")
     (match fst (assign_permissions (users db) tile_map permissions []
                                    (map_properties db)) with
      | inl e => inl e
      | inr _ => ok ("Map Permissions updates (len="
                       ++ str_of_len (List.length permissions) ++ ")", tt)
      end),
   set_map_properties db
     (snd (assign_permissions (users db) tile_map permissions []
                              (map_properties db)))).
Proof.
  intros Hm.
  unfold map_permissions, map_permissions_try.
  unfold mbind at 1. unfold query at 1.
  rewrite Hm, get_object_or_404_single. unfold ok at 1. cbv beta iota.
  unfold mbind at 1. unfold query at 1. cbn [json_loads].
  unfold ok at 1. cbv beta iota.
  unfold mbind at 1, on_map_properties.
  destruct (assign_permissions (users db) tile_map permissions []
                               (map_properties db))
    as [[e|[]] rows]; reflexivity.
Qed.

(** A batch of one entry of a recognised kind: the target's permission
    rows for the entity are cleared and one row is written. *)
Lemma assign_permissions_single db_users tile_map p rows property_name :
  dict_get property_names (permission p) = ok property_name ->
  user_exists db_users
    (mp_user (fresh_permission tile_map (player p) property_name (entity p)))
  = true ->
  assign_permissions db_users tile_map [p] [] rows =
  (ok tt,
   (qs_delete (scope_permissions tile_map (player p) (entity p)) rows
    ++ [fresh_permission tile_map (player p) property_name (entity p)])%list).
Proof.
  intros Hk Hfk.
  rewrite (assign_permissions_first_touch db_users tile_map p [] []
             rows property_name Hk eq_refl Hfk).
  reflexivity.
Qed.

(** C1, as the code has it.  Moving [control] of entity [E] to user [B]
    (a batch of that one entry, [B] the non-zero id of a user of the
    store) on a map that exists succeeds and leaves exactly one [control]
    row for [E] owned by [B]; the rows of every other owner, user or
    default scope, are left as they were, so a prior owner's [control] row
    for [E] is still there. *)
Theorem map_permissions_reassign_control db user cid mid tile_map E B :
  maps_by_ids db cid mid = [tile_map] ->
  B <> 0 ->
  user_exists (users db) (Some B) = true ->
  let out := map_permissions get_stacktrace_str db user cid mid
               (Json [mkPermission E (Some B) "control"]) in
  status (fst out) = 200
  /\ owned_by (Some B)
       (permission_rows tile_map "SHARED_CONTROL" E
                        (map_properties (snd out))) =
     [mkMapProperty (map_pk tile_map) (Some B) "SHARED_CONTROL" E]
  /\ not_owned_by (Some B) (map_properties (snd out)) =
     not_owned_by (Some B) (map_properties db)
  /\ (forall a, In a (map_properties db) -> mp_user a <> Some B ->
                In a (map_properties (snd out))).
Proof.
  intros Hm HB Huser out; subst out.
  assert (HBt : truthy_player (Some B) = true).
  { cbn. apply negb_true_iff, Z.eqb_neq, HB. }
  rewrite (map_permissions_run _ _ _ _ _ _ Hm).
  rewrite (assign_permissions_single (users db) tile_map _ _ "SHARED_CONTROL");
    [|reflexivity
     |unfold fresh_permission; cbn [player mp_user]; rewrite HBt;
      exact Huser].
  cbn [fst snd respond ok status set_map_properties map_properties
       player entity].
  unfold fresh_permission. rewrite HBt.
  set (cleared := qs_delete (scope_permissions tile_map (Some B) E)
                            (map_properties db)).
  set (row := mkMapProperty (map_pk tile_map) (Some B) "SHARED_CONTROL" E).
  assert (Hnot : not_owned_by (Some B) (cleared ++ [row])%list =
                 not_owned_by (Some B) (map_properties db)).
  { unfold not_owned_by. rewrite filter_app. cbn [filter row mp_user].
    rewrite option_Z_eqb_refl. cbn [negb]. rewrite app_nil_r.
    unfold cleared, qs_delete. apply filter_absorb.
    intros x _ Hx. apply negb_true_iff in Hx. apply negb_true_iff.
    unfold scope_permissions, mp_in_scope. rewrite HBt, Hx.
    rewrite andb_false_r. reflexivity. }
  split; [reflexivity|]. split; [|split; [exact Hnot|]].
  - unfold owned_by, permission_rows. rewrite filter_app, filter_app.
    replace (filter _ (filter _ cleared)) with (@nil MapProperty).
    + cbn. rewrite Z.eqb_refl, String.eqb_refl. cbn.
      rewrite Z.eqb_refl. reflexivity.
    + symmetry. apply filter_none. intros x Hx.
      apply filter_In in Hx as [Hx Hq].
      apply qs_delete_In in Hx as [_ Hx].
      destruct (option_Z_eqb (mp_user x) (Some B)) eqn:Hu; [|reflexivity].
      rewrite !andb_true_iff in Hq. destruct Hq as [[Hq1 Hq2] Hq3].
      unfold scope_permissions, mp_in_scope in Hx.
      rewrite HBt, Hu, Hq1, Hq3 in Hx.
      apply String.eqb_eq in Hq2. rewrite Hq2 in Hx. discriminate.
  - intros a Ha Hu.
    assert (Hin : In a (not_owned_by (Some B) (map_properties db))).
    { unfold not_owned_by. apply filter_In. split; [exact Ha|].
      apply negb_true_iff.
      destruct (option_Z_eqb (mp_user a) (Some B)) eqn:E0; [|reflexivity].
      apply option_Z_eqb_eq in E0. contradiction. }
    rewrite <- Hnot in Hin. unfold not_owned_by in Hin.
    apply filter_In in Hin. tauto.
Qed.

(** C6.  On a map where [goblin1] has no vision owner, the batch
    [{entity: goblin1, player: null, permission: vision}] succeeds; the
    table then holds the rows that were not default-scope permission rows
    of [goblin1], followed by one new row, and that row -- default scope,
    [SHARED_VISION], value [goblin1] -- is the only vision row for
    [goblin1] on the map. *)
Theorem map_permissions_default_vision db user cid mid tile_map :
  maps_by_ids db cid mid = [tile_map] ->
  permission_rows tile_map "SHARED_VISION" "goblin1" (map_properties db) = [] ->
  let out := map_permissions get_stacktrace_str db user cid mid
               (Json [mkPermission "goblin1" None "vision"]) in
  let row := mkMapProperty (map_pk tile_map) None "SHARED_VISION" "goblin1" in
  status (fst out) = 200
  /\ map_properties (snd out) =
     (qs_delete (scope_permissions tile_map None "goblin1") (map_properties db)
      ++ [row])%list
  /\ permission_rows tile_map "SHARED_VISION" "goblin1"
                     (map_properties (snd out)) = [row]
  /\ owned_by None
       (permission_rows tile_map "SHARED_VISION" "goblin1"
                        (map_properties (snd out))) = [row].
Proof.
  intros Hm Hfree out row; subst out.
  rewrite (map_permissions_run _ _ _ _ _ _ Hm).
  rewrite (assign_permissions_single (users db) tile_map _ _ "SHARED_VISION")
    by reflexivity.
  cbn [fst snd respond ok status set_map_properties map_properties
       player entity].
  change (fresh_permission tile_map None "SHARED_VISION" "goblin1") with row.
  assert (Hrows : permission_rows tile_map "SHARED_VISION" "goblin1"
                    (qs_delete (scope_permissions tile_map None "goblin1")
                               (map_properties db) ++ [row])%list = [row]).
  { unfold permission_rows. rewrite filter_app.
    replace (filter _ (qs_delete _ _)) with (@nil MapProperty).
    - cbn. rewrite Z.eqb_refl. reflexivity.
    - symmetry. unfold qs_delete. rewrite filter_absorb.
      + exact Hfree.
      + intros x Hx Hq.
        assert (Hin : In x (permission_rows tile_map "SHARED_VISION"
                                            "goblin1" (map_properties db)))
          by (apply filter_In; auto).
        rewrite Hfree in Hin. contradiction. }
  split; [reflexivity|]. split; [reflexivity|]. split; [exact Hrows|].
  rewrite Hrows. reflexivity.
Qed.

(** C8, as the code has it.  The clearing step always succeeds and
    deletes exactly the rows of the map in the target scope (the user, or
    the default scope for [null] and [0]) whose value is the entity and
    whose name is any of the seven names of [PERMISSIONS], whether or not
    the batch refers to that kind.  Every other row -- a name that is not
    a permission name, another entity, another owner, another map --
    stays. *)
Theorem reset_player_clears_every_kind tile_map player entity rows :
  let out := reset_player tile_map player entity rows in
  fst out = ok tt
  /\ forall r,
       In r (snd out) <->
       In r rows
       /\ ~ (mp_map r = map_pk tile_map /\ mp_in_scope player r = true
             /\ In (mp_name r) PERMISSIONS /\ mp_value r = entity).
Proof.
  unfold reset_player, update. cbn [fst snd].
  split; [reflexivity|]. intros r.
  rewrite qs_delete_In. unfold scope_permissions.
  rewrite <- str_in_In, <- (String.eqb_eq (mp_value r)), <- Z.eqb_eq.
  destruct (mp_map r =? map_pk tile_map), (mp_in_scope player r),
    (str_in (mp_name r) PERMISSIONS), (String.eqb (mp_value r) entity);
    cbn; intuition discriminate.
Qed.

(** C5, as the code has it.  On a map that exists, a batch that decodes
    and holds an entry of an unrecognised kind is answered with status 500
    and the diagnostic text of the exception raised: the [KeyError] that
    carries an unrecognised kind of the batch or, when an earlier entry
    failed in the store first, that failure ([MultipleObjectsReturned] on
    duplicate rows, [IntegrityError] on a player id that is not a user). *)
Theorem map_permissions_unknown_kind db user cid mid tile_map permissions :
  maps_by_ids db cid mid = [tile_map] ->
  (exists p, In p permissions /\ ~ In (permission p) permission_kinds) ->
  exists e,
    fst (map_permissions get_stacktrace_str db user cid mid
                         (Json permissions)) =
    mkResponse 500 (get_stacktrace_str e) None
    /\ ((exists p, In p permissions
                   /\ ~ In (permission p) permission_kinds
                   /\ e = KeyError (permission p))
        \/ (exists model, e = MultipleObjectsReturned model)
        \/ e = IntegrityError).
Proof.
  intros Hm Hbad.
  rewrite (map_permissions_run _ _ _ _ _ _ Hm). cbn [fst].
  destruct (assign_permissions_unknown (users db) tile_map permissions []
              (map_properties db) Hbad) as (e & He & Hcase).
  exists e. rewrite He. split; [|exact Hcase].
  destruct Hcase as [(p & _ & _ & He')|[[model He']|He']]; subst e;
    reflexivity.
Qed.

End PermissionEngine.

(** ** Action log and sync *)

Lemma qs_last_In {A} (rows : list A) (x : A) :
  qs_last rows = Some x -> In x rows.
Proof.
  induction rows as [|y [|z rest] IH]; cbn [qs_last].
  - discriminate.
  - intros H; inversion H; left; reflexivity.
  - intros H. right. apply IH. exact H.
Qed.

Lemma qs_last_None {A} (rows : list A) : qs_last rows = None <-> rows = [].
Proof.
  induction rows as [|y [|z rest] IH]; cbn [qs_last].
  - tauto.
  - split; discriminate.
  - rewrite IH. split; discriminate.
Qed.

Lemma StronglySorted_snoc {A} (R : A -> A -> Prop) (l : list A) (y : A) :
  StronglySorted R l -> Forall (fun x => R x y) l ->
  StronglySorted R (l ++ [y]).
Proof.
  induction 1 as [|x l Hs IH Hx]; intros Hy; cbn.
  - repeat constructor.
  - inversion Hy; subst. constructor; [apply IH; assumption|].
    apply Forall_app. split; [assumption | repeat constructor; assumption].
Qed.

Lemma StronglySorted_filter {A} (R : A -> A -> Prop) (f : A -> bool) l :
  StronglySorted R l -> StronglySorted R (filter f l).
Proof.
  induction 1 as [|x l Hs IH Hx]; cbn; [constructor|].
  destruct (f x); [|exact IH].
  constructor; [exact IH|].
  rewrite Forall_forall in *. intros y Hy.
  apply filter_In in Hy as [Hy _]. auto.
Qed.

(** In a sorted queryset the last row is a greatest one. *)
Lemma StronglySorted_last {A} (R : A -> A -> Prop) (l : list A) (a : A) :
  (forall x, R x x) ->
  StronglySorted R l -> qs_last l = Some a -> forall b, In b l -> R b a.
Proof.
  intros Hrefl. induction 1 as [|x l Hs IH Hx]; [discriminate|].
  intros Hl b Hb.
  destruct l as [|z rest].
  - cbn in Hl. inversion Hl; subst. destruct Hb as [<-|[]]. apply Hrefl.
  - change (qs_last (z :: rest) = Some a) in Hl.
    destruct Hb as [<-|Hb]; [|auto].
    rewrite Forall_forall in Hx. apply Hx, qs_last_In, Hl.
Qed.

Lemma actions_since_In campaign since rows a :
  In a (actions_since campaign since rows) <->
  In a rows /\ action_campaign a = campaign_pk campaign
  /\ since < action_created a.
Proof.
  unfold actions_since.
  rewrite filter_In, andb_true_iff, Z.eqb_eq, Z.ltb_lt. tauto.
Qed.

Lemma exclude_user_In user rows a :
  In a (exclude_user user rows) <->
  In a rows /\ action_user a <> user_pk user.
Proof.
  unfold exclude_user.
  rewrite filter_In, negb_true_iff, Z.eqb_neq. tauto.
Qed.

(** The cursor never moves back. *)
Lemma new_cursor_ge campaign since rows :
  since <= new_cursor since (actions_since campaign since rows).
Proof.
  unfold new_cursor.
  destruct (qs_last (actions_since campaign since rows)) as [a|] eqn:E;
    [|lia].
  apply qs_last_In, actions_since_In in E. lia.
Qed.

Lemma respond_content {P} gs suffix (r : result (string * P)) (p : P) :
  content (respond gs suffix r) = Some p -> exists msg, r = inr (msg, p).
Proof.
  destruct r as [[]|[msg q]]; cbn; intros H; try discriminate.
  inversion H; subst; eauto.
Qed.

Lemma maps_of_campaign_ext db db' campaign mid :
  maps db' = maps db ->
  maps_of_campaign db' campaign mid = maps_of_campaign db campaign mid.
Proof. unfold maps_of_campaign. intros ->. reflexivity. Qed.

Lemma log_extended_refl campaign user db : log_extended campaign user db db [].
Proof.
  unfold log_extended. rewrite app_nil_r. repeat split; auto.
Qed.

Lemma log_extended_trans campaign user db1 db2 db3 l1 l2 :
  log_extended campaign user db1 db2 l1 ->
  log_extended campaign user db2 db3 l2 ->
  log_extended campaign user db1 db3 (l1 ++ l2).
Proof.
  unfold log_extended.
  intros (H0 & H1 & H2 & H3 & H4 & H5 & H6)
         (G0 & G1 & G2 & G3 & G4 & G5 & G6).
  repeat split; try congruence.
  - rewrite G5, H5, app_assoc. reflexivity.
  - apply Forall_app; auto.
Qed.

Section Sync.

Variable get_stacktrace_str : exn -> string.
Variable tick : Z -> Z.

(** An insert adds one row at the end of the log, stamped with the next
    reading of the clock. *)
Lemma create_action_run campaign tile_map user data db :
  create_action tick campaign tile_map user data db =
  (ok tt,
   set_actions (set_clock db (tick (clock db)))
     (actions db ++
      [mkAction (campaign_pk campaign) (option_map map_pk tile_map)
                (user_pk user) data (tick (clock db))])).
Proof. reflexivity. Qed.

Lemma create_action_extended campaign tile_map user data db :
  log_extended campaign user db
    (snd (create_action tick campaign tile_map user data db))
    [mkAction (campaign_pk campaign) (option_map map_pk tile_map)
              (user_pk user) data (tick (clock db))].
Proof.
  rewrite create_action_run. unfold log_extended. cbn.
  repeat split; auto.
Qed.

Lemma append_actions_cons campaign user action rest db :
  append_actions tick campaign user (action :: rest) db =
  match append_action tick campaign user action db with
  | (inl e, db') => (inl e, db')
  | (inr _, db') => append_actions tick campaign user rest db'
  end.
Proof. reflexivity. Qed.

(** One turn of the loop either raises on its map lookup, before writing
    anything, or inserts one row. *)
Lemma append_action_cases campaign user action db :
  (exists e mid,
      posted_map action = Some mid /\ mid <> ""
      /\ get_object_or_404 "Map" (maps_of_campaign db campaign mid) = inl e
      /\ append_action tick campaign user action db = (inl e, db))
  \/ exists tile_map,
       append_action tick campaign user action db =
       create_action tick campaign tile_map user (posted_data action) db.
Proof.
  unfold append_action.
  destruct (posted_map action) as [mid|]; [|right; exists None; reflexivity].
  destruct (String.eqb mid "") eqn:E; cbn [negb];
    [right; exists None; reflexivity|].
  apply String.eqb_neq in E.
  unfold mbind, query.
  destruct (get_object_or_404 "Map" (maps_of_campaign db campaign mid))
    as [e|m] eqn:Hg.
  - left. exists e, mid. auto.
  - right. exists (Some m). reflexivity.
Qed.

(** Whether the loop ends or raises, it has only added rows of the caller
    to the log; when it ends it has added one row per posted action, with
    that action's text, in order. *)
Lemma append_actions_extended campaign user actions_post :
  forall db,
  exists appended,
    log_extended campaign user db
      (snd (append_actions tick campaign user actions_post db)) appended
    /\ (forall u, fst (append_actions tick campaign user actions_post db)
                  = inr u ->
                  map action_data appended = map posted_data actions_post).
Proof.
  induction actions_post as [|action rest IH]; intros db.
  - exists []. split; [apply log_extended_refl | reflexivity].
  - rewrite append_actions_cons.
    destruct (append_action_cases campaign user action db)
      as [(e & mid & _ & _ & _ & He)|(tile_map & Hc)].
    + rewrite He. exists []. split; [apply log_extended_refl|].
      cbn. intros u Hu. discriminate Hu.
    + rewrite Hc.
      pose proof (create_action_extended campaign tile_map user
                    (posted_data action) db) as Hext.
      rewrite create_action_run in *. cbn [snd] in Hext.
      unfold ok at 1. cbv beta iota.
      destruct (IH (set_actions (set_clock db (tick (clock db)))
                      (actions db ++
                       [mkAction (campaign_pk campaign)
                                 (option_map map_pk tile_map) (user_pk user)
                                 (posted_data action) (tick (clock db))])))
        as (appended & Happ & Hdata).
      eexists. split; [eapply log_extended_trans; eassumption|].
      intros u Hu. cbn [map app]. f_equal. eapply Hdata, Hu.
Qed.

(** What a sync call is once it is unfolded: the campaign lookup, the
    decoding of the body, the append loop, the parsing of the cursor and
    the two queries, each able to stop the call with what was written so
    far left in place. *)
Lemma update_actions_run db user cid datetime_iso body :
  update_actions get_stacktrace_str tick db user cid datetime_iso body =
  match get_object_or_404 "Campaign" (campaigns_by_id db cid) with
  | inl e => (respond get_stacktrace_str "" (inl e), db)
  | inr campaign =>
      match decode_actions body with
      | inl e => (respond get_stacktrace_str "" (inl e), db)
      | inr actions_post =>
          match append_actions tick campaign user actions_post db with
          | (inl e, db') => (respond get_stacktrace_str "" (inl e), db')
          | (inr _, db') =>
              match fromisoformat datetime_iso with
              | inl e => (respond get_stacktrace_str "" (inl e), db')
              | inr since =>
                  let rows := actions_since campaign since (actions db') in
                  (mkResponse 200
                     ("Actions loaded (len="
                        ++ str_of_len (List.length actions_post)
                        ++ "). Actions downloaded (len="
                        ++ str_of_len
                             (List.length (exclude_user user rows))
                        ++ ")")
                     (Some (mkSyncResult
                              (new_cursor since rows)
                              (map action_data (exclude_user user rows)))),
                   db')
              end
          end
      end
  end.
Proof.
  unfold update_actions, update_actions_try, mbind, query, mret.
  destruct (get_object_or_404 "Campaign" (campaigns_by_id db cid));
    [reflexivity|].
  destruct (decode_actions body); [reflexivity|].
  destruct (append_actions tick c user l db) as [[e|[]] db']; [reflexivity|].
  destruct (fromisoformat datetime_iso); reflexivity.
Qed.

(** A sync call that answers with a result went through every step. *)
Lemma update_actions_ok db user cid datetime_iso body res :
  content (fst (update_actions get_stacktrace_str tick db user cid
                               datetime_iso body)) = Some res ->
  exists campaign actions_post since,
    campaigns_by_id db cid = [campaign]
    /\ decode_actions body = ok actions_post
    /\ datetime_iso = Some since
    /\ append_actions tick campaign user actions_post db =
       (ok tt, snd (update_actions get_stacktrace_str tick db user cid
                                   datetime_iso body))
    /\ res =
       let rows :=
         actions_since campaign since
           (actions (snd (update_actions get_stacktrace_str tick db user cid
                                         datetime_iso body))) in
       mkSyncResult (new_cursor since rows)
                    (map action_data (exclude_user user rows)).
Proof.
  rewrite update_actions_run.
  destruct (get_object_or_404 "Campaign" (campaigns_by_id db cid))
    as [e|campaign] eqn:Hc.
  { cbn [fst]. intros H. apply respond_content in H as [msg H].
    discriminate. }
  apply get_object_or_404_ok in Hc.
  destruct (decode_actions body) as [e|actions_post] eqn:Hb.
  { cbn [fst]. intros H. apply respond_content in H as [msg H].
    discriminate. }
  destruct (append_actions tick campaign user actions_post db)
    as [[e|[]] db'] eqn:Ha.
  { cbn [fst]. intros H. apply respond_content in H as [msg H].
    discriminate. }
  destruct datetime_iso as [since|]; cbn [fromisoformat].
  - cbn. intros H. inversion H; subst res.
    exists campaign, actions_post, since. auto.
  - unfold raise. cbn [fst]. intros H.
    apply respond_content in H as [msg H]. discriminate.
Qed.

(** C2.  A sync call that answers never hands the caller one of the
    caller's own actions.  The texts returned are those of the rows of the
    campaign newer than the cursor and authored by someone else; the rows
    the call itself appended, one per posted action and all authored by the
    caller, are in the log but not among them.  This holds for any state
    of the log and any cursor, so for later calls as well. *)
Theorem update_actions_self_exclusion db user cid datetime_iso body res :
  let out := update_actions get_stacktrace_str tick db user cid
                            datetime_iso body in
  content (fst out) = Some res ->
  exists campaign actions_post since appended rows,
    campaigns_by_id db cid = [campaign]
    /\ decode_actions body = ok actions_post
    /\ datetime_iso = Some since
    /\ sync_actions res = map action_data rows
    /\ (forall a, In a rows <->
                  In a (actions (snd out))
                  /\ action_campaign a = campaign_pk campaign
                  /\ since < action_created a
                  /\ action_user a <> user_pk user)
    /\ Forall (fun a => action_user a <> user_pk user) rows
    /\ actions (snd out) = (actions db ++ appended)%list
    /\ map action_data appended = map posted_data actions_post
    /\ Forall (fun a => action_user a = user_pk user /\ ~ In a rows)
              appended.
Proof.
  intros out Hres.
  destruct (update_actions_ok _ _ _ _ _ _ Hres)
    as (campaign & actions_post & since & Hc & Hb & Hd & Ha & Hr).
  fold out in Ha, Hr.
  destruct (append_actions_extended campaign user actions_post db)
    as (appended & Hext & Hdata).
  rewrite Ha in Hext, Hdata. cbn [fst snd] in Hext, Hdata.
  destruct Hext as (_ & _ & _ & _ & _ & Hlog & Hown).
  set (rows := exclude_user user
                 (actions_since campaign since (actions (snd out)))).
  assert (Hrows : forall a, In a rows -> action_user a <> user_pk user).
  { intros a Hin. apply exclude_user_In in Hin. tauto. }
  exists campaign, actions_post, since, appended, rows.
  repeat match goal with |- _ /\ _ => split end; auto.
  - subst res. reflexivity.
  - intros a. unfold rows. rewrite exclude_user_In, actions_since_In. tauto.
  - apply Forall_forall. exact Hrows.
  - eapply Hdata. reflexivity.
  - rewrite Forall_forall in *. intros a Hin.
    destruct (Hown a Hin) as [_ Hu]. split; [exact Hu|].
    intros Hin'. apply (Hrows a Hin'). exact Hu.
Qed.

Lemma create_action_ordered campaign tile_map user data db :
  (forall t, t <= tick t) ->
  stamps_ordered db ->
  stamps_ordered (snd (create_action tick campaign tile_map user data db)).
Proof.
  intros Hmono [Hs Hb]. rewrite create_action_run. cbn [snd].
  unfold stamps_ordered. cbn [actions set_actions set_clock clock].
  pose proof (Hmono (clock db)) as Ht.
  split.
  - apply StronglySorted_snoc; [exact Hs|].
    eapply Forall_impl; [|exact Hb]. unfold earlier. cbn. intros a Ha. lia.
  - apply Forall_app. split.
    + eapply Forall_impl; [|exact Hb]. cbn. intros a Ha. lia.
    + repeat constructor. cbn. lia.
Qed.

(** With a clock that does not run backwards, the append loop keeps the
    log in stamp order. *)
Lemma append_actions_ordered campaign user actions_post :
  (forall t, t <= tick t) ->
  forall db,
    stamps_ordered db ->
    stamps_ordered (snd (append_actions tick campaign user actions_post db)).
Proof.
  intros Hmono.
  induction actions_post as [|action rest IH]; intros db Hdb; [exact Hdb|].
  rewrite append_actions_cons.
  destruct (append_action_cases campaign user action db)
    as [(e & mid & _ & _ & _ & He)|(tile_map & Hc)].
  - rewrite He. exact Hdb.
  - rewrite Hc.
    pose proof (create_action_ordered campaign tile_map user
                  (posted_data action) db Hmono Hdb) as Hdb'.
    rewrite create_action_run in *. cbn [snd] in Hdb'.
    unfold ok at 1. cbv beta iota. apply IH. exact Hdb'.
Qed.

(** C3.  The cursor a sync call sends back is never before the one it was
    given: it is the stamp of the last row of the campaign newer than the
    given cursor, rows of the caller included, and the given cursor itself
    when there is no such row.  On a log kept in stamp order by a clock
    that does not run backwards, that last row is the latest one: no row
    newer than the given cursor is newer than the cursor sent back. *)
Theorem update_actions_cursor db user cid datetime_iso body res :
  let out := update_actions get_stacktrace_str tick db user cid
                            datetime_iso body in
  content (fst out) = Some res ->
  exists campaign since,
    campaigns_by_id db cid = [campaign]
    /\ datetime_iso = Some since
    /\ since <= sync_date res
    /\ (let news := actions_since campaign since (actions (snd out)) in
        (news = [] -> sync_date res = since)
        /\ (news <> [] ->
            exists a, qs_last news = Some a /\ In a news
                      /\ sync_date res = action_created a
                      /\ since < sync_date res)
        /\ ((forall t, t <= tick t) -> stamps_ordered db ->
            forall b, In b news -> action_created b <= sync_date res)).
Proof.
  intros out Hres.
  destruct (update_actions_ok _ _ _ _ _ _ Hres)
    as (campaign & actions_post & since & Hc & Hb & Hd & Ha & Hr).
  fold out in Ha, Hr.
  exists campaign, since.
  split; [exact Hc|]. split; [exact Hd|].
  subst res. cbn [sync_date].
  split; [apply new_cursor_ge|].
  set (news := actions_since campaign since (actions (snd out))).
  cbv zeta. unfold new_cursor.
  split; [|split].
  - intros ->. reflexivity.
  - intros Hne. destruct (qs_last news) as [a|] eqn:El.
    + exists a. pose proof (qs_last_In _ _ El) as Hin.
      repeat split; auto.
      apply actions_since_In in Hin. lia.
    + apply qs_last_None in El. contradiction.
  - intros Hmono Hdb b Hbn.
    pose proof (append_actions_ordered campaign user actions_post Hmono db Hdb)
      as [Hs _].
    rewrite Ha in Hs. cbn [snd] in Hs.
    destruct (qs_last news) as [a|] eqn:El.
    + apply (StronglySorted_last earlier news a); auto.
      * intros x. unfold earlier. lia.
      * apply StronglySorted_filter. exact Hs.
    + apply qs_last_None in El. rewrite El in Hbn. contradiction.
Qed.

Lemma resolves_ext db db' campaign action :
  maps db' = maps db ->
  resolves db' campaign action = resolves db campaign action.
Proof.
  intros H. unfold resolves. destruct (posted_map action); [|reflexivity].
  rewrite (maps_of_campaign_ext _ _ _ _ H). reflexivity.
Qed.

Lemma append_action_resolved campaign user action db :
  resolves db campaign action = true ->
  exists tile_map,
    append_action tick campaign user action db =
    create_action tick campaign tile_map user (posted_data action) db.
Proof.
  intros Hr.
  destruct (append_action_cases campaign user action db)
    as [(e & mid & Hm & Hne & Hg & _)|H]; [exfalso|exact H].
  unfold resolves in Hr. rewrite Hm in Hr.
  apply orb_true_iff in Hr as [Hr|Hr].
  - apply String.eqb_eq in Hr. contradiction.
  - apply Nat.eqb_eq in Hr.
    destruct (maps_of_campaign db campaign mid) as [|m [|m' l]];
      cbn in Hr, Hg; discriminate.
Qed.

(** Posted actions that all resolve are all appended. *)
Lemma append_actions_resolved campaign user actions_post :
  forall db,
    forallb (resolves db campaign) actions_post = true ->
    fst (append_actions tick campaign user actions_post db) = ok tt.
Proof.
  induction actions_post as [|action rest IH]; intros db Hall;
    [reflexivity|].
  cbn [forallb] in Hall. apply andb_true_iff in Hall as [Hr Hall].
  rewrite append_actions_cons.
  destruct (append_action_resolved campaign user action db Hr)
    as [tile_map Hc].
  rewrite Hc. rewrite create_action_run. unfold ok at 1. cbv beta iota.
  apply IH. rewrite forallb_forall in *. intros a Ha.
  rewrite (resolves_ext db) by reflexivity. apply Hall, Ha.
Qed.

Lemma append_actions_app campaign user pre rest :
  forall db,
    append_actions tick campaign user (pre ++ rest) db =
    match append_actions tick campaign user pre db with
    | (inl e, db') => (inl e, db')
    | (inr _, db') => append_actions tick campaign user rest db'
    end.
Proof.
  induction pre as [|action pre IH]; intros db; [reflexivity|].
  cbn [app]. rewrite !append_actions_cons.
  destruct (append_action tick campaign user action db) as [[e|[]] db'];
    [reflexivity | apply IH].
Qed.

(** C9.  The append loop is not all-or-nothing.  When the entries before
    some entry all resolve and that entry names a map the campaign does
    not have, the call answers 404 and the log keeps one new row per
    entry before the failing one, with its text and authored by the
    caller; nothing is taken back. *)
Theorem update_actions_partial_append
  db user cid datetime_iso campaign pre bad post mid :
  campaigns_by_id db cid = [campaign] ->
  forallb (resolves db campaign) pre = true ->
  posted_map bad = Some mid ->
  mid <> "" ->
  maps_of_campaign db campaign mid = [] ->
  let out := update_actions get_stacktrace_str tick db user cid datetime_iso
                            (Json (pre ++ bad :: post)%list) in
  fst out = mkResponse 404 "No Map matches the given query." None
  /\ exists appended,
       actions (snd out) = (actions db ++ appended)%list
       /\ map action_data appended = map posted_data pre
       /\ Forall (fun a => action_campaign a = campaign_pk campaign
                           /\ action_user a = user_pk user)
                 appended.
Proof.
  intros Hc Hpre Hbad Hmid Hnone out.
  assert (Hout : exists db1 appended,
             out = (mkResponse 404 "No Map matches the given query." None, db1)
             /\ actions db1 = (actions db ++ appended)%list
             /\ map action_data appended = map posted_data pre
             /\ Forall (fun a => action_campaign a = campaign_pk campaign
                                 /\ action_user a = user_pk user)
                       appended).
  { subst out.
    rewrite update_actions_run, Hc, get_object_or_404_single.
    unfold ok at 1. cbv beta iota.
    change (decode_actions (Json (pre ++ bad :: post)%list))
      with (@inr exn _ (pre ++ bad :: post)%list).
    cbv beta iota.
    rewrite append_actions_app.
    pose proof (append_actions_resolved campaign user pre db Hpre) as Hok.
    destruct (append_actions_extended campaign user pre db)
      as (appended & Hext & Hdata).
    destruct (append_actions tick campaign user pre db) as [r db1].
    cbn [fst snd] in Hok, Hext, Hdata. subst r. unfold ok at 1.
    cbv beta iota.
    destruct Hext as (_ & _ & Hmaps & _ & _ & Hlog & Hown).
    rewrite append_actions_cons.
    exists db1, appended.
    destruct (append_action_cases campaign user bad db1)
      as [(e & mid' & Hm' & _ & Hg & He)|(tile_map & Hcr)].
    - rewrite He. rewrite Hbad in Hm'. inversion Hm'; subst mid'.
      rewrite (maps_of_campaign_ext _ _ _ _ Hmaps), Hnone in Hg.
      cbn in Hg. inversion Hg; subst e.
      split; [reflexivity|]. split; [exact Hlog|].
      split; [eapply Hdata; reflexivity | exact Hown].
    - exfalso. unfold append_action in Hcr. rewrite Hbad in Hcr.
      apply String.eqb_neq in Hmid. rewrite Hmid in Hcr. cbn [negb] in Hcr.
      unfold mbind, query in Hcr.
      rewrite (maps_of_campaign_ext _ _ _ _ Hmaps), Hnone in Hcr.
      cbn in Hcr. discriminate. }
  destruct Hout as (db1 & appended & -> & Hlog & Hdata & Hown).
  cbn [fst snd]. split; [reflexivity|]. exists appended. auto.
Qed.

End Sync.

(** * The statements at concrete inputs *)

(** C7 on the sample campaign: alice has no [theme] of her own and reads
    the default. *)
Lemma load_campaign_property_resolve_witness :
  campaigns_by_id db_theme "moria" = [moria]
  /\ status (load_campaign_property plain_trace db_theme alice "moria"
                                    "theme") = 200
  /\ content (load_campaign_property plain_trace db_theme alice "moria"
                                     "theme")
     = Some [mkNameValue "theme" "forest"].
Proof.
  split; [reflexivity|].
  exact (load_campaign_property_resolve plain_trace db_theme alice "moria"
                                        "theme" moria eq_refl).
Defined.

(** C10 on the sample campaign, which has no [IS_MASTER] row. *)
Lemma load_campaign_needs_master_witness :
  campaigns_by_id db_theme "moria" = [moria]
  /\ cp_named_rows db_theme moria "IS_MASTER" = []
  /\ load_campaign plain_trace db_theme alice "moria" =
     mkResponse 404 "No CampaignProperty matches the given query." None.
Proof.
  split; [reflexivity|]. split; [reflexivity|].
  exact (proj1 (load_campaign_needs_master plain_trace db_theme alice "moria"
                                           moria eq_refl) eq_refl).
Defined.

(** C4 as stated fails: with a default [theme] and a [theme] of alice on
    the map, both bulk reads answer with two pairs under that name, the
    default's among them, not with the single pair of alice's value. *)
Lemma load_map_properties_shadow_counterexample :
  (exists ps,
      content (load_map_properties plain_trace db_shadow alice "moria" "hall")
      = Some ps
      /\ pairs_named "theme" (list_properties ps) =
         [mkNameValue "theme" "forest"; mkNameValue "theme" "desert"])
  /\ (exists ps,
        content (load_map_properties_for_user plain_trace db_shadow bob
                                              "moria" "hall" 1)
        = Some ps
        /\ pairs_named "theme" (list_properties ps) =
           [mkNameValue "theme" "forest"; mkNameValue "theme" "desert"])
  /\ ~ (exists ps,
          content (load_map_properties plain_trace db_shadow alice "moria"
                                       "hall")
          = Some ps
          /\ pairs_named "theme" (list_properties ps) =
             [mkNameValue "theme" "desert"]).
Proof.
  split; [eexists; split; reflexivity|].
  split; [eexists; split; reflexivity|].
  intros (ps & Hps & Hpairs).
  vm_compute in Hps. inversion Hps; subst ps.
  vm_compute in Hpairs. discriminate.
Qed.

(** C4 as amended, on the same map. *)
Lemma load_map_properties_union_witness :
  maps_by_ids db_shadow "moria" "hall" = [hall]
  /\ content (load_map_properties_for_user plain_trace db_shadow bob
                                           "moria" "hall" 1)
     = Some (mkPropertyList 2000 [mkNameValue "theme" "forest";
                                  mkNameValue "theme" "desert"]).
Proof.
  split; [reflexivity|].
  exact (proj1 (proj2 (load_map_properties_union plain_trace db_shadow bob
                         "moria" "hall" hall 1 eq_refl))).
Defined.

(** C1 as stated fails: after control of [E] moves from alice to bob, the
    map holds two [control] rows for [E], alice's and bob's. *)
Lemma map_permissions_singleton_counterexample :
  status (fst (map_permissions plain_trace db_control alice "moria" "hall"
                               control_to_bob)) = 200
  /\ permission_rows hall "SHARED_CONTROL" "E"
       (map_properties
          (snd (map_permissions plain_trace db_control alice "moria" "hall"
                                control_to_bob))) =
     [mkMapProperty 10 (Some 1) "SHARED_CONTROL" "E";
      mkMapProperty 10 (Some 2) "SHARED_CONTROL" "E"]
  /\ ~ (exists row,
          permission_rows hall "SHARED_CONTROL" "E"
            (map_properties
               (snd (map_permissions plain_trace db_control alice "moria"
                                     "hall" control_to_bob))) = [row]
          /\ mp_user row = Some 2).
Proof.
  split; [reflexivity|]. split; [reflexivity|].
  intros (row & Hrow & _). vm_compute in Hrow. discriminate.
Qed.

(** C1 as amended, on the same map. *)
Lemma map_permissions_reassign_control_witness :
  maps_by_ids db_control "moria" "hall" = [hall]
  /\ 2 <> 0
  /\ user_exists (users db_control) (Some 2) = true
  /\ owned_by (Some 2)
       (permission_rows hall "SHARED_CONTROL" "E"
          (map_properties
             (snd (map_permissions plain_trace db_control alice "moria"
                                   "hall" control_to_bob)))) =
     [mkMapProperty 10 (Some 2) "SHARED_CONTROL" "E"]
  /\ In (mkMapProperty 10 (Some 1) "SHARED_CONTROL" "E")
        (map_properties
           (snd (map_permissions plain_trace db_control alice "moria"
                                 "hall" control_to_bob))).
Proof.
  assert (H2 : 2 <> 0) by discriminate.
  split; [reflexivity|]. split; [exact H2|]. split; [reflexivity|].
  destruct (map_permissions_reassign_control plain_trace db_control alice
              "moria" "hall" hall "E" 2 eq_refl H2 eq_refl)
    as (_ & Hone & _ & Hkeep).
  split; [exact Hone|].
  apply Hkeep; [left; reflexivity | discriminate].
Defined.

(** C6 on a map without permission rows. *)
Lemma map_permissions_default_vision_witness :
  maps_by_ids db_theme "moria" "hall" = [hall]
  /\ permission_rows hall "SHARED_VISION" "goblin1"
       (map_properties db_theme) = []
  /\ status (fst (map_permissions plain_trace db_theme alice "moria" "hall"
                                  vision_to_default)) = 200
  /\ map_properties
       (snd (map_permissions plain_trace db_theme alice "moria" "hall"
                             vision_to_default)) =
     [mkMapProperty 10 None "SHARED_VISION" "goblin1"].
Proof.
  split; [reflexivity|]. split; [reflexivity|].
  destruct (map_permissions_default_vision plain_trace db_theme alice
              "moria" "hall" hall eq_refl eq_refl)
    as (Hstatus & Hrows & _ & _).
  split; [exact Hstatus | exact Hrows].
Defined.

(** C8 as stated fails: assigning [control] of [E] to bob deletes bob's
    [vision] row for [E], a kind the batch does not mention. *)
Lemma map_permissions_clearing_counterexample :
  In (mkMapProperty 10 (Some 2) "SHARED_VISION" "E") (map_properties db_vision)
  /\ status (fst (map_permissions plain_trace db_vision alice "moria" "hall"
                                  control_to_bob)) = 200
  /\ map_properties
       (snd (map_permissions plain_trace db_vision alice "moria" "hall"
                             control_to_bob)) =
     [mkMapProperty 10 (Some 2) "SHARED_CONTROL" "E"]
  /\ ~ In (mkMapProperty 10 (Some 2) "SHARED_VISION" "E")
          (snd (reset_player hall (Some 2) "E" (map_properties db_vision))).
Proof.
  split; [left; reflexivity|]. split; [reflexivity|]. split; [reflexivity|].
  vm_compute. tauto.
Qed.

(** C5 as stated fails: the unrecognised kind [speed] is answered with
    status 500, not 400. *)
Lemma map_permissions_unknown_kind_counterexample :
  ~ In "speed" permission_kinds
  /\ fst (map_permissions plain_trace db_control alice "moria" "hall"
                          speed_to_bob) =
     mkResponse 500 (plain_trace (KeyError "speed")) None
  /\ status (fst (map_permissions plain_trace db_control alice "moria" "hall"
                                  speed_to_bob)) <> 400.
Proof.
  split; [|split; [reflexivity | discriminate]].
  cbn. intros H.
  repeat (destruct H as [H|H]; [discriminate H|]). exact H.
Qed.

(** C5 as amended, on the same request. *)
Lemma map_permissions_unknown_kind_witness :
  maps_by_ids db_control "moria" "hall" = [hall]
  /\ exists e,
       fst (map_permissions plain_trace db_control alice "moria" "hall"
                            speed_to_bob) =
       mkResponse 500 (plain_trace e) None.
Proof.
  split; [reflexivity|].
  assert (Hbad : exists p,
             In p [mkPermission "E" (Some 2) "speed"]
             /\ ~ In (permission p) permission_kinds).
  { eexists. split; [left; reflexivity|]. cbn. intros H.
    repeat (destruct H as [H|H]; [discriminate H|]). exact H. }
  destruct (map_permissions_unknown_kind plain_trace db_control alice
              "moria" "hall" hall [mkPermission "E" (Some 2) "speed"]
              eq_refl Hbad) as (e & He & _).
  exists e. exact He.
Defined.

(** C2 on the sample log: alice posts [P] with cursor 0 and gets bob's [Q]
    back, not her own [P], although [P] is newer than the cursor. *)
Lemma update_actions_self_exclusion_witness :
  content (fst (update_actions plain_trace Z.succ db_log alice "moria"
                               (Some 0) post_P))
  = Some (mkSyncResult 101 ["Q"])
  /\ map action_data
       (actions (snd (update_actions plain_trace Z.succ db_log alice "moria"
                                     (Some 0) post_P))) = ["Q"; "P"]
  /\ exists rows,
       ["Q"] = map action_data rows
       /\ Forall (fun a => action_user a <> user_pk alice) rows.
Proof.
  split; [reflexivity|]. split; [reflexivity|].
  destruct (update_actions_self_exclusion plain_trace Z.succ db_log alice
              "moria" (Some 0) post_P (mkSyncResult 101 ["Q"]) eq_refl)
    as (campaign & actions_post & since & appended & rows
        & _ & _ & _ & Hdata & _ & Hothers & _).
  exists rows. split; [exact Hdata | exact Hothers].
Defined.

(** C3 on the same call: the cursor moves from 0 to the stamp of [P]. *)
Lemma update_actions_cursor_witness :
  content (fst (update_actions plain_trace Z.succ db_log alice "moria"
                               (Some 0) post_P))
  = Some (mkSyncResult 101 ["Q"])
  /\ exists since, Some 0 = Some since /\ since <= 101.
Proof.
  split; [reflexivity|].
  destruct (update_actions_cursor plain_trace Z.succ db_log alice "moria"
              (Some 0) post_P (mkSyncResult 101 ["Q"]) eq_refl)
    as (campaign & since & _ & Hsince & Hle & _).
  exists since. split; [exact Hsince | exact Hle].
Defined.

(** C9 on the sample log: the second of three posted actions names a map
    that is not there; the call answers 404 and [P1] stays in the log. *)
Lemma update_actions_partial_append_witness :
  campaigns_by_id db_log "moria" = [moria]
  /\ maps_of_campaign db_log moria "cellar" = []
  /\ fst (update_actions plain_trace Z.succ db_log alice "moria" (Some 0)
                         (Json post_lost_map)) =
     mkResponse 404 "No Map matches the given query." None
  /\ exists appended,
       actions (snd (update_actions plain_trace Z.succ db_log alice "moria"
                                    (Some 0) (Json post_lost_map))) =
       (actions db_log ++ appended)%list
       /\ map action_data appended = ["P1"].
Proof.
  split; [reflexivity|]. split; [reflexivity|].
  assert (Hne : "cellar" <> "") by discriminate.
  destruct (update_actions_partial_append plain_trace Z.succ db_log alice
              "moria" (Some 0) moria
              [mkPostedAction None "P1"] (mkPostedAction (Some "cellar") "P2")
              [mkPostedAction None "P3"] "cellar"
              eq_refl eq_refl eq_refl Hne eq_refl)
    as (Hresp & appended & Hlog & Hdata & _).
  split; [exact Hresp|].
  exists appended. split; [exact Hlog | exact Hdata].
Defined.

(** * Further properties of the views *)

(** ** Upserts *)

Lemma qs_update_filter_selected {A} (lookup : A -> bool) assign rows :
  (forall r, lookup r = true -> lookup (assign r) = true) ->
  filter lookup (qs_update lookup assign rows) =
  map assign (filter lookup rows).
Proof.
  intros Hkeep. unfold qs_update.
  induction rows as [|r rows IH]; cbn [map filter]; [reflexivity|].
  destruct (lookup r) eqn:E.
  - rewrite (Hkeep r E). cbn [map]. rewrite IH. reflexivity.
  - rewrite E. exact IH.
Qed.

Lemma qs_update_filter_other {A} (lookup : A -> bool) assign g rows :
  (forall r, lookup r = true -> lookup (assign r) = true) ->
  (forall r, lookup r = true -> g r = false) ->
  filter g (qs_update lookup assign rows) = filter g rows.
Proof.
  intros Hkeep Hg. unfold qs_update.
  induction rows as [|r rows IH]; cbn [map filter]; [reflexivity|].
  destruct (lookup r) eqn:E.
  - rewrite (Hg _ (Hkeep r E)), (Hg r E). exact IH.
  - rewrite IH. reflexivity.
Qed.

Lemma qs_delete_filter_other {A} (selected g : A -> bool) rows :
  (forall r, selected r = true -> g r = false) ->
  filter g (qs_delete selected rows) = filter g rows.
Proof.
  intros Hg. unfold qs_delete. apply filter_absorb.
  intros r _ Hr. destruct (selected r) eqn:E; [|reflexivity].
  rewrite (Hg r E) in Hr. discriminate.
Qed.

Lemma qs_delete_filter_selected {A} (selected : A -> bool) rows :
  filter selected (qs_delete selected rows) = [].
Proof.
  apply filter_none. intros r Hr. apply qs_delete_In in Hr. tauto.
Qed.

(** An upsert on a key that at most one row has: afterwards exactly one
    row has the key, the row written, and what a filter that avoids the
    key sees is what it saw before. *)
Lemma save_row_spec {A} model (lookup : A -> bool) fresh assign rows :
  (List.length (filter lookup rows) <= 1)%nat ->
  lookup fresh = true ->
  (forall r, lookup r = true -> lookup (assign r) = true) ->
  exists x rows',
    save_row model lookup fresh true assign rows = (ok (assign x), rows')
    /\ (filter lookup rows = [x]
        \/ (filter lookup rows = [] /\ x = fresh))
    /\ filter lookup rows' = [assign x]
    /\ (forall g, (forall r, lookup r = true -> g r = false) ->
                  filter g rows' = filter g rows).
Proof.
  intros Hlen Hfresh Hkeep.
  unfold save_row, mbind, get_or_create, update, mret.
  destruct (filter lookup rows) as [|x [|y l]] eqn:F.
  - exists fresh, (qs_update lookup assign (rows ++ [fresh])%list).
    split; [reflexivity|]. split; [right; auto|]. split.
    + rewrite (qs_update_filter_selected _ _ _ Hkeep), filter_app, F.
      cbn. rewrite Hfresh. reflexivity.
    + intros g Hg.
      rewrite (qs_update_filter_other _ _ _ _ Hkeep Hg), filter_app.
      cbn. rewrite (Hg fresh Hfresh). apply app_nil_r.
  - exists x, (qs_update lookup assign rows).
    split; [reflexivity|]. split; [left; reflexivity|]. split.
    + rewrite (qs_update_filter_selected _ _ _ Hkeep), F. reflexivity.
    + intros g Hg. apply (qs_update_filter_other _ _ _ _ Hkeep Hg).
  - cbn in Hlen. lia.
Qed.

Lemma cp_user_key_assign c u n v p :
  cp_user_key c u n p = true -> cp_user_key c u n (cp_assign n v p) = true.
Proof.
  unfold cp_user_key, cp_assign, cp_of_user. cbn.
  rewrite !andb_true_iff. intros [[Hc Hu] _].
  rewrite String.eqb_refl. auto.
Qed.

Lemma cp_default_key_assign c n v p :
  cp_default_key c n p = true ->
  cp_default_key c n (cp_assign n v p) = true.
Proof.
  unfold cp_default_key, cp_assign, cp_is_default. cbn.
  rewrite !andb_true_iff. intros [[Hc Hu] _].
  rewrite String.eqb_refl. auto.
Qed.

Lemma cp_keys_disjoint c u n c' n' p :
  cp_user_key c u n p = true -> cp_default_key c' n' p = false.
Proof.
  unfold cp_user_key, cp_default_key, cp_of_user, cp_is_default.
  rewrite !andb_true_iff. intros [[_ Hu] _].
  destruct (cp_user p); [|discriminate].
  rewrite andb_false_r. reflexivity.
Qed.

Lemma cp_keys_disjoint' c n c' u n' p :
  cp_default_key c n p = true -> cp_user_key c' u n' p = false.
Proof.
  intros H. destruct (cp_user_key c' u n' p) eqn:E; [|reflexivity].
  rewrite (cp_keys_disjoint _ _ _ c n _ E) in H. discriminate.
Qed.

Section PropertyWrites.

Variable get_stacktrace_str : exn -> string.

(** A write of the caller's property, unfolded on a campaign that
    exists. *)
Lemma save_campaign_property_run db user cid n body c :
  campaigns_by_id db cid = [c] ->
  save_campaign_property get_stacktrace_str db user cid n body =
  (respond get_stacktrace_str (" (campaign=" ++ cid ++ ")")
     (match fst (save_row "CampaignProperty" (cp_user_key c user n)
                   (mkCampaignProperty (campaign_pk c) (Some user) n "")
                   true (cp_assign n body) (campaign_properties db)) with
      | inl e => inl e
      | inr prop =>
          ok ("Campaign Property saved (campaign_name=" ++ campaign_name c
                ++ ", name=" ++ n ++ ", value=" ++ cp_value prop ++ ")", tt)
      end),
   with_campaign_properties db
     (snd (save_row "CampaignProperty" (cp_user_key c user n)
             (mkCampaignProperty (campaign_pk c) (Some user) n "")
             true (cp_assign n body) (campaign_properties db)))).
Proof.
  intros Hc.
  unfold save_campaign_property, save_campaign_property_try.
  unfold mbind at 1. unfold query at 1.
  rewrite Hc, get_object_or_404_single. unfold ok at 1. cbv beta iota.
  unfold mbind at 1, on_campaign_properties.
  destruct (save_row _ _ _ _ _ _) as [[e|prop] rows]; reflexivity.
Qed.

Lemma default_campaign_property_run db user cid n body c :
  campaigns_by_id db cid = [c] ->
  default_campaign_property get_stacktrace_str db user cid n body =
  (respond get_stacktrace_str (" (campaign=" ++ cid ++ ")")
     (match fst (save_row "CampaignProperty" (cp_default_key c n)
                   (mkCampaignProperty (campaign_pk c) None n "")
                   true (cp_assign n body) (campaign_properties db)) with
      | inl e => inl e
      | inr prop =>
          ok ("Campaign Property default (campaign_name=" ++ campaign_name c
                ++ ", name=" ++ n ++ ", value=" ++ cp_value prop ++ ")", tt)
      end),
   with_campaign_properties db
     (snd (save_row "CampaignProperty" (cp_default_key c n)
             (mkCampaignProperty (campaign_pk c) None n "")
             true (cp_assign n body) (campaign_properties db)))).
Proof.
  intros Hc.
  unfold default_campaign_property, default_campaign_property_try.
  unfold mbind at 1. unfold query at 1.
  rewrite Hc, get_object_or_404_single. unfold ok at 1. cbv beta iota.
  unfold mbind at 1, on_campaign_properties.
  destruct (save_row _ _ _ _ _ _) as [[e|prop] rows]; reflexivity.
Qed.

(** The single-property read, unfolded on a campaign that exists. *)
Lemma load_campaign_property_run db user cid n c :
  campaigns_by_id db cid = [c] ->
  load_campaign_property get_stacktrace_str db user cid n =
  respond get_stacktrace_str (" (campaign=" ++ cid ++ ", property=" ++ n)
    (match
        match cp_user_named_rows db c user n with
        | p0 :: _ => ok p0
        | [] => get_object_or_404 "CampaignProperty"
                                  (cp_default_named_rows db c n)
        end
      with
      | inl e => inl e
      | inr prop =>
          ok ("Campaign Property loaded (campaign_name=" ++ campaign_name c
                ++ ", name=" ++ n ++ ")", [cp_name_value prop])
      end).
Proof.
  intros Hc. unfold load_campaign_property, load_campaign_property_try.
  rewrite Hc, get_object_or_404_single. reflexivity.
Qed.

(** X1.  Read after write: once the caller has saved a campaign property,
    the single-property read of the same caller answers with the value
    saved. *)
Theorem save_campaign_property_read_back db user cid n body c :
  campaigns_by_id db cid = [c] ->
  (List.length (cp_user_named_rows db c user n) <= 1)%nat ->
  let out := save_campaign_property get_stacktrace_str db user cid n body in
  status (fst out) = 200
  /\ load_campaign_property get_stacktrace_str (snd out) user cid n =
     mkResponse 200
       ("Campaign Property loaded (campaign_name=" ++ campaign_name c
          ++ ", name=" ++ n ++ ")")
       (Some [mkNameValue n body]).
Proof.
  intros Hc Hlen out; subst out.
  rewrite (save_campaign_property_run _ _ _ _ _ _ Hc).
  destruct (save_row_spec "CampaignProperty" (cp_user_key c user n)
              (mkCampaignProperty (campaign_pk c) (Some user) n "")
              (cp_assign n body) (campaign_properties db) Hlen)
    as (x & rows' & Hrun & _ & Hone & _).
  { unfold cp_user_key, cp_of_user. cbn.
    rewrite !Z.eqb_refl, String.eqb_refl. reflexivity. }
  { intros r. apply cp_user_key_assign. }
  rewrite Hrun. cbn [fst snd]. split; [reflexivity|].
  rewrite (load_campaign_property_run _ _ _ _ c) by exact Hc.
  change (cp_user_named_rows (with_campaign_properties db rows') c user n)
    with (filter (cp_user_key c user n) rows').
  rewrite Hone. reflexivity.
Qed.

Lemma cp_user_key_spec c u n p :
  cp_user_key c u n p = true <->
  cp_campaign p = campaign_pk c
  /\ (exists owner, cp_user p = Some owner /\ user_pk owner = user_pk u)
  /\ cp_name p = n.
Proof.
  unfold cp_user_key, cp_of_user.
  rewrite !andb_true_iff, Z.eqb_eq, String.eqb_eq.
  destruct (cp_user p) as [x|].
  - rewrite Z.eqb_eq. split.
    + intros [[Hc Hu] Hn]. eauto.
    + intros (Hc & (y & Hy & Hu) & Hn). inversion Hy; subst. auto.
  - split.
    + intros [[_ Hu] _]. discriminate.
    + intros (_ & (y & Hy & _) & _). discriminate.
Qed.

Lemma filter_single_In {A} (f : A -> bool) rows x :
  filter f rows = [x] -> f x = true.
Proof.
  intros H.
  assert (Hin : In x (filter f rows)) by (rewrite H; left; reflexivity).
  apply filter_In in Hin. tauto.
Qed.

(** X2.  A write of the caller's campaign property is an upsert: it
    leaves exactly one row of the caller under that name, holding the text
    written, and changes no other row and no other table. *)
Theorem save_campaign_property_upsert db user cid n body c :
  campaigns_by_id db cid = [c] ->
  (List.length (cp_user_named_rows db c user n) <= 1)%nat ->
  let out := save_campaign_property get_stacktrace_str db user cid n body in
  status (fst out) = 200
  /\ (exists owner,
        user_pk owner = user_pk user
        /\ cp_user_named_rows (snd out) c user n =
           [mkCampaignProperty (campaign_pk c) (Some owner) n body])
  /\ filter (fun p => negb (cp_user_key c user n p))
            (campaign_properties (snd out)) =
     filter (fun p => negb (cp_user_key c user n p))
            (campaign_properties db)
  /\ snd out = with_campaign_properties db (campaign_properties (snd out)).
Proof.
  intros Hc Hlen out; subst out.
  rewrite (save_campaign_property_run _ _ _ _ _ _ Hc).
  destruct (save_row_spec "CampaignProperty" (cp_user_key c user n)
              (mkCampaignProperty (campaign_pk c) (Some user) n "")
              (cp_assign n body) (campaign_properties db) Hlen)
    as (x & rows' & Hrun & Hx & Hone & Hframe).
  { unfold cp_user_key, cp_of_user. cbn.
    rewrite !Z.eqb_refl, String.eqb_refl. reflexivity. }
  { intros r. apply cp_user_key_assign. }
  rewrite Hrun. cbn [fst snd]. split; [reflexivity|].
  assert (Hkey : cp_user_key c user n x = true).
  { destruct Hx as [Hx|[_ ->]]; [exact (filter_single_In _ _ _ Hx)|].
    unfold cp_user_key, cp_of_user. cbn.
    rewrite !Z.eqb_refl, String.eqb_refl. reflexivity. }
  apply cp_user_key_spec in Hkey as (Hxc & (owner & Hxu & Hou) & _).
  split; [|split; [|reflexivity]].
  - exists owner. split; [exact Hou|].
    change (cp_user_named_rows (with_campaign_properties db rows') c user n)
      with (filter (cp_user_key c user n) rows').
    rewrite Hone. unfold cp_assign. rewrite Hxc, Hxu. reflexivity.
  - cbn [campaign_properties with_campaign_properties]. apply Hframe.
    intros r Hr. rewrite Hr. reflexivity.
Qed.

(** X3.  Last write wins: two writes of the same property by the same
    caller leave one row, with the second text. *)
Theorem save_campaign_property_twice db user cid n v1 v2 c :
  campaigns_by_id db cid = [c] ->
  (List.length (cp_user_named_rows db c user n) <= 1)%nat ->
  let out1 := save_campaign_property get_stacktrace_str db user cid n v1 in
  let out2 := save_campaign_property get_stacktrace_str (snd out1) user cid
                                     n v2 in
  status (fst out1) = 200 /\ status (fst out2) = 200
  /\ map cp_name_value (cp_user_named_rows (snd out2) c user n) =
     [mkNameValue n v2].
Proof.
  intros Hc Hlen out1 out2; subst out2 out1.
  rewrite (save_campaign_property_run db _ _ _ _ _ Hc).
  destruct (save_row_spec "CampaignProperty" (cp_user_key c user n)
              (mkCampaignProperty (campaign_pk c) (Some user) n "")
              (cp_assign n v1) (campaign_properties db) Hlen)
    as (x & rows1 & Hrun & _ & Hone & _).
  { unfold cp_user_key, cp_of_user. cbn.
    rewrite !Z.eqb_refl, String.eqb_refl. reflexivity. }
  { intros r. apply cp_user_key_assign. }
  rewrite Hrun. cbn [fst snd]. split; [reflexivity|].
  assert (Hc1 : campaigns_by_id (with_campaign_properties db rows1) cid = [c])
    by exact Hc.
  rewrite (save_campaign_property_run _ _ _ _ _ _ Hc1).
  cbn [campaign_properties with_campaign_properties].
  destruct (save_row_spec "CampaignProperty" (cp_user_key c user n)
              (mkCampaignProperty (campaign_pk c) (Some user) n "")
              (cp_assign n v2) rows1)
    as (y & rows2 & Hrun2 & _ & Hone2 & _).
  { rewrite Hone. cbn. lia. }
  { unfold cp_user_key, cp_of_user. cbn.
    rewrite !Z.eqb_refl, String.eqb_refl. reflexivity. }
  { intros r. apply cp_user_key_assign. }
  rewrite Hrun2. cbn [fst snd]. split; [reflexivity|].
  change (cp_user_named_rows (with_campaign_properties
                                (with_campaign_properties db rows1) rows2)
                             c user n)
    with (filter (cp_user_key c user n) rows2).
  rewrite Hone2. reflexivity.
Qed.

(** X4.  A write of the default does not override anybody: afterwards a
    user with a row of their own under that name still reads their own
    value, and a user without one reads the default just written. *)
Theorem default_campaign_property_read db caller cid n v c :
  campaigns_by_id db cid = [c] ->
  (List.length (cp_default_named_rows db c n) <= 1)%nat ->
  let out := default_campaign_property get_stacktrace_str db caller cid n v in
  status (fst out) = 200
  /\ forall u,
       content (load_campaign_property get_stacktrace_str (snd out) u cid n)
       = match cp_user_named_rows db c u n with
         | p :: _ => Some [mkNameValue n (cp_value p)]
         | [] => Some [mkNameValue n v]
         end.
Proof.
  intros Hc Hlen out; subst out.
  rewrite (default_campaign_property_run _ _ _ _ _ _ Hc).
  destruct (save_row_spec "CampaignProperty" (cp_default_key c n)
              (mkCampaignProperty (campaign_pk c) None n "")
              (cp_assign n v) (campaign_properties db) Hlen)
    as (x & rows' & Hrun & _ & Hone & Hframe).
  { unfold cp_default_key, cp_is_default. cbn.
    rewrite Z.eqb_refl, String.eqb_refl. reflexivity. }
  { intros r. apply cp_default_key_assign. }
  rewrite Hrun. cbn [fst snd]. split; [reflexivity|].
  intros u.
  rewrite (load_campaign_property_run _ _ _ _ c) by exact Hc.
  change (cp_user_named_rows (with_campaign_properties db rows') c u n)
    with (filter (cp_user_key c u n) rows').
  change (cp_default_named_rows (with_campaign_properties db rows') c n)
    with (filter (cp_default_key c n) rows').
  rewrite (Hframe (cp_user_key c u n))
    by (intros r; apply cp_keys_disjoint').
  rewrite Hone.
  change (filter (cp_user_key c u n) (campaign_properties db))
    with (cp_user_named_rows db c u n).
  destruct (cp_user_named_rows db c u n) as [|p ps] eqn:Hu.
  - reflexivity.
  - assert (Hp : cp_user_key c u n p = true).
    { assert (Hin : In p (cp_user_named_rows db c u n))
        by (rewrite Hu; left; reflexivity).
      apply filter_In in Hin. tauto. }
    apply cp_user_key_spec in Hp as (_ & _ & Hn).
    cbn. unfold cp_name_value. rewrite Hn. reflexivity.
Qed.

Lemma delete_campaign_property_run db user cid n c :
  campaigns_by_id db cid = [c] ->
  delete_campaign_property get_stacktrace_str db user cid n =
  match get_object_or_404 "CampaignProperty"
                          (cp_user_named_rows db c user n) with
  | inl e =>
      (respond get_stacktrace_str
               (" (campaign=" ++ cid ++ ", name=" ++ n ++ ")") (inl e), db)
  | inr _ =>
      (mkResponse 200
         ("Campaign Property deleted (campaign_name=" ++ campaign_name c
            ++ ")") (Some tt),
       with_campaign_properties db
         (qs_delete (cp_user_key c user n) (campaign_properties db)))
  end.
Proof.
  intros Hc.
  unfold delete_campaign_property, delete_campaign_property_try.
  unfold mbind at 1. unfold query at 1.
  rewrite Hc, get_object_or_404_single. unfold ok at 1. cbv beta iota.
  unfold mbind at 1. unfold query at 1.
  change (filter (cp_user_key c user n) (campaign_properties db))
    with (cp_user_named_rows db c user n).
  destruct (get_object_or_404 "CampaignProperty"
                              (cp_user_named_rows db c user n));
    reflexivity.
Qed.

(** X5.  Deleting the caller's own row uncovers the default: the row is
    gone, the default rows of the campaign are as before, and the
    caller's next read of that name answers with the default's value, or
    with 404 when the name has no default. *)
Theorem delete_campaign_property_falls_back db user cid n c p :
  campaigns_by_id db cid = [c] ->
  cp_user_named_rows db c user n = [p] ->
  let out := delete_campaign_property get_stacktrace_str db user cid n in
  let r := load_campaign_property get_stacktrace_str (snd out) user cid n in
  status (fst out) = 200
  /\ cp_user_named_rows (snd out) c user n = []
  /\ cp_default_rows (snd out) c = cp_default_rows db c
  /\ match cp_default_named_rows db c n with
     | [] => status r = 404 /\ content r = None
     | [d] => status r = 200
              /\ content r = Some [mkNameValue n (cp_value d)]
     | _ :: _ :: _ => status r = 500 /\ content r = None
     end.
Proof.
  intros Hc Hp out r; subst r out.
  rewrite (delete_campaign_property_run _ _ _ _ _ Hc), Hp,
    get_object_or_404_single.
  unfold ok. cbv beta iota.
  cbn [fst snd status]. split; [reflexivity|].
  set (rows' := qs_delete (cp_user_key c user n) (campaign_properties db)).
  assert (Hgone : cp_user_named_rows (with_campaign_properties db rows')
                                     c user n = []).
  { apply qs_delete_filter_selected. }
  assert (Hdef : filter (cp_default_key c n) rows' =
                 cp_default_named_rows db c n).
  { apply qs_delete_filter_other. intros x Hx.
    apply (cp_keys_disjoint _ _ _ _ _ _ Hx). }
  split; [exact Hgone|]. split.
  - unfold cp_default_rows.
    cbn [campaign_properties with_campaign_properties].
    apply qs_delete_filter_other. intros x Hx.
    unfold cp_user_key, cp_of_user in Hx. unfold cp_is_default.
    rewrite !andb_true_iff in Hx. destruct Hx as [[_ Hu] _].
    destruct (cp_user x); [|discriminate]. apply andb_false_r.
  - rewrite (load_campaign_property_run _ _ _ _ c) by exact Hc.
    rewrite Hgone.
    change (cp_default_named_rows (with_campaign_properties db rows') c n)
      with (filter (cp_default_key c n) rows').
    rewrite Hdef.
    destruct (cp_default_named_rows db c n) as [|d [|d' ds]] eqn:Hd;
      cbn; auto.
    assert (Hk : cp_default_key c n d = true).
    { apply (filter_single_In _ (campaign_properties db)). exact Hd. }
    unfold cp_default_key in Hk. rewrite !andb_true_iff in Hk.
    destruct Hk as [_ Hn]. apply String.eqb_eq in Hn.
    unfold cp_name_value. rewrite Hn. auto.
Qed.

(** X6.  Deleting a property the caller has no row for answers 404 and
    changes nothing, whether or not the name has a default: the delete
    view never removes a default row. *)
Theorem delete_campaign_property_missing db user cid n c :
  campaigns_by_id db cid = [c] ->
  cp_user_named_rows db c user n = [] ->
  delete_campaign_property get_stacktrace_str db user cid n =
  (mkResponse 404
     ("No CampaignProperty matches the given query." ++ " (campaign=" ++ cid
        ++ ", name=" ++ n ++ ")")
     None,
   db).
Proof.
  intros Hc Hnone.
  rewrite (delete_campaign_property_run _ _ _ _ _ Hc), Hnone.
  reflexivity.
Qed.

End PropertyWrites.

(** ** Ordered listings *)

Lemma ltb_asym a b : String.ltb a b = true -> String.ltb b a = false.
Proof.
  unfold String.ltb. rewrite (String.compare_antisym b a).
  destruct (String.compare a b); cbn; congruence.
Qed.

Lemma insert_by_perm {A} (key : A -> string) x l :
  Permutation (insert_by key x l) (x :: l).
Proof.
  induction l as [|y l IH]; cbn [insert_by]; [reflexivity|].
  destruct (String.ltb (key x) (key y)); [reflexivity|].
  rewrite IH. apply perm_swap.
Qed.

Lemma order_by_perm {A} (key : A -> string) rows :
  Permutation (order_by key rows) rows.
Proof.
  unfold order_by.
  assert (H : forall acc,
             Permutation (fold_left (fun acc x => insert_by key x acc)
                                    rows acc)
                         (rows ++ acc)%list).
  { induction rows as [|x rows IH]; intros acc; cbn [fold_left app];
      [reflexivity|].
    rewrite IH, insert_by_perm. symmetry. apply Permutation_middle. }
  rewrite H, app_nil_r. reflexivity.
Qed.

Lemma insert_by_sorted {A} (key : A -> string) x l :
  Sorted (fun a b => name_le (key a) (key b)) l ->
  Sorted (fun a b => name_le (key a) (key b)) (insert_by key x l).
Proof.
  induction 1 as [|y l Hs IH Hy]; cbn [insert_by].
  - repeat constructor.
  - destruct (String.ltb (key x) (key y)) eqn:E.
    + constructor; [constructor; assumption|].
      constructor. unfold name_le. apply ltb_asym, E.
    + constructor; [exact IH|].
      destruct l as [|z l]; cbn [insert_by].
      * constructor. exact E.
      * destruct (String.ltb (key x) (key z)).
        -- constructor. exact E.
        -- inversion Hy; subst. constructor. assumption.
Qed.

Lemma order_by_sorted {A} (key : A -> string) rows :
  Sorted (fun a b => name_le (key a) (key b)) (order_by key rows).
Proof.
  unfold order_by.
  assert (H : forall acc,
             Sorted (fun a b => name_le (key a) (key b)) acc ->
             Sorted (fun a b => name_le (key a) (key b))
                    (fold_left (fun acc x => insert_by key x acc) rows acc)).
  { induction rows as [|x rows IH]; intros acc Hacc; cbn [fold_left];
      [exact Hacc|].
    apply IH, insert_by_sorted, Hacc. }
  apply H. constructor.
Qed.

Lemma Sorted_map {A B} (R : B -> B -> Prop) (f : A -> B) l :
  Sorted (fun a b => R (f a) (f b)) l -> Sorted R (map f l).
Proof.
  induction 1 as [|x l Hs IH Hx]; cbn [map]; constructor; [exact IH|].
  destruct Hx; cbn [map]; constructor; assumption.
Qed.

Lemma order_by_name_order_by rows : order_by_name rows = order_by map_name rows.
Proof.
  unfold order_by_name, order_by.
  assert (Hins : forall m l, insert_by_name m l = insert_by map_name m l).
  { intros m l. induction l as [|x l IH]; cbn; [reflexivity|].
    rewrite IH. reflexivity. }
  generalize (@nil Map).
  induction rows as [|m rows IH]; intros acc; cbn [fold_left];
    [reflexivity|].
  rewrite Hins. apply IH.
Qed.

Lemma traverse_Forall2 {A B} (f : A -> result B) xs ys :
  traverse f xs = ok ys -> Forall2 (fun x y => f x = ok y) xs ys.
Proof.
  revert ys. induction xs as [|x xs IH]; intros ys; cbn [traverse].
  - intros H. inversion H. constructor.
  - unfold rbind. destruct (f x) as [e|y] eqn:Fx; [discriminate|].
    destruct (traverse f xs) as [e|ys'] eqn:Ft; [discriminate|].
    intros H. inversion H; subst. constructor; auto.
Qed.

Section CampaignReads.

Variable get_stacktrace_str : exn -> string.

(** X7.  The campaign list cannot fail: it answers 200 with every
    campaign once, in the order of their names. *)
Theorem load_world_sorted db user :
  exists refs,
    load_world get_stacktrace_str db user =
    mkResponse 200 "World loaded" (Some refs)
    /\ Sorted (fun a b => name_le (ref_name a) (ref_name b)) refs
    /\ Permutation refs
         (map (fun x => mkMapRef (campaign_name x) (campaign_id x))
              (campaigns db)).
Proof.
  eexists. split; [reflexivity|]. split.
  - apply (Sorted_map (fun a b => name_le (ref_name a) (ref_name b))).
    cbn [ref_name]. apply order_by_sorted.
  - apply Permutation_map, order_by_perm.
Qed.

(** What a campaign detail holds when the read answers with one. *)
Lemma load_campaign_ok db user cid d :
  content (load_campaign get_stacktrace_str db user cid) = Some d ->
  exists c master mu,
    campaigns_by_id db cid = [c]
    /\ cp_named_rows db c "IS_MASTER" = [master]
    /\ cp_user master = Some mu
    /\ detail_date d = campaign_updated c
    /\ detail_properties d =
       (map cp_name_value (cp_user_rows db c user) ++
        map cp_name_value
            (filter (fun p => negb (str_in (cp_name p)
                                      (map cp_name (cp_user_rows db c user))))
                    (cp_default_rows db c)))%list
    /\ detail_maps d =
       map (fun x => mkMapRef (map_name x) (map_id x))
           (order_by_name (filter (fun m => map_campaign m =? campaign_pk c)
                                  (maps db)))
    /\ traverse (fun x =>
                   (n <- attr_username x ;;
                    i <- attr_id x ;;
                    n' <- attr_username x ;;
                    ok (mkPlayer n i (String.eqb n' (username mu))))%result)
                (map cp_user (cp_named_rows db c "IS_PLAYER"))
       = ok (detail_players d).
Proof.
  unfold load_campaign, load_campaign_try. intros H.
  apply respond_content in H as [msg H].
  destruct (get_object_or_404 "Campaign" (campaigns_by_id db cid))
    as [e|c] eqn:Hc; [discriminate|].
  apply get_object_or_404_ok in Hc.
  cbn [rbind] in H.
  destruct (get_object_or_404 "CampaignProperty"
                              (cp_named_rows db c "IS_MASTER"))
    as [e|master] eqn:Hm; [discriminate|].
  apply get_object_or_404_ok in Hm.
  cbn [rbind] in H.
  destruct (cp_user master) as [mu|] eqn:Hmu; [|discriminate].
  cbn [attr_username rbind ok] in H.
  destruct (traverse _ (map cp_user (cp_named_rows db c "IS_PLAYER")))
    as [e|players] eqn:Ht; [discriminate|].
  cbn [rbind] in H. inversion H; subst d.
  exists c, master, mu. cbn. repeat split; auto.
Qed.

(** X8.  In a campaign detail the user's own properties win: every row of
    the caller is listed, and a default row is listed exactly when the
    caller has no row under its name. *)
Theorem load_campaign_properties_override db user cid d :
  content (load_campaign get_stacktrace_str db user cid) = Some d ->
  exists c,
    campaigns_by_id db cid = [c]
    /\ forall nv,
         In nv (detail_properties d) <->
         (exists p, In p (cp_user_rows db c user) /\ nv = cp_name_value p)
         \/ (exists p, In p (cp_default_rows db c) /\ nv = cp_name_value p
                       /\ ~ exists q, In q (cp_user_rows db c user)
                                      /\ cp_name q = cp_name p).
Proof.
  intros H.
  destruct (load_campaign_ok _ _ _ _ H)
    as (c & _ & _ & Hc & _ & _ & _ & Hprops & _).
  exists c. split; [exact Hc|]. intros nv.
  rewrite Hprops, in_app_iff, !in_map_iff.
  assert (Hshadow : forall p,
             str_in (cp_name p) (map cp_name (cp_user_rows db c user)) = true
             <-> exists q, In q (cp_user_rows db c user)
                           /\ cp_name q = cp_name p).
  { intros p. rewrite str_in_In, in_map_iff.
    split; intros (q & H1 & H2); exists q; auto. }
  split.
  - intros [(p & <- & Hp)|(p & <- & Hp)]; [left; eauto|right].
    apply filter_In in Hp as [Hp Hn]. exists p.
    split; [exact Hp|]. split; [reflexivity|].
    rewrite <- Hshadow. apply negb_true_iff in Hn. congruence.
  - intros [(p & Hp & ->)|(p & Hp & -> & Hn)]; [left; eauto|right].
    exists p. split; [reflexivity|]. apply filter_In. split; [exact Hp|].
    apply negb_true_iff. rewrite <- Hshadow in Hn.
    destruct (str_in _ _); [contradiction Hn|]; reflexivity.
Qed.

(** X9.  In a campaign detail the maps of the campaign are listed once
    each, in the order of their names. *)
Theorem load_campaign_maps_sorted db user cid d :
  content (load_campaign get_stacktrace_str db user cid) = Some d ->
  exists c,
    campaigns_by_id db cid = [c]
    /\ Sorted (fun a b => name_le (ref_name a) (ref_name b)) (detail_maps d)
    /\ Permutation (detail_maps d)
         (map (fun x => mkMapRef (map_name x) (map_id x))
              (filter (fun m => map_campaign m =? campaign_pk c) (maps db))).
Proof.
  intros H.
  destruct (load_campaign_ok _ _ _ _ H)
    as (c & _ & _ & Hc & _ & _ & _ & _ & Hmaps & _).
  exists c. split; [exact Hc|]. rewrite Hmaps, order_by_name_order_by.
  split.
  - apply (Sorted_map (fun a b => name_le (ref_name a) (ref_name b))).
    cbn [ref_name]. apply order_by_sorted.
  - apply Permutation_map, order_by_perm.
Qed.

(** X10.  In a campaign detail there is one player per [IS_PLAYER] row, in
    table order, each with the name and id of the row's user, and flagged
    as master exactly when that name is the name of the user of the one
    [IS_MASTER] row. *)
Theorem load_campaign_players db user cid d :
  content (load_campaign get_stacktrace_str db user cid) = Some d ->
  exists c master mu,
    campaigns_by_id db cid = [c]
    /\ cp_named_rows db c "IS_MASTER" = [master]
    /\ cp_user master = Some mu
    /\ Forall2
         (fun row e =>
            exists u,
              cp_user row = Some u
              /\ e = mkPlayer (username u) (user_pk u)
                              (String.eqb (username u) (username mu)))
         (cp_named_rows db c "IS_PLAYER") (detail_players d).
Proof.
  intros H.
  destruct (load_campaign_ok _ _ _ _ H)
    as (c & master & mu & Hc & Hm & Hmu & _ & _ & _ & Ht).
  exists c, master, mu. repeat split; auto.
  apply traverse_Forall2 in Ht.
  revert Ht. generalize (detail_players d).
  induction (cp_named_rows db c "IS_PLAYER") as [|row rows IH];
    intros players Ht; cbn [map] in Ht; inversion Ht; subst;
    constructor.
  - destruct (cp_user row) as [u|]; [|discriminate].
    exists u. split; [reflexivity|].
    match goal with Hy : _ = ok y |- _ => cbn in Hy; inversion Hy end.
    reflexivity.
  - apply IH. assumption.
Qed.

End CampaignReads.

(** ** Map properties: writes *)

Lemma mp_user_key_spec m u n p :
  mp_user_key m u n p = true <->
  mp_map p = map_pk m /\ mp_user p = Some (user_pk u) /\ mp_name p = n.
Proof.
  unfold mp_user_key.
  rewrite !andb_true_iff, Z.eqb_eq, String.eqb_eq, option_Z_eqb_eq. tauto.
Qed.

Lemma mp_default_key_spec m n p :
  mp_default_key m n p = true <->
  mp_map p = map_pk m /\ mp_user p = None /\ mp_name p = n.
Proof.
  unfold mp_default_key, mp_is_default.
  rewrite !andb_true_iff, Z.eqb_eq, String.eqb_eq.
  destruct (mp_user p); intuition discriminate.
Qed.

Lemma mp_user_key_assign m u n v p :
  mp_user_key m u n p = true -> mp_user_key m u n (mp_assign v p) = true.
Proof. intros H. exact H. Qed.

Lemma mp_default_key_assign m n v p :
  mp_default_key m n p = true -> mp_default_key m n (mp_assign v p) = true.
Proof. intros H. exact H. Qed.

Section MapPropertyWrites.

Variable get_stacktrace_str : exn -> string.

Lemma save_map_property_run db user cid mid n body m :
  maps_by_ids db cid mid = [m] ->
  save_map_property get_stacktrace_str db user cid mid n body =
  (respond get_stacktrace_str (" (campaign=" ++ cid ++ ", map=" ++ mid ++ ")")
     (match fst (save_row "MapProperty" (mp_user_key m user n)
                   (mkMapProperty (map_pk m) (Some (user_pk user)) n "")
                   true (mp_assign body) (map_properties db)) with
      | inl e => inl e
      | inr prop =>
          ok ("Map Property saved (map_name=" ++ map_name m ++ ", name="
                ++ n ++ ", value=" ++ mp_value prop ++ ")", tt)
      end),
   set_map_properties db
     (snd (save_row "MapProperty" (mp_user_key m user n)
             (mkMapProperty (map_pk m) (Some (user_pk user)) n "")
             true (mp_assign body) (map_properties db)))).
Proof.
  intros Hm.
  unfold save_map_property, save_map_property_try.
  unfold mbind at 1. unfold query at 1.
  rewrite Hm, get_object_or_404_single. unfold ok at 1. cbv beta iota.
  unfold mbind at 1, on_map_properties.
  destruct (save_row _ _ _ _ _ _) as [[e|prop] rows]; reflexivity.
Qed.

Lemma default_map_property_run db user cid mid n body m :
  maps_by_ids db cid mid = [m] ->
  default_map_property get_stacktrace_str db user cid mid n body =
  (respond get_stacktrace_str (" (campaign=" ++ cid ++ ", map=" ++ mid ++ ")")
     (match fst (save_row "MapProperty" (mp_default_key m n)
                   (mkMapProperty (map_pk m) None n "")
                   true (mp_assign body) (map_properties db)) with
      | inl e => inl e
      | inr prop =>
          ok ("Map Property default (map_name=" ++ map_name m ++ ", name="
                ++ n ++ ", value=" ++ mp_value prop ++ ")", tt)
      end),
   set_map_properties db
     (snd (save_row "MapProperty" (mp_default_key m n)
             (mkMapProperty (map_pk m) None n "")
             true (mp_assign body) (map_properties db)))).
Proof.
  intros Hm.
  unfold default_map_property, default_map_property_try.
  unfold mbind at 1. unfold query at 1.
  rewrite Hm, get_object_or_404_single. unfold ok at 1. cbv beta iota.
  unfold mbind at 1, on_map_properties.
  destruct (save_row _ _ _ _ _ _) as [[e|prop] rows]; reflexivity.
Qed.

Lemma load_map_properties_for_user_run db user cid mid uid m :
  maps_by_ids db cid mid = [m] ->
  content (load_map_properties_for_user get_stacktrace_str db user cid mid
                                        uid) =
  Some (mkPropertyList (map_saved m)
          (map mp_name_value
               (filter (mp_user_or_default m uid) (map_properties db)))).
Proof.
  intros Hm.
  unfold load_map_properties_for_user, load_map_properties_for_user_try.
  rewrite Hm, get_object_or_404_single. reflexivity.
Qed.

(** X11.  A write of the caller's map property is an upsert that the
    caller's bulk read shows: one row of the caller under that name holds
    the text written, no other row changes, and the pair is in the list
    the bulk read returns. *)
Theorem save_map_property_listed db user cid mid n body m :
  maps_by_ids db cid mid = [m] ->
  (List.length (filter (mp_user_key m user n) (map_properties db)) <= 1)%nat ->
  let out := save_map_property get_stacktrace_str db user cid mid n body in
  status (fst out) = 200
  /\ filter (mp_user_key m user n) (map_properties (snd out)) =
     [mkMapProperty (map_pk m) (Some (user_pk user)) n body]
  /\ filter (fun p => negb (mp_user_key m user n p))
            (map_properties (snd out)) =
     filter (fun p => negb (mp_user_key m user n p)) (map_properties db)
  /\ exists ps,
       content (load_map_properties get_stacktrace_str (snd out) user cid mid)
       = Some ps
       /\ In (mkNameValue n body) (list_properties ps).
Proof.
  intros Hm Hlen out; subst out.
  rewrite (save_map_property_run _ _ _ _ _ _ _ Hm).
  destruct (save_row_spec "MapProperty" (mp_user_key m user n)
              (mkMapProperty (map_pk m) (Some (user_pk user)) n "")
              (mp_assign body) (map_properties db) Hlen)
    as (x & rows' & Hrun & Hx & Hone & Hframe).
  { apply mp_user_key_spec. cbn. auto. }
  { intros r. apply mp_user_key_assign. }
  rewrite Hrun. cbn [fst snd map_properties set_map_properties].
  assert (Hkey : mp_user_key m user n x = true).
  { destruct Hx as [Hx|[_ ->]]; [exact (filter_single_In _ _ _ Hx)|].
    apply mp_user_key_spec. cbn. auto. }
  apply mp_user_key_spec in Hkey as (Hxm & Hxu & Hxn).
  assert (Hrow : mp_assign body x =
                 mkMapProperty (map_pk m) (Some (user_pk user)) n body).
  { unfold mp_assign. rewrite Hxm, Hxu, Hxn. reflexivity. }
  rewrite Hrow in Hone.
  split; [reflexivity|]. split; [exact Hone|]. split.
  - apply Hframe. intros r Hr. rewrite Hr. reflexivity.
  - eexists. split.
    + unfold load_map_properties.
      apply (load_map_properties_for_user_run
               (set_map_properties db rows') user cid mid (user_pk user) m).
      exact Hm.
    + cbn [list_properties map_properties set_map_properties].
      change (mkNameValue n body)
        with (mp_name_value
                (mkMapProperty (map_pk m) (Some (user_pk user)) n body)).
      apply in_map, filter_In. split.
      * assert (Hin : In (mkMapProperty (map_pk m) (Some (user_pk user))
                                        n body)
                         (filter (mp_user_key m user n) rows'))
          by (rewrite Hone; left; reflexivity).
        apply filter_In in Hin. tauto.
      * unfold mp_user_or_default. cbn.
        rewrite !Z.eqb_refl. reflexivity.
Qed.

(** X12.  A write of the default of a map property reaches every user:
    afterwards one default row holds the text under that name, and the
    bulk read keyed to any user lists the pair, next to whatever that
    user has under the name. *)
Theorem default_map_property_listed db caller cid mid n v m :
  maps_by_ids db cid mid = [m] ->
  (List.length (filter (mp_default_key m n) (map_properties db)) <= 1)%nat ->
  let out := default_map_property get_stacktrace_str db caller cid mid n v in
  status (fst out) = 200
  /\ filter (mp_default_key m n) (map_properties (snd out)) =
     [mkMapProperty (map_pk m) None n v]
  /\ filter (fun p => negb (mp_default_key m n p))
            (map_properties (snd out)) =
     filter (fun p => negb (mp_default_key m n p)) (map_properties db)
  /\ forall uid,
     exists ps,
       content (load_map_properties_for_user get_stacktrace_str (snd out)
                                             caller cid mid uid) = Some ps
       /\ In (mkNameValue n v) (list_properties ps).
Proof.
  intros Hm Hlen out; subst out.
  rewrite (default_map_property_run _ _ _ _ _ _ _ Hm).
  destruct (save_row_spec "MapProperty" (mp_default_key m n)
              (mkMapProperty (map_pk m) None n "")
              (mp_assign v) (map_properties db) Hlen)
    as (x & rows' & Hrun & Hx & Hone & Hframe).
  { apply mp_default_key_spec. cbn. auto. }
  { intros r. apply mp_default_key_assign. }
  rewrite Hrun. cbn [fst snd map_properties set_map_properties].
  assert (Hkey : mp_default_key m n x = true).
  { destruct Hx as [Hx|[_ ->]]; [exact (filter_single_In _ _ _ Hx)|].
    apply mp_default_key_spec. cbn. auto. }
  apply mp_default_key_spec in Hkey as (Hxm & Hxu & Hxn).
  assert (Hrow : mp_assign v x = mkMapProperty (map_pk m) None n v).
  { unfold mp_assign. rewrite Hxm, Hxu, Hxn. reflexivity. }
  rewrite Hrow in Hone.
  split; [reflexivity|]. split; [exact Hone|]. split.
  - apply Hframe. intros r Hr. rewrite Hr. reflexivity.
  - intros uid. eexists. split.
    + apply (load_map_properties_for_user_run
               (set_map_properties db rows') caller cid mid uid m).
      exact Hm.
    + cbn [list_properties map_properties set_map_properties].
      change (mkNameValue n v)
        with (mp_name_value (mkMapProperty (map_pk m) None n v)).
      apply in_map, filter_In. split.
      * assert (Hin : In (mkMapProperty (map_pk m) None n v)
                         (filter (mp_default_key m n) rows'))
          by (rewrite Hone; left; reflexivity).
        apply filter_In in Hin. tauto.
      * unfold mp_user_or_default. cbn.
        rewrite !Z.eqb_refl. apply orb_true_r.
Qed.

Lemma delete_map_property_run db user cid mid n m :
  maps_by_ids db cid mid = [m] ->
  delete_map_property get_stacktrace_str db user cid mid n =
  match get_object_or_404 "MapProperty"
          (filter (mp_user_key m user n) (map_properties db)) with
  | inl e =>
      (respond get_stacktrace_str
               (" (campaign=" ++ cid ++ ", map=" ++ mid ++ ", name=" ++ n)
               (inl e), db)
  | inr _ =>
      (mkResponse 200
         ("Map Property deleted (map_name=" ++ map_name m ++ ", name=" ++ n
            ++ ")") (Some tt),
       set_map_properties db
         (qs_delete (mp_user_key m user n) (map_properties db)))
  end.
Proof.
  intros Hm.
  unfold delete_map_property, delete_map_property_try.
  unfold mbind at 1. unfold query at 1.
  rewrite Hm, get_object_or_404_single. unfold ok at 1. cbv beta iota.
  unfold mbind at 1. unfold query at 1.
  destruct (get_object_or_404 "MapProperty"
              (filter (mp_user_key m user n) (map_properties db)));
    reflexivity.
Qed.

(** X13.  Deleting a map property removes the caller's row under that
    name and nothing else; without such a row the answer is 404 and
    nothing changes.  Default rows are never removed by it. *)
Theorem delete_map_property_cases db user cid mid n m :
  maps_by_ids db cid mid = [m] ->
  let out := delete_map_property get_stacktrace_str db user cid mid n in
  match filter (mp_user_key m user n) (map_properties db) with
  | [] =>
      out =
      (mkResponse 404
         ("No MapProperty matches the given query." ++ " (campaign=" ++ cid
            ++ ", map=" ++ mid ++ ", name=" ++ n)
         None,
       db)
  | [_] =>
      status (fst out) = 200
      /\ snd out =
         set_map_properties db
           (qs_delete (mp_user_key m user n) (map_properties db))
      /\ filter (mp_user_key m user n) (map_properties (snd out)) = []
      /\ filter (fun p => negb (mp_user_key m user n p))
                (map_properties (snd out)) =
         filter (fun p => negb (mp_user_key m user n p)) (map_properties db)
  | _ :: _ :: _ => status (fst out) = 500 /\ snd out = db
  end.
Proof.
  intros Hm out; subst out.
  rewrite (delete_map_property_run _ _ _ _ _ _ Hm).
  destruct (filter (mp_user_key m user n) (map_properties db))
    as [|p [|q l]] eqn:F.
  - reflexivity.
  - rewrite get_object_or_404_single. unfold ok. cbv beta iota.
    cbn [fst snd status map_properties set_map_properties].
    split; [reflexivity|]. split; [reflexivity|]. split.
    + apply qs_delete_filter_selected.
    + apply qs_delete_filter_other. intros r Hr. rewrite Hr. reflexivity.
  - rewrite get_object_or_404_many. cbn. auto.
Qed.

End MapPropertyWrites.

(** ** Permission resets *)

Lemma entity_permissions_spec m entities p :
  entity_permissions m entities p = true <->
  mp_map p = map_pk m /\ In (mp_name p) PERMISSIONS
  /\ In (mp_value p) entities.
Proof.
  unfold entity_permissions.
  rewrite !andb_true_iff, Z.eqb_eq, !str_in_In. tauto.
Qed.

Lemma qs_delete_idempotent {A} (selected : A -> bool) rows :
  qs_delete selected (qs_delete selected rows) = qs_delete selected rows.
Proof.
  unfold qs_delete. apply filter_absorb. intros x _ Hx. exact Hx.
Qed.

Lemma mp_of_players_spec players p :
  mp_of_players players p = true <->
  exists uid ids, mp_user p = Some uid /\ players = Some ids /\ In uid ids.
Proof.
  unfold mp_of_players.
  destruct (mp_user p) as [uid|], players as [ids|].
  - rewrite existsb_exists. split.
    + intros (x & Hx & E). apply Z.eqb_eq in E. subst x. eauto.
    + intros (u & l & Hu & Hl & Hin). inversion Hu; inversion Hl; subst.
      exists u. split; [exact Hin | apply Z.eqb_refl].
  - split; [discriminate|]. intros (u & l & _ & Hl & _). discriminate.
  - split; [discriminate|]. intros (u & l & Hu & _). discriminate.
  - split; [discriminate|]. intros (u & l & Hu & _). discriminate.
Qed.

Section PermissionResets.

Variable get_stacktrace_str : exn -> string.
Variable repr_entities : list string -> string.

Lemma reset_permissions_run db user cid mid entities m :
  maps_by_ids db cid mid = [m] ->
  reset_permissions get_stacktrace_str repr_entities db user cid mid
                    (Json entities) =
  (mkResponse 200
     ("Map Permissions reset for entities (id__in="
        ++ repr_entities entities ++ ")") (Some tt),
   set_map_properties db
     (qs_delete (entity_permissions m entities) (map_properties db))).
Proof.
  intros Hm. unfold reset_permissions, reset_permissions_try.
  unfold mbind at 1. unfold query at 1.
  rewrite Hm, get_object_or_404_single. reflexivity.
Qed.

(** X14.  Resetting the permissions of a list of entities removes, for
    every owner alike, exactly the permission rows of the map whose value
    is one of the entities, and no other row; doing it again changes
    nothing more. *)
Theorem reset_permissions_clears db user cid mid entities m :
  maps_by_ids db cid mid = [m] ->
  let out := reset_permissions get_stacktrace_str repr_entities db user cid
                               mid (Json entities) in
  status (fst out) = 200
  /\ (forall r,
        In r (map_properties (snd out)) <->
        In r (map_properties db)
        /\ ~ (mp_map r = map_pk m /\ In (mp_name r) PERMISSIONS
              /\ In (mp_value r) entities))
  /\ snd (reset_permissions get_stacktrace_str repr_entities (snd out) user
                            cid mid (Json entities)) = snd out.
Proof.
  intros Hm out; subst out.
  rewrite (reset_permissions_run _ _ _ _ _ _ Hm).
  cbn [fst snd status map_properties set_map_properties].
  split; [reflexivity|]. split.
  - intros r. rewrite qs_delete_In, <- entity_permissions_spec.
    destruct (entity_permissions m entities r); intuition discriminate.
  - assert (Hm' : maps_by_ids
                    (set_map_properties db
                       (qs_delete (entity_permissions m entities)
                                  (map_properties db))) cid mid = [m])
      by exact Hm.
    rewrite (reset_permissions_run _ _ _ _ _ _ Hm').
    cbn [snd map_properties set_map_properties].
    rewrite qs_delete_idempotent. reflexivity.
Qed.

Lemma default_permissions_run db user cid mid entities players m :
  maps_by_ids db cid mid = [m] ->
  default_permissions get_stacktrace_str repr_entities db user cid mid
                      (Json (mkDefaultRequest entities players)) =
  (mkResponse 200
     ("Map Permissions default for entities (id__in="
        ++ repr_entities entities ++ ")") (Some tt),
   set_map_properties db
     (qs_delete
        (fun p => (if truthy_players players then mp_of_players players p
                   else mp_is_default p)
                  && entity_permissions m entities p)
        (map_properties db))).
Proof.
  intros Hm. unfold default_permissions, default_permissions_try.
  unfold mbind at 1. unfold query at 1.
  rewrite Hm, get_object_or_404_single.
  destruct (truthy_players players) eqn:Ht;
    unfold ok, mbind, query, on_map_properties, update, mret;
    cbn [json_loads]; unfold ok; cbv beta iota zeta;
    cbn [default_entities default_players]; rewrite Ht; reflexivity.
Qed.

(** X15.  The scoped reset removes the permission rows of the listed
    entities for the listed players only; with no player listed (an empty
    list or [null]) it removes those of the default scope only.  Every
    other row stays. *)
Theorem default_permissions_scope db user cid mid entities players m :
  maps_by_ids db cid mid = [m] ->
  let out := default_permissions get_stacktrace_str repr_entities db user cid
               mid (Json (mkDefaultRequest entities players)) in
  status (fst out) = 200
  /\ forall r,
       In r (map_properties (snd out)) <->
       In r (map_properties db)
       /\ ~ (in_reset_scope players r
             /\ mp_map r = map_pk m /\ In (mp_name r) PERMISSIONS
             /\ In (mp_value r) entities).
Proof.
  intros Hm out; subst out.
  rewrite (default_permissions_run _ _ _ _ _ _ _ Hm).
  cbn [fst snd status map_properties set_map_properties].
  split; [reflexivity|]. intros r.
  rewrite qs_delete_In, <- entity_permissions_spec.
  assert (Hscope : (if truthy_players players then mp_of_players players r
                    else mp_is_default r) = true
                   <-> in_reset_scope players r).
  { unfold in_reset_scope, truthy_players.
    destruct players as [[|id ids]|].
    - unfold mp_is_default. destruct (mp_user r); intuition discriminate.
    - rewrite mp_of_players_spec. split.
      + intros (u & l & Hu & Hl & Hin). inversion Hl; subst. eauto.
      + intros (u & Hu & Hin). eauto.
    - unfold mp_is_default. destruct (mp_user r); intuition discriminate. }
  rewrite <- Hscope.
  destruct (if truthy_players players then mp_of_players players r
            else mp_is_default r),
    (entity_permissions m entities r); cbn; intuition discriminate.
Qed.

End PermissionResets.

(** ** The assignment loop as a whole *)

(** One turn of the loop, spelt out on the table. *)
Lemma assign_permissions_cons db_users tile_map p rest player_reset rows :
  assign_permissions db_users tile_map (p :: rest) player_reset rows =
  match dict_get property_names (permission p) with
  | inl e => (inl e, rows)
  | inr property_name =>
      let first := negb (player_in (player p) player_reset) in
      let rows1 :=
        if first
        then qs_delete (scope_permissions tile_map (player p) (entity p)) rows
        else rows in
      let player_reset1 :=
        if first then (player_reset ++ [player p])%list else player_reset in
      let fresh :=
        fresh_permission tile_map (player p) property_name (entity p) in
      match filter (scope_permission tile_map (player p) property_name
                                     (entity p)) rows1 with
      | [] =>
          if user_exists db_users (mp_user fresh)
          then assign_permissions db_users tile_map rest player_reset1
                                  (rows1 ++ [fresh])%list
          else (inl IntegrityError, rows1)
      | [_] => assign_permissions db_users tile_map rest player_reset1 rows1
      | _ :: _ :: _ => (inl (MultipleObjectsReturned "MapProperty"), rows1)
      end
  end.
Proof.
  cbn [assign_permissions]. unfold mbind at 1. unfold query at 1.
  destruct (dict_get property_names (permission p)) as [e|name];
    [reflexivity|].
  cbv zeta.
  destruct (negb (player_in (player p) player_reset));
    unfold mbind, reset_player, update, mret, get_or_create, ok;
    cbv beta iota zeta;
    match goal with
    | |- context [filter ?f ?l] => destruct (filter f l) as [|x [|y l']]
    end;
    try reflexivity;
    destruct (user_exists db_users _); reflexivity.
Qed.

(** Whatever the batch and however the loop ends, a row that is not a
    permission row of this map for an entity of the batch is still in the
    table, and a row that was not in the table before is such a row. *)
Lemma assign_permissions_frame db_users tile_map permissions :
  forall player_reset rows,
    let rows' := snd (assign_permissions db_users tile_map permissions
                                         player_reset rows) in
    (forall r,
        In r rows ->
        ~ (mp_map r = map_pk tile_map /\ In (mp_name r) PERMISSIONS
           /\ In (mp_value r) (map entity permissions)) ->
        In r rows')
    /\ (forall r,
          In r rows' ->
          In r rows
          \/ (mp_map r = map_pk tile_map /\ In (mp_name r) PERMISSIONS
              /\ In (mp_value r) (map entity permissions))).
Proof.
  induction permissions as [|p rest IH]; intros player_reset rows rows'.
  - subst rows'. cbn. split; auto.
  - subst rows'. rewrite assign_permissions_cons.
    destruct (dict_get property_names (permission p)) as [e|name] eqn:Hd;
      [cbn [snd]; split; auto|].
    cbv zeta.
    set (rows1 := if negb (player_in (player p) player_reset)
                  then qs_delete (scope_permissions tile_map (player p)
                                                    (entity p)) rows
                  else rows).
    set (reset1 := if negb (player_in (player p) player_reset)
                   then (player_reset ++ [player p])%list else player_reset).
    assert (Hkeep : forall r,
               In r rows ->
               ~ (mp_map r = map_pk tile_map /\ In (mp_name r) PERMISSIONS
                  /\ In (mp_value r) (map entity (p :: rest))) ->
               In r rows1).
    { intros r Hr Hn. subst rows1.
      destruct (negb (player_in (player p) player_reset)); [|exact Hr].
      apply qs_delete_In. split; [exact Hr|].
      destruct (scope_permissions tile_map (player p) (entity p) r) eqn:E;
        [|reflexivity].
      exfalso. apply Hn. unfold scope_permissions in E.
      rewrite !andb_true_iff, Z.eqb_eq, str_in_In, String.eqb_eq in E.
      destruct E as [[[Hm _] Hp] Hv]. cbn [map]. rewrite Hv.
      split; [exact Hm|]. split; [exact Hp|]. left. reflexivity. }
    assert (Hsub : forall r, In r rows1 -> In r rows).
    { intros r Hr. subst rows1.
      destruct (negb (player_in (player p) player_reset)); [|exact Hr].
      apply qs_delete_In in Hr. tauto. }
    assert (Hweak : forall r,
               ~ (mp_map r = map_pk tile_map /\ In (mp_name r) PERMISSIONS
                  /\ In (mp_value r) (map entity (p :: rest))) ->
               ~ (mp_map r = map_pk tile_map /\ In (mp_name r) PERMISSIONS
                  /\ In (mp_value r) (map entity rest))).
    { intros r Hn (H1 & H2 & H3). apply Hn.
      split; [exact H1|]. split; [exact H2|]. right. exact H3. }
    assert (Hfresh :
              mp_map (fresh_permission tile_map (player p) name (entity p))
              = map_pk tile_map
              /\ In (mp_name (fresh_permission tile_map (player p) name
                                               (entity p))) PERMISSIONS
              /\ In (mp_value (fresh_permission tile_map (player p) name
                                                (entity p)))
                    (map entity (p :: rest))).
    { unfold fresh_permission. cbn [mp_map mp_name mp_value map].
      split; [reflexivity|]. split.
      - apply str_in_In, (property_name_is_permission _ _ Hd).
      - left. reflexivity. }
    destruct (filter _ rows1) as [|x [|y l]].
    + destruct (user_exists db_users _).
      * destruct (IH reset1 (rows1 ++ [fresh_permission tile_map (player p)
                                         name (entity p)])%list)
          as [IHkeep IHnew].
        split.
        -- intros r Hr Hn. apply IHkeep; [|apply Hweak, Hn].
           apply in_or_app. left. apply Hkeep; assumption.
        -- intros r Hr. destruct (IHnew r Hr) as [Hin|(H1 & H2 & H3)].
           ++ apply in_app_or in Hin as [Hin|[<-|[]]];
                [left; apply Hsub, Hin | right; exact Hfresh].
           ++ right. split; [exact H1|]. split; [exact H2|].
              right. exact H3.
      * cbn [snd]. split; [exact Hkeep | intros r Hr; left; apply Hsub, Hr].
    + destruct (IH reset1 rows1) as [IHkeep IHnew]. split.
      * intros r Hr Hn. apply IHkeep; [|apply Hweak, Hn].
        apply Hkeep; assumption.
      * intros r Hr. destruct (IHnew r Hr) as [Hin|(H1 & H2 & H3)].
        -- left. apply Hsub, Hin.
        -- right. split; [exact H1|]. split; [exact H2|]. right. exact H3.
    + cbn [snd]. split; [exact Hkeep | intros r Hr; left; apply Hsub, Hr].
Qed.

Section PermissionBatches.

Variable get_stacktrace_str : exn -> string.

(** X16.  A batch is rejected before anything is written when the map is
    missing (404) or the body is not JSON (400): the database is returned
    as it was. *)
Theorem map_permissions_rejected db user cid mid body :
  (maps_by_ids db cid mid = [] ->
   map_permissions get_stacktrace_str db user cid mid body =
   (mkResponse 404
      ("No Map matches the given query." ++ " (campaign=" ++ cid ++ ", map="
         ++ mid ++ ")") None,
    db))
  /\ (forall m err,
        maps_by_ids db cid mid = [m] ->
        json_loads body = raise (JSONDecodeError err) ->
        map_permissions get_stacktrace_str db user cid mid body =
        (mkResponse 400 ("JSONDecodeError: " ++ err) None, db)).
Proof.
  split.
  - intros Hm. unfold map_permissions, map_permissions_try.
    unfold mbind at 1. unfold query at 1. rewrite Hm. reflexivity.
  - intros m err Hm Hb. unfold map_permissions, map_permissions_try.
    unfold mbind at 1. unfold query at 1.
    rewrite Hm, get_object_or_404_single. unfold ok at 1. cbv beta iota.
    unfold mbind at 1. unfold query at 1. rewrite Hb. reflexivity.
Qed.

(** X17.  Whatever the batch and whether it ends or fails, assigning
    permissions touches nothing but permission rows of this map for the
    entities the batch names: every other row of the table is kept, every
    new row is such a row, and no other table changes. *)
Theorem map_permissions_frame db user cid mid permissions m :
  maps_by_ids db cid mid = [m] ->
  let out := map_permissions get_stacktrace_str db user cid mid
                             (Json permissions) in
  (forall r,
      In r (map_properties db) ->
      ~ (mp_map r = map_pk m /\ In (mp_name r) PERMISSIONS
         /\ In (mp_value r) (map entity permissions)) ->
      In r (map_properties (snd out)))
  /\ (forall r,
        In r (map_properties (snd out)) ->
        In r (map_properties db)
        \/ (mp_map r = map_pk m /\ In (mp_name r) PERMISSIONS
            /\ In (mp_value r) (map entity permissions)))
  /\ snd out = set_map_properties db (map_properties (snd out)).
Proof.
  intros Hm out; subst out.
  rewrite (map_permissions_run _ _ _ _ _ _ _ Hm).
  cbn [snd map_properties set_map_properties].
  destruct (assign_permissions_frame (users db) m permissions []
                                     (map_properties db)) as [Hkeep Hnew].
  split; [exact Hkeep|]. split; [exact Hnew | reflexivity].
Qed.

(** X18.  The clearing is done once per player, not once per entity: when
    two entries of a batch name the same player and different entities,
    the rows of the second entity are not cleared, so a permission the
    player held on it before is still there afterwards. *)
Theorem map_permissions_second_entity_kept db user cid mid p1 p2 m :
  maps_by_ids db cid mid = [m] ->
  player p2 = player p1 ->
  entity p2 <> entity p1 ->
  let out := map_permissions get_stacktrace_str db user cid mid
                             (Json [p1; p2]) in
  forall r,
    In r (map_properties db) -> mp_value r = entity p2 ->
    In r (map_properties (snd out)).
Proof.
  intros Hm Hpl Hent out r Hr Hv; subst out.
  rewrite (map_permissions_run _ _ _ _ _ _ _ Hm).
  cbn [snd map_properties set_map_properties].
  rewrite assign_permissions_cons.
  destruct (dict_get property_names (permission p1)) as [e|name1];
    [exact Hr|].
  cbv zeta. cbn [player_in existsb negb app].
  set (rows1 := qs_delete (scope_permissions m (player p1) (entity p1))
                          (map_properties db)).
  assert (Hr1 : In r rows1).
  { apply qs_delete_In. split; [exact Hr|].
    unfold scope_permissions.
    destruct (String.eqb (mp_value r) (entity p1)) eqn:E;
      [|apply andb_false_r].
    apply String.eqb_eq in E. congruence. }
  assert (Hstep : forall rows, In r rows ->
            In r (snd (assign_permissions (users db) m [p2] [player p1]
                                          rows))).
  { intros rows Hin. rewrite assign_permissions_cons.
    destruct (dict_get property_names (permission p2)) as [e|name2];
      [exact Hin|].
    cbv zeta. rewrite Hpl. cbn [player_in existsb].
    rewrite option_Z_eqb_refl. cbn [orb negb].
    destruct (filter _ rows) as [|x [|y l]].
    - destruct (user_exists (users db) _); cbn [snd assign_permissions mret];
        [apply in_or_app; left|]; exact Hin.
    - exact Hin.
    - exact Hin. }
  destruct (filter _ rows1) as [|x [|y l]].
  - destruct (user_exists (users db) _); [|exact Hr1].
    apply Hstep, in_or_app. left. exact Hr1.
  - apply Hstep, Hr1.
  - exact Hr1.
Qed.

End PermissionBatches.

Lemma fresh_permission_in_scope tile_map player property_name entity :
  str_in property_name PERMISSIONS = true ->
  scope_permissions tile_map player entity
    (fresh_permission tile_map player property_name entity) = true.
Proof.
  intros Hn. unfold scope_permissions, fresh_permission, mp_in_scope.
  cbn [mp_map mp_user mp_name mp_value].
  rewrite Z.eqb_refl, Hn, String.eqb_refl.
  destruct (truthy_player player).
  - rewrite option_Z_eqb_refl. reflexivity.
  - reflexivity.
Qed.

Section PermissionRetry.

Variable get_stacktrace_str : exn -> string.

(** X19.  Sending a one-entry batch again is harmless: when the first
    call succeeded, the second answers the same and leaves the database
    exactly as the first left it. *)
Theorem map_permissions_retry db user cid mid p m :
  maps_by_ids db cid mid = [m] ->
  let out := map_permissions get_stacktrace_str db user cid mid (Json [p]) in
  status (fst out) = 200 ->
  map_permissions get_stacktrace_str (snd out) user cid mid (Json [p]) = out.
Proof.
  intros Hm out; subst out.
  rewrite (map_permissions_run _ _ _ _ _ _ _ Hm).
  rewrite assign_permissions_cons.
  destruct (dict_get property_names (permission p)) as [e|name] eqn:Hd.
  { cbn [fst]. apply dict_get_error in Hd. subst e. cbn. discriminate. }
  pose proof (property_name_is_permission _ _ Hd) as Hin.
  cbv zeta. cbn [player_in existsb negb app].
  rewrite (lookup_after_reset _ _ _ _ _ Hin).
  destruct (user_exists (users db)
              (mp_user (fresh_permission m (player p) name (entity p))))
    eqn:Hu.
  2: { cbn. discriminate. }
  cbn [assign_permissions mret fst snd]. intros _.
  set (rows1 := qs_delete (scope_permissions m (player p) (entity p))
                          (map_properties db)).
  set (fresh := fresh_permission m (player p) name (entity p)).
  assert (Hm' : maps_by_ids (set_map_properties db (rows1 ++ [fresh])%list)
                            cid mid = [m]) by exact Hm.
  rewrite (map_permissions_run _ _ _ _ _ _ _ Hm').
  cbn [users map_properties set_map_properties].
  rewrite (assign_permissions_single (users db) m p _ name Hd Hu).
  cbn [fst snd].
  assert (Hagain : qs_delete (scope_permissions m (player p) (entity p))
                             (rows1 ++ [fresh])%list = rows1).
  { unfold qs_delete at 1. rewrite filter_app. cbn [filter].
    unfold fresh. rewrite (fresh_permission_in_scope _ _ _ _ Hin).
    cbn [negb]. rewrite app_nil_r.
    apply qs_delete_idempotent. }
  rewrite Hagain. reflexivity.
Qed.

End PermissionRetry.

(** ** Sync: pulls, retries and cursors *)

(** On a log in stamp order the cursor sent back is the stamp of a latest
    row among those newer than the cursor given. *)
Lemma new_cursor_latest campaign since rows b :
  StronglySorted earlier rows ->
  In b (actions_since campaign since rows) ->
  action_created b <= new_cursor since (actions_since campaign since rows).
Proof.
  intros Hs Hb. unfold new_cursor.
  destruct (qs_last (actions_since campaign since rows)) as [a|] eqn:El.
  - apply (StronglySorted_last earlier (actions_since campaign since rows) a);
      auto.
    + intros x. unfold earlier. lia.
    + apply StronglySorted_filter. exact Hs.
  - apply qs_last_None in El. rewrite El in Hb. contradiction.
Qed.

Section SyncMore.

Variable get_stacktrace_str : exn -> string.
Variable tick : Z -> Z.

(** X20.  A sync call with an empty body is a pull: it answers as a call
    with an empty list of actions does, and whatever it answers it leaves
    the database as it was. *)
Theorem update_actions_pull db user cid datetime_iso :
  update_actions get_stacktrace_str tick db user cid datetime_iso EmptyBody =
  update_actions get_stacktrace_str tick db user cid datetime_iso (Json [])
  /\ snd (update_actions get_stacktrace_str tick db user cid datetime_iso
                         EmptyBody) = db.
Proof.
  rewrite !update_actions_run.
  destruct (get_object_or_404 "Campaign" (campaigns_by_id db cid));
    [split; reflexivity|].
  cbn [decode_actions json_loads]. unfold ok. cbv beta iota.
  cbn [append_actions mret]. unfold ok. cbv beta iota.
  destruct (fromisoformat datetime_iso); split; reflexivity.
Qed.

(** X21.  The cursor is parsed only after the posted actions are stored:
    a call whose cursor does not parse answers 500, and the actions it
    posted are in the log all the same. *)
Theorem update_actions_bad_cursor db user cid actions_post campaign :
  campaigns_by_id db cid = [campaign] ->
  forallb (resolves db campaign) actions_post = true ->
  let out := update_actions get_stacktrace_str tick db user cid None
                            (Json actions_post) in
  fst out = mkResponse 500 (get_stacktrace_str ValueError) None
  /\ exists appended,
       actions (snd out) = (actions db ++ appended)%list
       /\ map action_data appended = map posted_data actions_post
       /\ Forall (fun a => action_user a = user_pk user) appended.
Proof.
  intros Hc Hres out.
  assert (Hout : exists db1 appended,
             out = (mkResponse 500 (get_stacktrace_str ValueError) None, db1)
             /\ actions db1 = (actions db ++ appended)%list
             /\ map action_data appended = map posted_data actions_post
             /\ Forall (fun a => action_user a = user_pk user) appended).
  { subst out. rewrite update_actions_run, Hc, get_object_or_404_single.
    unfold ok at 1. cbv beta iota.
    change (decode_actions (Json actions_post))
      with (@inr exn _ actions_post).
    cbv beta iota.
    pose proof (append_actions_resolved tick campaign user actions_post db
                                        Hres) as Hok.
    destruct (append_actions_extended tick campaign user actions_post db)
      as (appended & Hext & Hdata).
    destruct (append_actions tick campaign user actions_post db) as [r db1].
    cbn [fst snd] in Hok, Hext, Hdata. subst r. unfold ok at 1.
    cbv beta iota.
    destruct Hext as (_ & _ & _ & _ & _ & Hlog & Hown).
    exists db1, appended. split; [reflexivity|]. split; [exact Hlog|].
    split; [eapply Hdata; reflexivity|].
    eapply Forall_impl; [|exact Hown]. cbn. tauto. }
  destruct Hout as (db1 & appended & -> & Hlog & Hdata & Hown).
  cbn [fst snd]. split; [reflexivity|]. exists appended. auto.
Qed.

(** A sync call whose campaign exists, whose posted actions resolve and
    whose cursor parses answers 200 and extends the log by the posted
    actions. *)
Lemma update_actions_accepted db user cid since actions_post campaign :
  campaigns_by_id db cid = [campaign] ->
  forallb (resolves db campaign) actions_post = true ->
  exists db1 appended,
    append_actions tick campaign user actions_post db = (ok tt, db1)
    /\ log_extended campaign user db db1 appended
    /\ map action_data appended = map posted_data actions_post
    /\ update_actions get_stacktrace_str tick db user cid (Some since)
                      (Json actions_post) =
       (mkResponse 200
          ("Actions loaded (len=" ++ str_of_len (List.length actions_post)
             ++ "). Actions downloaded (len="
             ++ str_of_len
                  (List.length
                     (exclude_user user
                        (actions_since campaign since (actions db1))))
             ++ ")")
          (Some (mkSyncResult
                   (new_cursor since
                      (actions_since campaign since (actions db1)))
                   (map action_data
                        (exclude_user user
                           (actions_since campaign since (actions db1)))))),
        db1).
Proof.
  intros Hc Hres.
  pose proof (append_actions_resolved tick campaign user actions_post db Hres)
    as Hok.
  destruct (append_actions_extended tick campaign user actions_post db)
    as (appended & Hext & Hdata).
  destruct (append_actions tick campaign user actions_post db) as [r db1]
    eqn:Ha.
  cbn [fst snd] in Hok, Hext, Hdata. subst r.
  exists db1, appended. split; [reflexivity|]. split; [exact Hext|].
  split; [eapply Hdata; reflexivity|].
  rewrite update_actions_run, Hc, get_object_or_404_single.
  unfold ok at 1. cbv beta iota.
  change (decode_actions (Json actions_post)) with (@inr exn _ actions_post).
  cbv beta iota. rewrite Ha. reflexivity.
Qed.

(** X22.  The append is not idempotent: sending the same batch twice
    stores every posted action twice. *)
Theorem update_actions_retry_duplicates
  db user cid since since' actions_post campaign :
  campaigns_by_id db cid = [campaign] ->
  forallb (resolves db campaign) actions_post = true ->
  let out1 := update_actions get_stacktrace_str tick db user cid (Some since)
                             (Json actions_post) in
  let out2 := update_actions get_stacktrace_str tick (snd out1) user cid
                             (Some since') (Json actions_post) in
  status (fst out1) = 200 /\ status (fst out2) = 200
  /\ map action_data (actions (snd out2)) =
     (map action_data (actions db) ++ map posted_data actions_post
      ++ map posted_data actions_post)%list.
Proof.
  intros Hc Hres out1 out2; subst out2 out1.
  destruct (update_actions_accepted db user cid since actions_post campaign
                                    Hc Hres)
    as (db1 & app1 & _ & Hext1 & Hdata1 & ->).
  cbn [fst snd status]. split; [reflexivity|].
  destruct Hext1 as (_ & Hcamp & Hmaps & _ & _ & Hlog1 & _).
  assert (Hc1 : campaigns_by_id db1 cid = [campaign]).
  { unfold campaigns_by_id. rewrite Hcamp. exact Hc. }
  assert (Hres1 : forallb (resolves db1 campaign) actions_post = true).
  { rewrite forallb_forall in *. intros a Ha.
    rewrite (resolves_ext db) by exact Hmaps. apply Hres, Ha. }
  destruct (update_actions_accepted db1 user cid since' actions_post campaign
                                    Hc1 Hres1)
    as (db2 & app2 & _ & Hext2 & Hdata2 & ->).
  cbn [fst snd status]. split; [reflexivity|].
  destruct Hext2 as (_ & _ & _ & _ & _ & Hlog2 & _).
  rewrite Hlog2, Hlog1, !map_app, Hdata1, Hdata2, app_assoc. reflexivity.
Qed.

(** X23.  Whatever the request and its outcome, a sync call keeps the log
    in stamp order, provided the clock does not run backwards. *)
Theorem update_actions_keeps_order db user cid datetime_iso body :
  (forall t, t <= tick t) ->
  stamps_ordered db ->
  stamps_ordered (snd (update_actions get_stacktrace_str tick db user cid
                                      datetime_iso body)).
Proof.
  intros Hmono Hdb. rewrite update_actions_run.
  destruct (get_object_or_404 "Campaign" (campaigns_by_id db cid))
    as [e|campaign]; [exact Hdb|].
  destruct (decode_actions body) as [e|actions_post]; [exact Hdb|].
  pose proof (append_actions_ordered tick campaign user actions_post Hmono
                                     db Hdb) as Hdb'.
  destruct (append_actions tick campaign user actions_post db)
    as [[e|[]] db']; cbn [snd] in *; [exact Hdb'|].
  destruct (fromisoformat datetime_iso); exact Hdb'.
Qed.

(** X24.  Nothing is delivered twice: on a log in stamp order, a pull that
    gives back the cursor a sync call just answered with, by whatever
    user, gets no action and the same cursor again. *)
Theorem update_actions_then_pull db user user' cid datetime_iso body res :
  (forall t, t <= tick t) ->
  stamps_ordered db ->
  let out := update_actions get_stacktrace_str tick db user cid datetime_iso
                            body in
  content (fst out) = Some res ->
  content (fst (update_actions get_stacktrace_str tick (snd out) user' cid
                               (Some (sync_date res)) EmptyBody))
  = Some (mkSyncResult (sync_date res) []).
Proof.
  intros Hmono Hdb out Hres.
  destruct (update_actions_ok _ _ _ _ _ _ _ _ Hres)
    as (campaign & actions_post & since & Hc & Hb & Hd & Ha & Hr).
  fold out in Ha, Hr.
  pose proof (append_actions_ordered tick campaign user actions_post Hmono
                                     db Hdb) as [Hs _].
  destruct (append_actions_extended tick campaign user actions_post db)
    as (appended & Hext & _).
  rewrite Ha in Hs, Hext. cbn [snd] in Hs, Hext.
  destruct Hext as (_ & Hcamp & _).
  assert (Hc1 : campaigns_by_id (snd out) cid = [campaign]).
  { unfold campaigns_by_id. rewrite Hcamp. exact Hc. }
  rewrite update_actions_run, Hc1, get_object_or_404_single.
  unfold ok at 1. cbv beta iota.
  cbn [decode_actions]. unfold ok at 1. cbv beta iota.
  cbn [append_actions mret]. unfold ok at 1. cbv beta iota.
  cbn [fromisoformat]. unfold ok at 1. cbv beta iota zeta.
  cbn [fst content].
  assert (Hnone : actions_since campaign (sync_date res) (actions (snd out))
                  = []).
  { apply filter_none. intros a Hin.
    destruct ((action_campaign a =? campaign_pk campaign)
              && (sync_date res <? action_created a)) eqn:E; [|reflexivity].
    exfalso. apply andb_true_iff in E as [E1 E2].
    apply Z.eqb_eq in E1. apply Z.ltb_lt in E2.
    subst res. cbn [sync_date] in E2.
    pose proof (new_cursor_ge campaign since (actions (snd out))) as Hge.
    assert (Hnews : In a (actions_since campaign since (actions (snd out)))).
    { apply actions_since_In. split; [exact Hin|]. split; [exact E1|]. lia. }
    pose proof (new_cursor_latest campaign since (actions (snd out)) a Hs
                                  Hnews).
    lia. }
  rewrite Hnone. reflexivity.
Qed.

End SyncMore.

(** ** Map pull, log reset and map snapshots *)

Lemma map_actions_since_In tile_map rows a :
  In a (map_actions_since tile_map rows) <->
  In a rows /\ action_map a = Some (map_pk tile_map)
  /\ map_saved tile_map < action_created a.
Proof.
  unfold map_actions_since.
  rewrite filter_In, andb_true_iff, option_Z_eqb_eq, Z.ltb_lt. tauto.
Qed.

(** With one campaign under an id, the maps the id and a map id select
    are the maps of that campaign under the map id. *)
Lemma maps_by_ids_key db cid mid c :
  campaigns_by_id db cid = [c] ->
  maps_by_ids db cid mid = filter (map_key c mid) (maps db).
Proof.
  intros Hc. unfold maps_by_ids. apply filter_ext. intros m.
  unfold map_key. f_equal.
  assert (Hin : In c (campaigns db) /\ campaign_id c = cid).
  { assert (H : In c (campaigns_by_id db cid))
      by (rewrite Hc; left; reflexivity).
    apply filter_In in H as [H1 H2]. apply String.eqb_eq in H2. auto. }
  assert (Honly : forall x, In x (campaigns db) -> campaign_id x = cid ->
                            x = c).
  { intros x Hx Hid.
    assert (H : In x (campaigns_by_id db cid)).
    { apply filter_In. split; [exact Hx | apply String.eqb_eq, Hid]. }
    rewrite Hc in H. destruct H as [H|[]]. auto. }
  destruct (map_campaign m =? campaign_pk c) eqn:E.
  - apply existsb_exists. exists c. split; [tauto|]. cbv beta.
    apply Z.eqb_eq in E. rewrite E, Z.eqb_refl.
    apply String.eqb_eq. tauto.
  - destruct (existsb _ (campaigns db)) eqn:Ex; [|reflexivity].
    apply existsb_exists in Ex as (x & Hx & Hg).
    apply andb_true_iff in Hg as [Hpk Hid].
    apply Z.eqb_eq in Hpk. apply String.eqb_eq in Hid.
    rewrite (Honly x Hx Hid) in Hpk.
    apply Z.eqb_neq in E. congruence.
Qed.

Lemma map_key_assign c mid n d t m :
  map_key c mid m = true -> map_key c mid (map_assign n d t m) = true.
Proof. intros H. exact H. Qed.

Section MapReads.

Variable get_stacktrace_str : exn -> string.

(** X25.  The map pull answers with the actions of the map stamped after
    its last save, the caller's own included, in log order; the cursor it
    sends is never before the save, is the save itself when there is no
    such action and, on a log in stamp order, is not before any of
    them. *)
Theorem map_actions_since_save db user cid mid m :
  maps_by_ids db cid mid = [m] ->
  let rows := map_actions_since m (actions db) in
  exists date,
    map_actions get_stacktrace_str db user cid mid =
    mkResponse 200
      ("Actions loaded (len=" ++ str_of_len (List.length rows) ++ ")")
      (Some (mkSyncResult date (map action_data rows)))
    /\ (forall a, In a rows <->
                  In a (actions db) /\ action_map a = Some (map_pk m)
                  /\ map_saved m < action_created a)
    /\ map_saved m <= date
    /\ (rows = [] -> date = map_saved m)
    /\ (StronglySorted earlier (actions db) ->
        forall a, In a rows -> action_created a <= date).
Proof.
  intros Hm rows.
  exists (new_cursor (map_saved m) rows).
  split; [|split; [|split; [|split]]].
  - unfold map_actions, map_actions_try.
    rewrite Hm, get_object_or_404_single. reflexivity.
  - intros a. apply map_actions_since_In.
  - unfold new_cursor. destruct (qs_last rows) as [a|] eqn:El; [|lia].
    apply qs_last_In, map_actions_since_In in El. lia.
  - intros ->. reflexivity.
  - intros Hs a Ha. unfold new_cursor.
    destruct (qs_last rows) as [b|] eqn:El.
    + apply (StronglySorted_last earlier rows b); auto.
      * intros x. unfold earlier. lia.
      * apply StronglySorted_filter. exact Hs.
    + apply qs_last_None in El. rewrite El in Ha. contradiction.
Qed.

End MapReads.

Section LogReset.

Variable get_stacktrace_str : exn -> string.
Variable tick : Z -> Z.

(** X26.  Resetting the actions of a campaign removes every action of
    that campaign and none of another; a pull that follows, with any
    cursor that parses, gets no action and its own cursor back. *)
Theorem reset_actions_clears db user user' cid since c :
  campaigns_by_id db cid = [c] ->
  let out := reset_actions get_stacktrace_str db user cid in
  status (fst out) = 200
  /\ (forall a, In a (actions (snd out)) <->
                In a (actions db) /\ action_campaign a <> campaign_pk c)
  /\ content (fst (update_actions get_stacktrace_str tick (snd out) user'
                                  cid (Some since) EmptyBody))
     = Some (mkSyncResult since []).
Proof.
  intros Hc out.
  assert (Hout : out =
                 (mkResponse 200
                    ("Actions deleted (len="
                       ++ str_of_len
                            (List.length
                               (filter (fun a => action_campaign a
                                                 =? campaign_pk c)
                                       (actions db))) ++ ")")
                    (Some tt),
                  set_actions db
                    (qs_delete (fun a => action_campaign a =? campaign_pk c)
                               (actions db)))).
  { subst out. unfold reset_actions, reset_actions_try.
    unfold mbind at 1. unfold query at 1.
    rewrite Hc, get_object_or_404_single. reflexivity. }
  rewrite Hout. cbn [fst snd status actions set_actions].
  split; [reflexivity|]. split.
  - intros a. rewrite qs_delete_In, Z.eqb_neq. tauto.
  - set (db' := set_actions db _).
    assert (Hc' : campaigns_by_id db' cid = [c]) by exact Hc.
    rewrite update_actions_run, Hc', get_object_or_404_single.
    unfold ok at 1. cbv beta iota.
    cbn [decode_actions]. unfold ok at 1. cbv beta iota.
    cbn [append_actions mret]. unfold ok at 1. cbv beta iota.
    cbn [fromisoformat]. unfold ok at 1. cbv beta iota zeta.
    cbn [fst content].
    assert (Hnone : actions_since c since (actions db') = []).
    { apply filter_none. intros a Hin. subst db'.
      cbn [actions set_actions] in Hin.
      apply qs_delete_In in Hin as [_ Hin]. rewrite Hin. reflexivity. }
    rewrite Hnone. reflexivity.
Qed.

End LogReset.

Section MapSnapshots.

Variable get_stacktrace_str : exn -> string.
Variable tick : Z -> Z.
Variable decode_map : string -> MapDocument.
Variable blank_map : Map.

(** What a save does to the database, by what the decoder makes of the
    body, on a campaign that exists and with at most one map under the
    id. *)
Lemma save_map_run db user cid mid json_data c :
  campaigns_by_id db cid = [c] ->
  (List.length (filter (map_key c mid) (maps db)) <= 1)%nat ->
  exists rows1 x,
    filter (map_key c mid) rows1 = [x]
    /\ (forall g, (forall r, map_key c mid r = true -> g r = false) ->
                  filter g rows1 = filter g (maps db))
    /\ (filter (map_key c mid) (maps db) = [x] /\ rows1 = maps db
        \/ filter (map_key c mid) (maps db) = []
           /\ rows1 = (maps db ++ [x])%list
           /\ x = mkMap (next_map_pk (maps db)) (campaign_pk c) mid
                        (map_name blank_map) (map_data blank_map)
                        (map_saved blank_map))
    /\ save_map get_stacktrace_str tick decode_map blank_map db user cid mid
                json_data =
       match decode_map json_data with
       | NotJson err =>
           (mkResponse 400 ("JSONDecodeError: " ++ err) None,
            with_maps db rows1)
       | NoName =>
           (mkResponse 500 (get_stacktrace_str (KeyError "name")) None,
            with_maps db rows1)
       | Named n =>
           (mkResponse 200 ("Map saved (name=" ++ n ++ ", id=" ++ mid ++ ")")
                       (Some (tick (clock db))),
            with_maps (set_clock db (tick (clock db)))
              (qs_update (map_key c mid)
                         (map_assign n json_data (tick (clock db))) rows1))
       end.
Proof.
  intros Hc Hlen.
  unfold save_map, save_map_try.
  unfold mbind at 1. unfold query at 1.
  rewrite Hc, get_object_or_404_single. unfold ok at 1. cbv beta iota.
  unfold mbind at 1, on_maps, get_or_create.
  destruct (filter (map_key c mid) (maps db)) as [|x [|y l]] eqn:F.
  - exists (maps db ++ [mkMap (next_map_pk (maps db)) (campaign_pk c) mid
                              (map_name blank_map) (map_data blank_map)
                              (map_saved blank_map)])%list.
    eexists. split; [|split; [|split]].
    + rewrite filter_app, F. unfold map_key.
      cbn [filter map_campaign map_id app].
      rewrite Z.eqb_refl, String.eqb_refl. reflexivity.
    + intros g Hg. rewrite filter_app. cbn [filter].
      rewrite Hg; [apply app_nil_r|].
      unfold map_key. cbn. rewrite Z.eqb_refl, String.eqb_refl. reflexivity.
    + right. auto.
    + unfold ok at 1. cbv beta iota.
      unfold mbind at 1. unfold query at 1.
      destruct (decode_map json_data); reflexivity.
  - exists (maps db), x. split; [exact F|]. split; [auto|].
    split; [left; auto|].
    unfold ok at 1. cbv beta iota.
    unfold mbind at 1. unfold query at 1.
    destruct db; destruct (decode_map json_data); reflexivity.
  - cbn in Hlen. lia.
Qed.

Lemma load_map_run db user cid mid m :
  maps_by_ids db cid mid = [m] ->
  load_map get_stacktrace_str decode_map db user cid mid =
  match decode_map (map_data m) with
  | NotJson err => mkResponse 400 ("JSONDecodeError: " ++ err) None
  | _ =>
      mkResponse 200
        ("Map loaded (name=" ++ map_name m ++ ", id=" ++ mid ++ ")")
        (Some (mkMapSnapshot (map_saved m) (map_data m)))
  end.
Proof.
  intros Hm. unfold load_map, load_map_try.
  rewrite Hm, get_object_or_404_single. cbn [rbind ok].
  destruct (decode_map (map_data m)); reflexivity.
Qed.

(** X27.  A map saved is the map loaded: after a save that answered 200,
    loading the same map answers with the text that was saved and with
    the date the save answered. *)
Theorem save_map_then_load_map db user user' cid mid json_data c :
  campaigns_by_id db cid = [c] ->
  (List.length (filter (map_key c mid) (maps db)) <= 1)%nat ->
  let out := save_map get_stacktrace_str tick decode_map blank_map db user
                      cid mid json_data in
  status (fst out) = 200 ->
  exists saved,
    content (fst out) = Some saved
    /\ saved = tick (clock db)
    /\ status (load_map get_stacktrace_str decode_map (snd out) user' cid mid)
       = 200
    /\ content (load_map get_stacktrace_str decode_map (snd out) user' cid
                         mid)
       = Some (mkMapSnapshot saved json_data).
Proof.
  intros Hc Hlen out.
  destruct (save_map_run db user cid mid json_data c Hc Hlen)
    as (rows1 & x & Hone & _ & _ & Hrun).
  subst out. rewrite Hrun.
  destruct (decode_map json_data) as [err| |n] eqn:Hdec;
    cbn [fst snd status]; try discriminate.
  intros _. exists (tick (clock db)).
  split; [reflexivity|]. split; [reflexivity|].
  set (db' := with_maps _ _).
  assert (Hc' : campaigns_by_id db' cid = [c]) by exact Hc.
  assert (Hm' : maps_by_ids db' cid mid =
                [map_assign n json_data (tick (clock db)) x]).
  { rewrite (maps_by_ids_key _ _ _ _ Hc'). subst db'.
    cbn [maps with_maps].
    rewrite qs_update_filter_selected, Hone; [reflexivity|].
    intros r. apply map_key_assign. }
  rewrite (load_map_run _ _ _ _ _ Hm').
  cbn [map_assign map_data map_saved map_name]. rewrite Hdec.
  split; reflexivity.
Qed.

(** X28.  A save replaces one map and only that one: afterwards the
    campaign has exactly one map under the id, holding the name, text and
    date of the save, and every other map, and every other table, is as
    it was. *)
Theorem save_map_upsert db user cid mid json_data c :
  campaigns_by_id db cid = [c] ->
  (List.length (filter (map_key c mid) (maps db)) <= 1)%nat ->
  let out := save_map get_stacktrace_str tick decode_map blank_map db user
                      cid mid json_data in
  status (fst out) = 200 ->
  exists n pk,
    decode_map json_data = Named n
    /\ filter (map_key c mid) (maps (snd out)) =
       [mkMap pk (campaign_pk c) mid n json_data (tick (clock db))]
    /\ (forall x, filter (map_key c mid) (maps db) = [x] -> pk = map_pk x)
    /\ filter (fun m => negb (map_key c mid m)) (maps (snd out)) =
       filter (fun m => negb (map_key c mid m)) (maps db)
    /\ snd out = with_maps (set_clock db (tick (clock db)))
                           (maps (snd out)).
Proof.
  intros Hc Hlen out.
  destruct (save_map_run db user cid mid json_data c Hc Hlen)
    as (rows1 & x & Hone & Hframe & Hx & Hrun).
  subst out. rewrite Hrun.
  destruct (decode_map json_data) as [err| |n] eqn:Hdec;
    cbn [fst snd status]; try discriminate.
  intros _. exists n, (map_pk x). split; [reflexivity|].
  cbn [maps with_maps set_clock].
  pose proof (filter_single_In _ _ _ Hone) as Hkey.
  unfold map_key in Hkey. apply andb_true_iff in Hkey as [Hk1 Hk2].
  apply Z.eqb_eq in Hk1. apply String.eqb_eq in Hk2.
  split; [|split; [|split; [|reflexivity]]].
  - rewrite qs_update_filter_selected, Hone;
      [|intros r; apply map_key_assign].
    cbn [map]. unfold map_assign. rewrite Hk1, Hk2. reflexivity.
  - intros y Hy. destruct Hx as [[Hx _]|[Hx _]].
    + rewrite Hx in Hy. inversion Hy. reflexivity.
    + rewrite Hx in Hy. discriminate.
  - rewrite qs_update_filter_other.
    + apply Hframe. intros r Hr. rewrite Hr. reflexivity.
    + intros r. apply map_key_assign.
    + intros r Hr. rewrite Hr. reflexivity.
Qed.

(** X29.  A save seeds the cursor of the map: when no action is stamped
    ahead of the clock and the clock does not run backwards, the map pull
    that follows a save gets no action and the date of the save. *)
Theorem save_map_then_map_actions db user user' cid mid json_data c :
  campaigns_by_id db cid = [c] ->
  (List.length (filter (map_key c mid) (maps db)) <= 1)%nat ->
  (forall t, t <= tick t) ->
  Forall (fun a => action_created a <= clock db) (actions db) ->
  let out := save_map get_stacktrace_str tick decode_map blank_map db user
                      cid mid json_data in
  status (fst out) = 200 ->
  content (map_actions get_stacktrace_str (snd out) user' cid mid)
  = Some (mkSyncResult (tick (clock db)) []).
Proof.
  intros Hc Hlen Hmono Hstamps out.
  destruct (save_map_run db user cid mid json_data c Hc Hlen)
    as (rows1 & x & Hone & _ & _ & Hrun).
  subst out. rewrite Hrun.
  destruct (decode_map json_data) as [err| |n] eqn:Hdec;
    cbn [fst snd status]; try discriminate.
  intros _.
  set (db' := with_maps _ _).
  assert (Hc' : campaigns_by_id db' cid = [c]) by exact Hc.
  assert (Hm' : maps_by_ids db' cid mid =
                [map_assign n json_data (tick (clock db)) x]).
  { rewrite (maps_by_ids_key _ _ _ _ Hc'). subst db'.
    cbn [maps with_maps].
    rewrite qs_update_filter_selected, Hone; [reflexivity|].
    intros r. apply map_key_assign. }
  unfold map_actions, map_actions_try.
  rewrite Hm', get_object_or_404_single. cbn [rbind ok respond content].
  assert (Hnone : map_actions_since
                    (map_assign n json_data (tick (clock db)) x)
                    (actions db') = []).
  { apply filter_none. intros a Hin.
    change (In a (actions db)) in Hin.
    rewrite Forall_forall in Hstamps. specialize (Hstamps a Hin).
    specialize (Hmono (clock db)). cbn [map_assign map_saved].
    destruct (tick (clock db) <? action_created a) eqn:E;
      [|apply andb_false_r].
    apply Z.ltb_lt in E. lia. }
  rewrite Hnone. reflexivity.
Qed.

(** X30.  The map row is made before the body is decoded: a save under a
    new map id whose body is not JSON answers 400 and still leaves a new
    map behind, filled with the model's defaults. *)
Theorem save_map_bad_body_leaves_map db user cid mid json_data c err :
  campaigns_by_id db cid = [c] ->
  filter (map_key c mid) (maps db) = [] ->
  decode_map json_data = NotJson err ->
  save_map get_stacktrace_str tick decode_map blank_map db user cid mid
           json_data =
  (mkResponse 400 ("JSONDecodeError: " ++ err) None,
   with_maps db
     (maps db ++ [mkMap (next_map_pk (maps db)) (campaign_pk c) mid
                        (map_name blank_map) (map_data blank_map)
                        (map_saved blank_map)])%list).
Proof.
  intros Hc Hnone Hdec.
  destruct (save_map_run db user cid mid json_data c Hc)
    as (rows1 & x & _ & _ & Hx & Hrun).
  { rewrite Hnone. cbn. lia. }
  rewrite Hrun, Hdec.
  destruct Hx as [[Hx _]|(_ & -> & ->)]; [|reflexivity].
  rewrite Hnone in Hx. discriminate.
Qed.

End MapSnapshots.

(** * The further properties at concrete inputs *)

Lemma save_campaign_property_read_back_witness :
  campaigns_by_id db_theme "moria" = [moria]
  /\ content (load_campaign_property plain_trace
                (snd (save_campaign_property plain_trace db_theme alice
                                             "moria" "theme" "swamp"))
                alice "moria" "theme")
     = Some [mkNameValue "theme" "swamp"].
Proof.
  assert (Hc : campaigns_by_id db_theme "moria" = [moria]) by reflexivity.
  assert (Hl : (List.length (cp_user_named_rows db_theme moria alice "theme")
                <= 1)%nat) by (cbn; lia).
  split; [exact Hc|].
  rewrite (proj2 (save_campaign_property_read_back plain_trace db_theme alice
                    "moria" "theme" "swamp" moria Hc Hl)).
  reflexivity.
Defined.

Lemma save_campaign_property_upsert_witness :
  campaigns_by_id db_party "moria" = [moria]
  /\ filter (fun p => negb (cp_user_key moria alice "theme" p))
            (campaign_properties
               (snd (save_campaign_property plain_trace db_party alice
                                            "moria" "theme" "swamp"))) =
     filter (fun p => negb (cp_user_key moria alice "theme" p))
            (campaign_properties db_party).
Proof.
  assert (Hc : campaigns_by_id db_party "moria" = [moria]) by reflexivity.
  assert (Hl : (List.length (cp_user_named_rows db_party moria alice "theme")
                <= 1)%nat) by (cbn; lia).
  split; [exact Hc|].
  exact (proj1 (proj2 (proj2 (save_campaign_property_upsert plain_trace
                                db_party alice "moria" "theme" "swamp" moria
                                Hc Hl)))).
Defined.

Lemma save_campaign_property_twice_witness :
  campaigns_by_id db_theme "moria" = [moria]
  /\ map cp_name_value
       (cp_user_named_rows
          (snd (save_campaign_property plain_trace
                  (snd (save_campaign_property plain_trace db_theme alice
                                               "moria" "theme" "swamp"))
                  alice "moria" "theme" "tundra"))
          moria alice "theme") = [mkNameValue "theme" "tundra"].
Proof.
  assert (Hc : campaigns_by_id db_theme "moria" = [moria]) by reflexivity.
  assert (Hl : (List.length (cp_user_named_rows db_theme moria alice "theme")
                <= 1)%nat) by (cbn; lia).
  split; [exact Hc|].
  exact (proj2 (proj2 (save_campaign_property_twice plain_trace db_theme
                         alice "moria" "theme" "swamp" "tundra" moria
                         Hc Hl))).
Defined.

Lemma default_campaign_property_read_witness :
  campaigns_by_id db_party "moria" = [moria]
  /\ content (load_campaign_property plain_trace
                (snd (default_campaign_property plain_trace db_party alice
                                                "moria" "theme" "swamp"))
                alice "moria" "theme")
     = Some [mkNameValue "theme" "desert"]
  /\ content (load_campaign_property plain_trace
                (snd (default_campaign_property plain_trace db_party alice
                                                "moria" "theme" "swamp"))
                bob "moria" "theme")
     = Some [mkNameValue "theme" "swamp"].
Proof.
  assert (Hc : campaigns_by_id db_party "moria" = [moria]) by reflexivity.
  assert (Hl : (List.length (cp_default_named_rows db_party moria "theme")
                <= 1)%nat) by (cbn; lia).
  split; [exact Hc|].
  pose proof (proj2 (default_campaign_property_read plain_trace db_party
                       alice "moria" "theme" "swamp" moria Hc Hl)) as H.
  split; [exact (H alice) | exact (H bob)].
Defined.

Lemma delete_campaign_property_falls_back_witness :
  campaigns_by_id db_party "moria" = [moria]
  /\ cp_user_named_rows db_party moria alice "theme" =
     [mkCampaignProperty 1 (Some alice) "theme" "desert"]
  /\ content (load_campaign_property plain_trace
                (snd (delete_campaign_property plain_trace db_party alice
                                               "moria" "theme"))
                alice "moria" "theme")
     = Some [mkNameValue "theme" "forest"].
Proof.
  assert (Hc : campaigns_by_id db_party "moria" = [moria]) by reflexivity.
  assert (Hp : cp_user_named_rows db_party moria alice "theme" =
               [mkCampaignProperty 1 (Some alice) "theme" "desert"])
    by reflexivity.
  split; [exact Hc|]. split; [exact Hp|].
  exact (proj2 (proj2 (proj2 (proj2
           (delete_campaign_property_falls_back plain_trace db_party alice
              "moria" "theme" moria _ Hc Hp))))).
Defined.

Lemma delete_campaign_property_missing_witness :
  campaigns_by_id db_party "moria" = [moria]
  /\ cp_user_named_rows db_party moria bob "theme" = []
  /\ cp_default_named_rows db_party moria "theme" <> []
  /\ snd (delete_campaign_property plain_trace db_party bob "moria" "theme")
     = db_party.
Proof.
  assert (Hc : campaigns_by_id db_party "moria" = [moria]) by reflexivity.
  assert (Hn : cp_user_named_rows db_party moria bob "theme" = [])
    by reflexivity.
  split; [exact Hc|]. split; [exact Hn|]. split; [discriminate|].
  rewrite (delete_campaign_property_missing plain_trace db_party bob "moria"
             "theme" moria Hc Hn).
  reflexivity.
Defined.

Lemma load_campaign_properties_override_witness :
  In (mkNameValue "theme" "desert")
     [mkNameValue "IS_MASTER" ""; mkNameValue "IS_PLAYER" "";
      mkNameValue "theme" "desert"; mkNameValue "music" "drums"]
  /\ exists c, campaigns_by_id db_party "moria" = [c].
Proof.
  split; [right; right; left; reflexivity|].
  destruct (load_campaign_properties_override plain_trace db_party alice
              "moria"
              (mkCampaignDetail 1000
                 [mkNameValue "IS_MASTER" ""; mkNameValue "IS_PLAYER" "";
                  mkNameValue "theme" "desert"; mkNameValue "music" "drums"]
                 [mkMapRef "Armory" "armory"; mkMapRef "Great Hall" "hall"]
                 [mkPlayer "alice" 1 true; mkPlayer "bob" 2 false])
              eq_refl) as (c & Hc & _).
  exists c. exact Hc.
Defined.

Lemma load_campaign_maps_sorted_witness :
  exists c,
    campaigns_by_id db_party "moria" = [c]
    /\ Sorted (fun a b => name_le (ref_name a) (ref_name b))
              [mkMapRef "Armory" "armory"; mkMapRef "Great Hall" "hall"].
Proof.
  destruct (load_campaign_maps_sorted plain_trace db_party alice "moria"
              (mkCampaignDetail 1000
                 [mkNameValue "IS_MASTER" ""; mkNameValue "IS_PLAYER" "";
                  mkNameValue "theme" "desert"; mkNameValue "music" "drums"]
                 [mkMapRef "Armory" "armory"; mkMapRef "Great Hall" "hall"]
                 [mkPlayer "alice" 1 true; mkPlayer "bob" 2 false])
              eq_refl) as (c & Hc & Hs & _).
  exists c. split; [exact Hc | exact Hs].
Defined.

Lemma load_campaign_players_witness :
  exists c master mu,
    campaigns_by_id db_party "moria" = [c]
    /\ cp_named_rows db_party c "IS_MASTER" = [master]
    /\ cp_user master = Some mu.
Proof.
  destruct (load_campaign_players plain_trace db_party alice "moria"
              (mkCampaignDetail 1000
                 [mkNameValue "IS_MASTER" ""; mkNameValue "IS_PLAYER" "";
                  mkNameValue "theme" "desert"; mkNameValue "music" "drums"]
                 [mkMapRef "Armory" "armory"; mkMapRef "Great Hall" "hall"]
                 [mkPlayer "alice" 1 true; mkPlayer "bob" 2 false])
              eq_refl) as (c & master & mu & Hc & Hm & Hu & _).
  exists c, master, mu. auto.
Defined.

Lemma save_map_property_listed_witness :
  maps_by_ids db_party "moria" "hall" = [hall]
  /\ filter (mp_user_key hall alice "zoom")
       (map_properties
          (snd (save_map_property plain_trace db_party alice "moria" "hall"
                                  "zoom" "3"))) =
     [mkMapProperty 10 (Some 1) "zoom" "3"].
Proof.
  assert (Hm : maps_by_ids db_party "moria" "hall" = [hall]) by reflexivity.
  assert (Hl : (List.length (filter (mp_user_key hall alice "zoom")
                                    (map_properties db_party)) <= 1)%nat)
    by (cbn; lia).
  split; [exact Hm|].
  exact (proj1 (proj2 (save_map_property_listed plain_trace db_party alice
                         "moria" "hall" "zoom" "3" hall Hm Hl))).
Defined.

Lemma default_map_property_listed_witness :
  maps_by_ids db_party "moria" "hall" = [hall]
  /\ filter (mp_default_key hall "fog")
       (map_properties
          (snd (default_map_property plain_trace db_party alice "moria"
                                     "hall" "fog" "off"))) =
     [mkMapProperty 10 None "fog" "off"].
Proof.
  assert (Hm : maps_by_ids db_party "moria" "hall" = [hall]) by reflexivity.
  assert (Hl : (List.length (filter (mp_default_key hall "fog")
                                    (map_properties db_party)) <= 1)%nat)
    by (cbn; lia).
  split; [exact Hm|].
  exact (proj1 (proj2 (default_map_property_listed plain_trace db_party alice
                         "moria" "hall" "fog" "off" hall Hm Hl))).
Defined.

Lemma delete_map_property_cases_witness :
  maps_by_ids db_party "moria" "hall" = [hall]
  /\ snd (delete_map_property plain_trace db_party bob "moria" "hall" "fog")
     = db_party.
Proof.
  assert (Hm : maps_by_ids db_party "moria" "hall" = [hall]) by reflexivity.
  split; [exact Hm|].
  pose proof (delete_map_property_cases plain_trace db_party bob "moria"
                "hall" "fog" hall Hm) as H.
  cbv zeta in H.
  change (filter (mp_user_key hall bob "fog") (map_properties db_party))
    with (@nil MapProperty) in H.
  cbv iota in H. rewrite H. reflexivity.
Defined.

Lemma reset_permissions_clears_witness :
  maps_by_ids db_party "moria" "hall" = [hall]
  /\ ~ In (mkMapProperty 10 None "SHARED_NAME" "E")
          (map_properties
             (snd (reset_permissions plain_trace plain_repr db_party alice
                                     "moria" "hall" (Json ["E"]))))
  /\ In (mkMapProperty 10 (Some 2) "SHARED_VISION" "F")
        (map_properties
           (snd (reset_permissions plain_trace plain_repr db_party alice
                                   "moria" "hall" (Json ["E"])))).
Proof.
  assert (Hm : maps_by_ids db_party "moria" "hall" = [hall]) by reflexivity.
  split; [exact Hm|].
  destruct (reset_permissions_clears plain_trace plain_repr db_party alice
              "moria" "hall" ["E"] hall Hm) as (_ & Hiff & _).
  split.
  - intros Hin. apply Hiff in Hin as [_ Hn]. apply Hn.
    cbn. intuition.
  - apply Hiff. split; [cbn; intuition|].
    intros (_ & _ & [H|[]]). discriminate H.
Defined.

Lemma default_permissions_scope_witness :
  maps_by_ids db_party "moria" "hall" = [hall]
  /\ In (mkMapProperty 10 (Some 2) "SHARED_VISION" "E")
        (map_properties
           (snd (default_permissions plain_trace plain_repr db_party alice
                   "moria" "hall"
                   (Json (mkDefaultRequest ["E"] (Some []))))))
  /\ ~ In (mkMapProperty 10 None "SHARED_NAME" "E")
          (map_properties
             (snd (default_permissions plain_trace plain_repr db_party alice
                     "moria" "hall"
                     (Json (mkDefaultRequest ["E"] (Some [])))))).
Proof.
  assert (Hm : maps_by_ids db_party "moria" "hall" = [hall]) by reflexivity.
  split; [exact Hm|].
  destruct (default_permissions_scope plain_trace plain_repr db_party alice
              "moria" "hall" ["E"] (Some []) hall Hm) as (_ & Hiff).
  split.
  - apply Hiff. split; [cbn; intuition|].
    intros (Hs & _). cbn in Hs. discriminate Hs.
  - intros Hin. apply Hiff in Hin as [_ Hn]. apply Hn.
    cbn. intuition.
Defined.

Lemma map_permissions_rejected_witness :
  maps_by_ids db_party "moria" "cellar" = []
  /\ snd (map_permissions plain_trace db_party alice "moria" "cellar"
                          control_to_bob) = db_party.
Proof.
  assert (Hm : maps_by_ids db_party "moria" "cellar" = []) by reflexivity.
  split; [exact Hm|].
  rewrite (proj1 (map_permissions_rejected plain_trace db_party alice "moria"
                    "cellar" control_to_bob) Hm).
  reflexivity.
Defined.

Lemma map_permissions_frame_witness :
  maps_by_ids db_party "moria" "hall" = [hall]
  /\ In (mkMapProperty 10 None "fog" "on")
        (map_properties
           (snd (map_permissions plain_trace db_party alice "moria" "hall"
                                 (Json two_entities_to_bob)))).
Proof.
  assert (Hm : maps_by_ids db_party "moria" "hall" = [hall]) by reflexivity.
  split; [exact Hm|].
  apply (proj1 (map_permissions_frame plain_trace db_party alice "moria"
                  "hall" two_entities_to_bob hall Hm)).
  - left. reflexivity.
  - intros (_ & Hn & _). cbn in Hn.
    repeat (destruct Hn as [Hn|Hn]; [discriminate Hn|]). exact Hn.
Defined.

Lemma map_permissions_second_entity_kept_witness :
  maps_by_ids db_party "moria" "hall" = [hall]
  /\ "F" <> "E"
  /\ In (mkMapProperty 10 (Some 2) "SHARED_VISION" "F")
        (map_properties
           (snd (map_permissions plain_trace db_party alice "moria" "hall"
                                 (Json two_entities_to_bob))))
  /\ ~ In (mkMapProperty 10 (Some 2) "SHARED_VISION" "E")
          (map_properties
             (snd (map_permissions plain_trace db_party alice "moria" "hall"
                                   (Json two_entities_to_bob)))).
Proof.
  assert (Hm : maps_by_ids db_party "moria" "hall" = [hall]) by reflexivity.
  assert (Hne : "F" <> "E") by discriminate.
  split; [exact Hm|]. split; [exact Hne|]. split.
  - apply (map_permissions_second_entity_kept plain_trace db_party alice
             "moria" "hall" (mkPermission "E" (Some 2) "control")
             (mkPermission "F" (Some 2) "control") hall Hm eq_refl Hne).
    + cbn. intuition.
    + reflexivity.
  - vm_compute. intuition discriminate.
Defined.

Lemma map_permissions_retry_witness :
  maps_by_ids db_control "moria" "hall" = [hall]
  /\ status (fst (map_permissions plain_trace db_control alice "moria" "hall"
                                  control_to_bob)) = 200
  /\ snd (map_permissions plain_trace
            (snd (map_permissions plain_trace db_control alice "moria" "hall"
                                  control_to_bob))
            alice "moria" "hall" control_to_bob) =
     snd (map_permissions plain_trace db_control alice "moria" "hall"
                          control_to_bob).
Proof.
  assert (Hm : maps_by_ids db_control "moria" "hall" = [hall])
    by reflexivity.
  split; [exact Hm|]. split; [reflexivity|].
  exact (f_equal snd
           (map_permissions_retry plain_trace db_control alice "moria" "hall"
              (mkPermission "E" (Some 2) "control") hall Hm eq_refl)).
Defined.

Lemma update_actions_bad_cursor_witness :
  campaigns_by_id db_log "moria" = [moria]
  /\ status (fst (update_actions plain_trace Z.succ db_log alice "moria" None
                                 post_P)) = 500
  /\ exists appended,
       actions (snd (update_actions plain_trace Z.succ db_log alice "moria"
                                    None post_P)) =
       (actions db_log ++ appended)%list
       /\ map action_data appended = ["P"].
Proof.
  assert (Hc : campaigns_by_id db_log "moria" = [moria]) by reflexivity.
  split; [exact Hc|]. split; [reflexivity|].
  destruct (update_actions_bad_cursor plain_trace Z.succ db_log alice "moria"
              [mkPostedAction None "P"] moria Hc eq_refl)
    as (_ & appended & Hlog & Hdata & _).
  exists appended. split; [exact Hlog | exact Hdata].
Defined.

Lemma update_actions_retry_duplicates_witness :
  campaigns_by_id db_log "moria" = [moria]
  /\ map action_data
       (actions
          (snd (update_actions plain_trace Z.succ
                  (snd (update_actions plain_trace Z.succ db_log alice
                                       "moria" (Some 0) post_P))
                  alice "moria" (Some 0) post_P))) = ["Q"; "P"; "P"].
Proof.
  assert (Hc : campaigns_by_id db_log "moria" = [moria]) by reflexivity.
  split; [exact Hc|].
  exact (proj2 (proj2 (update_actions_retry_duplicates plain_trace Z.succ
                         db_log alice "moria" 0 0 [mkPostedAction None "P"]
                         moria Hc eq_refl))).
Defined.

Lemma update_actions_keeps_order_witness :
  stamps_ordered db_log
  /\ stamps_ordered (snd (update_actions plain_trace Z.succ db_log alice
                                         "moria" (Some 0) post_P)).
Proof.
  assert (Hmono : forall t, t <= Z.succ t) by (intros t; lia).
  assert (Hdb : stamps_ordered db_log).
  { split; repeat constructor. cbn. lia. }
  split; [exact Hdb|].
  exact (update_actions_keeps_order plain_trace Z.succ db_log alice "moria"
                                    (Some 0) post_P Hmono Hdb).
Defined.

Lemma update_actions_then_pull_witness :
  stamps_ordered db_log
  /\ content (fst (update_actions plain_trace Z.succ
                     (snd (update_actions plain_trace Z.succ db_log alice
                                          "moria" (Some 0) post_P))
                     bob "moria" (Some 101) EmptyBody))
     = Some (mkSyncResult 101 []).
Proof.
  assert (Hmono : forall t, t <= Z.succ t) by (intros t; lia).
  assert (Hdb : stamps_ordered db_log).
  { split; repeat constructor. cbn. lia. }
  split; [exact Hdb|].
  exact (update_actions_then_pull plain_trace Z.succ db_log alice bob "moria"
           (Some 0) post_P (mkSyncResult 101 ["Q"]) Hmono Hdb eq_refl).
Defined.

Lemma map_actions_since_save_witness :
  maps_by_ids db_party "moria" "hall" = [hall]
  /\ exists date,
       map_actions plain_trace db_party alice "moria" "hall" =
       mkResponse 200 "Actions loaded (len=1)"
                  (Some (mkSyncResult date ["R"]))
       /\ 2000 <= date.
Proof.
  assert (Hm : maps_by_ids db_party "moria" "hall" = [hall]) by reflexivity.
  split; [exact Hm|].
  destruct (map_actions_since_save plain_trace db_party alice "moria" "hall"
              hall Hm) as (date & Hresp & _ & Hle & _).
  exists date. split; [exact Hresp | exact Hle].
Defined.

Lemma reset_actions_clears_witness :
  campaigns_by_id db_party "moria" = [moria]
  /\ content (fst (update_actions plain_trace Z.succ
                     (snd (reset_actions plain_trace db_party alice "moria"))
                     bob "moria" (Some 0) EmptyBody))
     = Some (mkSyncResult 0 []).
Proof.
  assert (Hc : campaigns_by_id db_party "moria" = [moria]) by reflexivity.
  split; [exact Hc|].
  exact (proj2 (proj2 (reset_actions_clears plain_trace Z.succ db_party alice
                         bob "moria" 0 moria Hc))).
Defined.

Lemma save_map_then_load_map_witness :
  campaigns_by_id db_party "moria" = [moria]
  /\ exists saved,
       saved = 3001
       /\ content (load_map plain_trace sample_decode
                     (snd (save_map plain_trace Z.succ sample_decode
                                    sample_blank db_party alice "moria"
                                    "crypt" "{name: Crypt}"))
                     bob "moria" "crypt")
          = Some (mkMapSnapshot saved "{name: Crypt}").
Proof.
  assert (Hc : campaigns_by_id db_party "moria" = [moria]) by reflexivity.
  assert (Hl : (List.length (filter (map_key moria "crypt") (maps db_party))
                <= 1)%nat) by (cbn; lia).
  split; [exact Hc|].
  destruct (save_map_then_load_map plain_trace Z.succ sample_decode
              sample_blank db_party alice bob "moria" "crypt"
              "{name: Crypt}" moria Hc Hl eq_refl)
    as (saved & _ & Hs & _ & Hload).
  exists saved. split; [exact Hs | exact Hload].
Defined.

Lemma save_map_upsert_witness :
  campaigns_by_id db_party "moria" = [moria]
  /\ filter (fun m => negb (map_key moria "hall" m))
            (maps (snd (save_map plain_trace Z.succ sample_decode
                                 sample_blank db_party alice "moria" "hall"
                                 "{name: Great Hall}"))) = [armory].
Proof.
  assert (Hc : campaigns_by_id db_party "moria" = [moria]) by reflexivity.
  assert (Hl : (List.length (filter (map_key moria "hall") (maps db_party))
                <= 1)%nat) by (cbn; lia).
  split; [exact Hc|].
  destruct (save_map_upsert plain_trace Z.succ sample_decode sample_blank
              db_party alice "moria" "hall" "{name: Great Hall}" moria
              Hc Hl eq_refl)
    as (n & pk & _ & _ & _ & Hframe & _).
  rewrite Hframe. reflexivity.
Defined.

Lemma save_map_then_map_actions_witness :
  campaigns_by_id db_party "moria" = [moria]
  /\ Forall (fun a => action_created a <= clock db_party) (actions db_party)
  /\ content (map_actions plain_trace
                (snd (save_map plain_trace Z.succ sample_decode sample_blank
                               db_party alice "moria" "hall"
                               "{name: Great Hall}"))
                bob "moria" "hall")
     = Some (mkSyncResult 3001 []).
Proof.
  assert (Hc : campaigns_by_id db_party "moria" = [moria]) by reflexivity.
  assert (Hl : (List.length (filter (map_key moria "hall") (maps db_party))
                <= 1)%nat) by (cbn; lia).
  assert (Hmono : forall t, t <= Z.succ t) by (intros t; lia).
  assert (Hst : Forall (fun a => action_created a <= clock db_party)
                       (actions db_party)).
  { repeat constructor; cbn; lia. }
  split; [exact Hc|]. split; [exact Hst|].
  exact (save_map_then_map_actions plain_trace Z.succ sample_decode
           sample_blank db_party alice bob "moria" "hall"
           "{name: Great Hall}" moria Hc Hl Hmono Hst eq_refl).
Defined.

Lemma save_map_bad_body_leaves_map_witness :
  campaigns_by_id db_party "moria" = [moria]
  /\ filter (map_key moria "crypt") (maps db_party) = []
  /\ status (fst (save_map plain_trace Z.succ sample_decode sample_blank
                           db_party alice "moria" "crypt" "")) = 400
  /\ map map_id
       (maps (snd (save_map plain_trace Z.succ sample_decode sample_blank
                            db_party alice "moria" "crypt" ""))) =
     ["hall"; "armory"; "crypt"].
Proof.
  assert (Hc : campaigns_by_id db_party "moria" = [moria]) by reflexivity.
  assert (Hn : filter (map_key moria "crypt") (maps db_party) = [])
    by reflexivity.
  split; [exact Hc|]. split; [exact Hn|].
  rewrite (save_map_bad_body_leaves_map plain_trace Z.succ sample_decode
             sample_blank db_party alice "moria" "crypt" "" moria
             empty_body_error Hc Hn eq_refl).
  split; reflexivity.
Defined.
